(** * Newjilo backend: ownership-scoped records, analysis endpoints, bearer guard

    A shallow embedding of the FastAPI handlers ([api/*.py]), of the Supabase
    adapter ([services/supabase_service.py]) and of the pure post-processing
    of the pneumonia classifier ([models/pneumonia_model.py]).

    - Python values that travel through the handlers (dicts, lists, strings,
      ints, floats, [None]) are the constructors of [value]; a dict is an
      association list in insertion order, as a Python dict is.
    - A Python [float] is an IEEE binary64 number: Rocq's primitive [float].
    - Everything outside the repository (identity provider, object storage,
      tables, the pretrained pipelines, PIL, the clock) is one record,
      [World]; a handler is a function from the world to an outcome and the
      next world.  Every call that leaves the process is appended to the
      world's [log].
    - A Python exception is the [Raise] outcome; [try]/[except] is
      [try_except]. *)

From Stdlib Require Import ZArith Floats Lia Ascii String.
From stdpp Require Import base option list sorting strings pretty gmap.

Set Warnings "-inexact-float,-register-all".
Set Default Proof Using "Type".

Open Scope string_scope.

(* ================================================================== *)
(** ** Python strings *)
(* ================================================================== *)

Module Py.

(** [s.startswith(p)] *)
Definition startswith (s p : string) : bool := String.prefix p s.

(** [p in s] for strings. *)
Fixpoint contains (s p : string) : bool :=
  String.prefix p s ||
  match s with
  | EmptyString => false
  | String _ s' => contains s' p
  end.

(** [s.replace(old, new)] scans [s] from the left; at an occurrence of [old]
    it emits [new] and resumes after the occurrence, so occurrences never
    overlap.  [skip] counts the characters of the occurrence still to be
    stepped over. *)
Fixpoint replace_from (old new : string) (skip : nat) (s : string) : string :=
  match s with
  | EmptyString => EmptyString
  | String c s' =>
      match skip with
      | S k => replace_from old new k s'
      | O =>
          if String.prefix old s
          then new ++ replace_from old new (String.length old - 1) s'
          else String c (replace_from old new 0 s')
      end
  end.

(** With an empty [old], Python puts [new] before every character and at the
    end. *)
Fixpoint interleave (new s : string) : string :=
  match s with
  | EmptyString => new
  | String c s' => new ++ String c (interleave new s')
  end.

Definition replace (s old new : string) : string :=
  match old with
  | EmptyString => interleave new s
  | String _ _ => replace_from old new 0 s
  end.

(** [s.upper()] on ASCII text: the letters a-z are mapped to A-Z. *)
Definition upper_ascii (c : ascii) : ascii :=
  let n := nat_of_ascii c in
  if (97 <=? n)%nat && (n <=? 122)%nat then ascii_of_nat (n - 32) else c.

Fixpoint upper (s : string) : string :=
  match s with
  | EmptyString => EmptyString
  | String c s' => String (upper_ascii c) (upper s')
  end.

(** [s.split('.')[-1]]: the text after the last dot ([s] itself when there is
    none).  [acc] is the segment read since the last dot. *)
Fixpoint last_segment (acc s : string) : string :=
  match s with
  | EmptyString => acc
  | String c s' =>
      if Ascii.eqb c "."%char then last_segment EmptyString s'
      else last_segment (acc ++ String c EmptyString) s'
  end.

(** [filename.split('.')[-1] if '.' in filename else default] *)
Definition file_extension (filename default : string) : string :=
  if contains filename "." then last_segment EmptyString filename else default.

End Py.

(* ================================================================== *)
(** ** Python values *)
(* ================================================================== *)

Inductive value : Type :=
| VNone
| VBool (b : bool)
| VInt (n : Z)
| VFloat (x : float)
| VStr (s : string)
| VList (l : list value)
| VDict (d : list (string * value)).

Definition dict := list (string * value).

(** Truthiness, as [if v:] and [not v] see it. *)
Definition truthy (v : value) : bool :=
  match v with
  | VNone => false
  | VBool b => b
  | VInt n => negb (n =? 0)%Z
  | VFloat x => negb (PrimFloat.eqb x 0%float)
  | VStr s => negb (String.eqb s "")
  | VList l => match l with [] => false | _ => true end
  | VDict d => match d with [] => false | _ => true end
  end.

(** Lookup of a key in a dict. *)
Fixpoint assoc (k : string) (d : dict) : option value :=
  match d with
  | [] => None
  | (k', v) :: d' => if String.eqb k k' then Some v else assoc k d'
  end.

(** [d[k] = v]: an existing key keeps its position, a new key goes last. *)
Fixpoint dict_set (k : string) (v : value) (d : dict) : dict :=
  match d with
  | [] => [(k, v)]
  | (k', v') :: d' =>
      if String.eqb k k' then (k, v) :: d' else (k', v') :: dict_set k v d'
  end.

(** [d.update(e)] *)
Definition dict_update (d e : dict) : dict :=
  fold_left (fun acc kv => dict_set kv.1 kv.2 acc) e d.

(** The column of a row, [NULL] when the row has no such column. *)
Definition column (k : string) (r : dict) : value := default VNone (assoc k r).

(** Equality of scalars, as the data API's [eq] filter compares a column with
    the filter's value ([NULL] equals nothing).  The filters of this program
    compare ints and strings only. *)
Definition scalar_eqb (a b : value) : bool :=
  match a, b with
  | VBool x, VBool y => Bool.eqb x y
  | VInt x, VInt y => (x =? y)%Z
  | VFloat x, VFloat y => PrimFloat.eqb x y
  | VStr x, VStr y => String.eqb x y
  | _, _ => false
  end.

(** What an f-string prints for the values the handlers interpolate (strings,
    ints, booleans and [None]). *)
Definition format_value (v : value) : string :=
  match v with
  | VNone => "None"
  | VBool true => "True"
  | VBool false => "False"
  | VInt n => pretty n
  | VStr s => s
  | VFloat _ => "<float>"
  | VList _ => "[...]"
  | VDict _ => "{...}"
  end.

(* ================================================================== *)
(** ** Exceptions and the handler monad *)
(* ================================================================== *)

(** [HTTPException] is FastAPI's; every other exception is kept with the text
    [str(e)] gives. *)
Inductive exn : Type :=
| HTTPException (status_code : nat) (detail : value)
| Exception (msg : string).

(** [str(e)].  Starlette prints an [HTTPException] as
    ["{status_code}: {detail}"]. *)
Definition str (e : exn) : string :=
  match e with
  | HTTPException c d => pretty c ++ ": " ++ format_value d
  | Exception m => m
  end.

Inductive outcome (A : Type) : Type :=
| Return (a : A)
| Raise (e : exn).
Arguments Return {A} a.
Arguments Raise {A} e.

(** What a call into third-party code gives: a value, or an exception of
    that library, kept as its message.  (No library raises FastAPI's
    [HTTPException].) *)
Inductive result (A : Type) : Type :=
| Ok (a : A)
| Error (msg : string).
Arguments Ok {A} a.
Arguments Error {A} msg.

(* ================================================================== *)
(** ** The world outside the repository *)
(* ================================================================== *)

(** A user as the identity provider holds it. *)
Record auth_user : Type := {
  au_id : string;
  au_email : string;
  au_user_metadata : dict
}.

Record auth_session : Type := {
  access_token : string;
  refresh_token : string
}.

(** The calls that leave the process. *)
Inductive provider_op : Type :=
| OpGetUser | OpSignUp | OpSignIn | OpSignOut
| OpUpload | OpPublicUrl
| OpInsert | OpSelect | OpUpdate | OpDelete.

Inductive verb : Type :=
| Select
| Insert (data : dict)
| Update (data : dict)
| Delete.

(** A request to the data API, as the query builder accumulates it. *)
Record query : Type := {
  q_table : string;
  q_verb : verb;
  q_filters : list (string * value);
  q_order : option (string * bool);
  q_single : bool
}.

Inductive call : Type :=
| CallGetUser (token : string)
| CallSignUp (email : string)
| CallSignIn (email : string)
| CallSignOut
| CallUpload (bucket path : string)
| CallPublicUrl (bucket path : string)
| CallExecute (q : query)
| CallLoadPipeline (task model : string)
| CallInference (model : string).

(** The state of a model service object ([model_loaded], [loading_status],
    [loading_progress]). *)
Record model_state : Type := {
  model_loaded : bool;
  loading_status : string;
  loading_progress : Z
}.

Record World : Type := {
  (** identity provider: the user each access token resolves to *)
  auth_users : gmap string auth_user;
  sign_up_result : string -> string -> string -> result (option (auth_user * option auth_session));
  sign_in_result : string -> string -> result (option (auth_user * option auth_session));
  (** tables of the data API, with the id and timestamp it assigns next *)
  tables : gmap string (list dict);
  next_id : Z;
  clock : Z;
  (** object storage: bucket, path, bytes *)
  storage : list (string * string * list Byte.byte);
  public_url_prefix : string;
  (** a provider call that fails, with the message of its exception *)
  faults : provider_op -> option string;
  (** process-wide model services *)
  pneumonia_model_service : model_state;
  vision_model_service : model_state;
  clip_model_service : model_state;
  (** third-party code: uuid4, round, PIL, the pretrained pipelines, timers *)
  uuids : nat -> string;
  uuid_count : nat;
  round : float -> Z -> float;
  elapsed : float;
  image_open : list Byte.byte -> result string;
  pipeline_load : string -> string -> option string;
  pneumonia_pipe : list Byte.byte -> result (list (string * float));
  vision_pipe : list Byte.byte -> option string -> result value;
  clip_similarity_score : list Byte.byte -> string -> result float;
  mnist_probs : list Byte.byte -> result (list float);
  autoglm_pipe : string -> result (list dict);
  (** every call made so far, oldest first *)
  log : list call
}.

Definition with_log (l : list call) (w : World) : World :=
  {| auth_users := auth_users w; sign_up_result := sign_up_result w;
     sign_in_result := sign_in_result w; tables := tables w;
     next_id := next_id w; clock := clock w; storage := storage w;
     public_url_prefix := public_url_prefix w; faults := faults w;
     pneumonia_model_service := pneumonia_model_service w;
     vision_model_service := vision_model_service w;
     clip_model_service := clip_model_service w;
     uuids := uuids w; uuid_count := uuid_count w; round := round w;
     elapsed := elapsed w; image_open := image_open w;
     pipeline_load := pipeline_load w; pneumonia_pipe := pneumonia_pipe w;
     vision_pipe := vision_pipe w;
     clip_similarity_score := clip_similarity_score w;
     mnist_probs := mnist_probs w; autoglm_pipe := autoglm_pipe w;
     log := l |}.

Definition with_auth_users (u : gmap string auth_user) (w : World) : World :=
  {| auth_users := u; sign_up_result := sign_up_result w;
     sign_in_result := sign_in_result w; tables := tables w;
     next_id := next_id w; clock := clock w; storage := storage w;
     public_url_prefix := public_url_prefix w; faults := faults w;
     pneumonia_model_service := pneumonia_model_service w;
     vision_model_service := vision_model_service w;
     clip_model_service := clip_model_service w;
     uuids := uuids w; uuid_count := uuid_count w; round := round w;
     elapsed := elapsed w; image_open := image_open w;
     pipeline_load := pipeline_load w; pneumonia_pipe := pneumonia_pipe w;
     vision_pipe := vision_pipe w;
     clip_similarity_score := clip_similarity_score w;
     mnist_probs := mnist_probs w; autoglm_pipe := autoglm_pipe w;
     log := log w |}.

(** The data API after a write: the table's new rows, the next id and the
    next timestamp. *)
Definition with_table (t : string) (rows : list dict) (id' clock' : Z)
    (w : World) : World :=
  {| auth_users := auth_users w; sign_up_result := sign_up_result w;
     sign_in_result := sign_in_result w; tables := <[t := rows]> (tables w);
     next_id := id'; clock := clock'; storage := storage w;
     public_url_prefix := public_url_prefix w; faults := faults w;
     pneumonia_model_service := pneumonia_model_service w;
     vision_model_service := vision_model_service w;
     clip_model_service := clip_model_service w;
     uuids := uuids w; uuid_count := uuid_count w; round := round w;
     elapsed := elapsed w; image_open := image_open w;
     pipeline_load := pipeline_load w; pneumonia_pipe := pneumonia_pipe w;
     vision_pipe := vision_pipe w;
     clip_similarity_score := clip_similarity_score w;
     mnist_probs := mnist_probs w; autoglm_pipe := autoglm_pipe w;
     log := log w |}.

Definition with_storage (s : list (string * string * list Byte.byte))
    (w : World) : World :=
  {| auth_users := auth_users w; sign_up_result := sign_up_result w;
     sign_in_result := sign_in_result w; tables := tables w;
     next_id := next_id w; clock := clock w; storage := s;
     public_url_prefix := public_url_prefix w; faults := faults w;
     pneumonia_model_service := pneumonia_model_service w;
     vision_model_service := vision_model_service w;
     clip_model_service := clip_model_service w;
     uuids := uuids w; uuid_count := uuid_count w; round := round w;
     elapsed := elapsed w; image_open := image_open w;
     pipeline_load := pipeline_load w; pneumonia_pipe := pneumonia_pipe w;
     vision_pipe := vision_pipe w;
     clip_similarity_score := clip_similarity_score w;
     mnist_probs := mnist_probs w; autoglm_pipe := autoglm_pipe w;
     log := log w |}.

Definition with_uuid_count (n : nat) (w : World) : World :=
  {| auth_users := auth_users w; sign_up_result := sign_up_result w;
     sign_in_result := sign_in_result w; tables := tables w;
     next_id := next_id w; clock := clock w; storage := storage w;
     public_url_prefix := public_url_prefix w; faults := faults w;
     pneumonia_model_service := pneumonia_model_service w;
     vision_model_service := vision_model_service w;
     clip_model_service := clip_model_service w;
     uuids := uuids w; uuid_count := n; round := round w;
     elapsed := elapsed w; image_open := image_open w;
     pipeline_load := pipeline_load w; pneumonia_pipe := pneumonia_pipe w;
     vision_pipe := vision_pipe w;
     clip_similarity_score := clip_similarity_score w;
     mnist_probs := mnist_probs w; autoglm_pipe := autoglm_pipe w;
     log := log w |}.

Definition with_vision_model_service (m : model_state) (w : World) : World :=
  {| auth_users := auth_users w; sign_up_result := sign_up_result w;
     sign_in_result := sign_in_result w; tables := tables w;
     next_id := next_id w; clock := clock w; storage := storage w;
     public_url_prefix := public_url_prefix w; faults := faults w;
     pneumonia_model_service := pneumonia_model_service w;
     vision_model_service := m;
     clip_model_service := clip_model_service w;
     uuids := uuids w; uuid_count := uuid_count w; round := round w;
     elapsed := elapsed w; image_open := image_open w;
     pipeline_load := pipeline_load w; pneumonia_pipe := pneumonia_pipe w;
     vision_pipe := vision_pipe w;
     clip_similarity_score := clip_similarity_score w;
     mnist_probs := mnist_probs w; autoglm_pipe := autoglm_pipe w;
     log := log w |}.

(** A handler or adapter method returning an [A]. *)
Definition M (A : Type) : Type := World -> outcome A * World.

Definition ret {A} (a : A) : M A := fun w => (Return a, w).
Definition raise {A} (e : exn) : M A := fun w => (Raise e, w).
Definition bind {A B} (m : M A) (k : A -> M B) : M B :=
  fun w =>
    match m w with
    | (Return a, w') => k a w'
    | (Raise e, w') => (Raise e, w')
    end.

(** [try: m except Exception as e: h e].  [HTTPException] is a subclass of
    [Exception], so [h] sees it too. *)
Definition try_except {A} (m : M A) (h : exn -> M A) : M A :=
  fun w =>
    match m w with
    | (Return a, w') => (Return a, w')
    | (Raise e, w') => h e w'
    end.

(** [try: m except HTTPException: raise except Exception as e: h e] *)
Definition try_except_reraise_http {A} (m : M A) (h : exn -> M A) : M A :=
  try_except m (fun e =>
    match e with
    | HTTPException _ _ => raise e
    | Exception _ => h e
    end).

Notation "'let*' x ':=' m 'in' k" := (bind m (fun x => k))
  (at level 10, x name, m at level 100, k at level 200).

Definition get_world : M World := fun w => (Return w, w).

(** A change of the world that depends on nothing but the world. *)
Definition modify (f : World -> World) : M unit := fun w => (Return tt, f w).

(** The world after one more call. *)
Definition logged (c : call) (w : World) : World := with_log (log w ++ [c]) w.

Definition record_call (c : call) : M unit := fun w => (Return tt, logged c w).

(** A call into third-party code; its exception is a plain [Exception]. *)
Definition of_result {A} (r : result A) : M A :=
  fun w => (match r with
            | Ok a => Return a
            | Error msg => Raise (Exception msg)
            end, w).

(** A provider call: it is logged, then fails if the world says so. *)
Definition provider (op : provider_op) (c : call) : M unit :=
  let* _ := record_call c in
  let* w := get_world in
  match faults w op with
  | Some msg => raise (Exception msg)
  | None => ret tt
  end.

(** [v[k]] on a dict; on anything else, or on a missing key, Python raises. *)
Definition getitem (v : value) (k : string) : M value :=
  match v with
  | VDict d =>
      match assoc k d with
      | Some x => ret x
      | None => raise (Exception ("'" ++ k ++ "'"))
      end
  | VNone => raise (Exception "'NoneType' object is not subscriptable")
  | _ => raise (Exception "object is not subscriptable")
  end.

(** [v.get(k, default)]; only a dict has [get]. *)
Definition get (v : value) (k : string) (default : value) : M value :=
  match v with
  | VDict d => ret (match assoc k d with Some x => x | None => default end)
  | VNone => raise (Exception "'NoneType' object has no attribute 'get'")
  | _ => raise (Exception "object has no attribute 'get'")
  end.

(** [v[0]] *)
Definition index0 (v : value) : M value :=
  match v with
  | VList (x :: _) => ret x
  | VList [] => raise (Exception "list index out of range")
  | VNone => raise (Exception "'NoneType' object is not subscriptable")
  | _ => raise (Exception "object is not subscriptable")
  end.

(** [len(v)] *)
Definition len (v : value) : M value :=
  match v with
  | VList l => ret (VInt (Z.of_nat (length l)))
  | VStr s => ret (VInt (Z.of_nat (String.length s)))
  | VDict d => ret (VInt (Z.of_nat (length d)))
  | _ => raise (Exception "object has no len()")
  end.

(** [v[0] if v else None] *)
Definition first_or_none (v : value) : M value :=
  if truthy v then index0 v else ret VNone.

(* ================================================================== *)
(** ** The data API, object storage and the identity provider *)
(* ================================================================== *)

Module Provider.

(** Does a row pass every [eq] filter of the query? *)
Definition matches (filters : list (string * value)) (r : dict) : bool :=
  forallb (fun f => match assoc f.1 r with
                    | Some v => scalar_eqb v f.2
                    | None => false
                    end) filters.

Definition rank (v : value) : nat :=
  match v with
  | VNone => 0 | VBool _ => 1 | VInt _ => 2 | VFloat _ => 3
  | VStr _ => 4 | VList _ => 5 | VDict _ => 6
  end.

(** The order of column values.  Integers are ordered as numbers and text
    bytewise (ISO dates and timestamps sort chronologically); values of
    other kinds, which this program never orders by, are ordered by kind. *)
Definition value_leb (a b : value) : bool :=
  match a, b with
  | VInt x, VInt y => (x <=? y)%Z
  | VStr x, VStr y => String.leb x y
  | VBool x, VBool y => implb x y
  | _, _ => (rank a <=? rank b)%nat
  end.

(** [r1] may come before [r2] in a result ordered by [col]. *)
Definition row_before (col : string) (desc : bool) (r1 r2 : dict) : Prop :=
  if desc then value_leb (column col r2) (column col r1)
  else value_leb (column col r1) (column col r2).

#[global] Instance row_before_dec col desc r1 r2 :
  Decision (row_before col desc r1 r2).
Proof. unfold row_before. destruct desc; apply _. Defined.

Definition op_of (v : verb) : provider_op :=
  match v with
  | Select => OpSelect
  | Insert _ => OpInsert
  | Update _ => OpUpdate
  | Delete => OpDelete
  end.

(** The message of the error the data API answers when [single()] was asked
    for and the result does not have exactly one row. *)
Definition single_row_error : string :=
  "JSON object requested, multiple (or no) rows returned".

(** What the data API does with a query, and the value of [response.data]:
    - select: the rows passing the filters, ordered if asked; with
      [single()], the one row, or an error when there is not exactly one;
    - insert: the row with the id and timestamp the server assigns;
    - update: the rows passing the filters, updated;
    - delete: the rows passing the filters, which leave the table. *)
Definition run_query (q : query) : M value :=
  let* w := get_world in
  let rows := default [] (tables w !! q_table q) in
  let hit := matches (q_filters q) in
  match q_verb q with
  | Select =>
      let hits := List.filter hit rows in
      let hits := match q_order q with
                  | Some (col, desc) => merge_sort (row_before col desc) hits
                  | None => hits
                  end in
      if q_single q then
        match hits with
        | [r] => ret (VDict r)
        | _ => raise (Exception single_row_error)
        end
      else ret (VList (VDict <$> hits))
  | Insert data =>
      let r := dict_set "created_at" (VInt (clock w))
                 (dict_set "id" (VInt (next_id w)) data) in
      let* _ := modify (with_table (q_table q) (rows ++ [r])
                             (next_id w + 1) (clock w + 1)) in
      ret (VList [VDict r])
  | Update data =>
      let rows' := (fun r => if hit r then dict_update r data else r) <$> rows in
      let* _ := modify (with_table (q_table q) rows' (next_id w) (clock w)) in
      ret (VList (VDict <$> ((fun r => dict_update r data) <$> List.filter hit rows)))
  | Delete =>
      let rows' := List.filter (fun r => negb (hit r)) rows in
      let* _ := modify (with_table (q_table q) rows' (next_id w) (clock w)) in
      ret (VList (VDict <$> List.filter hit rows))
  end.

(** [query.execute()] *)
Definition execute (q : query) : M value :=
  let* _ := provider (op_of (q_verb q)) (CallExecute q) in
  run_query q.

(** The query builder. *)
Definition table (t : string) (v : verb) : query :=
  {| q_table := t; q_verb := v; q_filters := []; q_order := None;
     q_single := false |}.
Definition eq (col : string) (v : value) (q : query) : query :=
  {| q_table := q_table q; q_verb := q_verb q;
     q_filters := q_filters q ++ [(col, v)]; q_order := q_order q;
     q_single := q_single q |}.
Definition order (col : string) (desc : bool) (q : query) : query :=
  {| q_table := q_table q; q_verb := q_verb q; q_filters := q_filters q;
     q_order := Some (col, desc); q_single := q_single q |}.
Definition single (q : query) : query :=
  {| q_table := q_table q; q_verb := q_verb q; q_filters := q_filters q;
     q_order := q_order q; q_single := true |}.

(** [storage.from_(bucket).upload(path, file, file_options)] *)
Definition upload (bucket path : string) (file : list Byte.byte) : M unit :=
  let* _ := provider OpUpload (CallUpload bucket path) in
  let* w := get_world in
  modify (with_storage (storage w ++ [(bucket, path, file)])).

(** [storage.from_(bucket).get_public_url(path)] *)
Definition get_public_url (bucket path : string) : M string :=
  let* _ := provider OpPublicUrl (CallPublicUrl bucket path) in
  let* w := get_world in
  ret (public_url_prefix w ++ bucket ++ "/" ++ path).

(** [uuid.uuid4()] *)
Definition uuid4 : M string :=
  let* w := get_world in
  let* _ := modify (with_uuid_count (S (uuid_count w))) in
  ret (uuids w (uuid_count w)).

(** [auth.get_user(token)]: the user of the token, if the provider knows it. *)
Definition auth_get_user (token : string) : M (option auth_user) :=
  let* _ := provider OpGetUser (CallGetUser token) in
  let* w := get_world in
  ret (auth_users w !! token).

(** [auth.sign_out()] *)
Definition auth_sign_out : M unit := provider OpSignOut CallSignOut.

(** A session the provider opens: its access token resolves to the user from
    now on. *)
Definition open_session (r : option (auth_user * option auth_session)) : M unit :=
  match r with
  | Some (u, Some s) =>
      let* w := get_world in
      modify (with_auth_users (<[access_token s := u]> (auth_users w)))
  | _ => ret tt
  end.

(** [auth.sign_up({...})] *)
Definition auth_sign_up (email password full_name : string)
  : M (option (auth_user * option auth_session)) :=
  let* _ := provider OpSignUp (CallSignUp email) in
  let* w := get_world in
  let* r := of_result (sign_up_result w email password full_name) in
  let* _ := open_session r in
  ret r.

(** [auth.sign_in_with_password({...})] *)
Definition auth_sign_in (email password : string)
  : M (option (auth_user * option auth_session)) :=
  let* _ := provider OpSignIn (CallSignIn email) in
  let* w := get_world in
  let* r := of_result (sign_in_result w email password) in
  let* _ := open_session r in
  ret r.

End Provider.

(* ================================================================== *)
(** ** services/supabase_service.py *)
(* ================================================================== *)

Module supabase_service.

Definition STORAGE_BUCKET : string := "health-images".

(** The [{"success": False, "error": str(e)}] every method answers from its
    [except Exception as e] clause. *)
Definition failure (e : exn) : M value :=
  ret (VDict [("success", VBool false); ("error", VStr (str e))]).

Definition invalid_token : value :=
  VDict [("success", VBool false); ("error", VStr "Invalid token")].

Definition session_field (s : option auth_session)
    (f : auth_session -> string) : value :=
  match s with
  | Some s => VStr (f s)
  | None => VNone
  end.

Definition sign_up (email password full_name : string) : M value :=
  try_except
    (let* response := Provider.auth_sign_up email password full_name in
     match response with
     | Some (user, session) =>
         ret (VDict [("success", VBool true);
                     ("user", VDict [("id", VStr (au_id user));
                                     ("email", VStr (au_email user));
                                     ("full_name", VStr full_name)]);
                     ("session", VDict [("access_token", session_field session access_token);
                                        ("refresh_token", session_field session refresh_token)])])
     | None =>
         ret (VDict [("success", VBool false);
                     ("error", VStr "Failed to create user")])
     end)
    failure.

Definition sign_in (email password : string) : M value :=
  try_except
    (let* response := Provider.auth_sign_in email password in
     match response with
     | Some (user, session) =>
         let* full_name := get (VDict (au_user_metadata user)) "full_name" (VStr "") in
         match session with
         | Some s =>
             ret (VDict [("success", VBool true);
                         ("user", VDict [("id", VStr (au_id user));
                                         ("email", VStr (au_email user));
                                         ("full_name", full_name)]);
                         ("session", VDict [("access_token", VStr (access_token s));
                                            ("refresh_token", VStr (refresh_token s))])])
         | None =>
             raise (Exception "'NoneType' object has no attribute 'access_token'")
         end
     | None =>
         ret (VDict [("success", VBool false);
                     ("error", VStr "Invalid credentials")])
     end)
    failure.

Definition sign_out (access_token : string) : M value :=
  try_except
    (let* _ := Provider.auth_sign_out in
     ret (VDict [("success", VBool true);
                 ("message", VStr "Signed out successfully")]))
    failure.

(** [get_user]: the user's dict, or [None] when the provider knows no such
    token or fails. *)
Definition get_user (access_token : string) : M value :=
  try_except
    (let* response := Provider.auth_get_user access_token in
     match response with
     | Some user =>
         let* full_name := get (VDict (au_user_metadata user)) "full_name" (VStr "") in
         ret (VDict [("id", VStr (au_id user));
                     ("email", VStr (au_email user));
                     ("full_name", full_name)])
     | None => ret VNone
     end)
    (fun _ => ret VNone).

(** The body shared by [upload_image], [upload_mnist_image] and
    [upload_pneumonia_image], which differ in the bucket and in the extension
    of a file name without a dot. *)
Definition upload_to (bucket default_ext : string) (access_token : string)
    (image_data : list Byte.byte) (filename : string) : M value :=
  try_except
    (let* user := get_user access_token in
     if negb (truthy user) then ret invalid_token else
     let file_extension := Py.file_extension filename default_ext in
     let* uid := getitem user "id" in
     let* u := Provider.uuid4 in
     let unique_filename := format_value uid ++ "/" ++ u ++ "." ++ file_extension in
     let* _ := Provider.upload bucket unique_filename image_data in
     let* public_url := Provider.get_public_url bucket unique_filename in
     ret (VDict [("success", VBool true);
                 ("url", VStr public_url);
                 ("path", VStr unique_filename)]))
    failure.

Definition upload_image := upload_to STORAGE_BUCKET "jpg".
Definition upload_mnist_image := upload_to "mnist_images" "png".
Definition upload_pneumonia_image := upload_to "pneumonia_images" "jpg".

Definition create_health_record (access_token title description category date : string)
  : M value :=
  try_except
    (let* user := get_user access_token in
     if negb (truthy user) then ret invalid_token else
     let* uid := getitem user "id" in
     let data := [("user_id", uid); ("title", VStr title);
                  ("description", VStr description);
                  ("category", VStr category); ("date", VStr date)] in
     let* response := Provider.execute (Provider.table "health_records" (Insert data)) in
     let* row := first_or_none response in
     ret (VDict [("success", VBool true); ("data", row);
                 ("message", VStr "Health record created successfully")]))
    failure.

Definition create_autoglm_analysis (access_token : string)
    (image_url caption description : value) : M value :=
  try_except
    (let* user := get_user access_token in
     if negb (truthy user) then ret invalid_token else
     let* uid := getitem user "id" in
     let data := [("user_id", uid); ("image_url", image_url);
                  ("caption", caption); ("description", description)] in
     let* response := Provider.execute (Provider.table "autoglm_analyses" (Insert data)) in
     let* row := first_or_none response in
     ret (VDict [("success", VBool true); ("data", row)]))
    failure.

Definition create_mnist_analysis (access_token : string) (image_url : value)
    (prediction : Z) (probabilities : list float) (filename : string) : M value :=
  try_except
    (let* user := get_user access_token in
     if negb (truthy user) then ret invalid_token else
     let* uid := getitem user "id" in
     let data := [("user_id", uid); ("image_url", image_url);
                  ("prediction", VInt prediction);
                  ("probabilities", VList (VFloat <$> probabilities));
                  ("filename", VStr filename)] in
     let* response := Provider.execute (Provider.table "mnist_analyses" (Insert data)) in
     let* row := first_or_none response in
     ret (VDict [("success", VBool true); ("data", row)]))
    failure.

(** The body shared by [get_health_records], [get_vision_analyses] and
    [get_pneumonia_analyses]: the table and the ordering column differ. *)
Definition list_rows (t col : string) (access_token : string) : M value :=
  try_except
    (let* user := get_user access_token in
     if negb (truthy user) then ret invalid_token else
     let* uid := getitem user "id" in
     let* response :=
       Provider.execute
         (Provider.order col true
            (Provider.eq "user_id" uid (Provider.table t Select))) in
     let* n := len response in
     ret (VDict [("success", VBool true); ("data", response); ("count", n)]))
    failure.

Definition get_health_records := list_rows "health_records" "date".

(** The body shared by [get_health_record], [get_vision_analysis] and
    [get_pneumonia_analysis]. *)
Definition get_row (t : string) (access_token : string) (id : Z) : M value :=
  try_except
    (let* user := get_user access_token in
     if negb (truthy user) then ret invalid_token else
     let* uid := getitem user "id" in
     let* response :=
       Provider.execute
         (Provider.single
            (Provider.eq "user_id" uid
               (Provider.eq "id" (VInt id) (Provider.table t Select)))) in
     ret (VDict [("success", VBool true); ("data", response)]))
    failure.

Definition get_health_record := get_row "health_records".

Definition update_health_record (access_token : string) (record_id : Z)
    (title description category date : string) : M value :=
  try_except
    (let* user := get_user access_token in
     if negb (truthy user) then ret invalid_token else
     let data := [("title", VStr title); ("description", VStr description);
                  ("category", VStr category); ("date", VStr date)] in
     let* uid := getitem user "id" in
     let* response :=
       Provider.execute
         (Provider.eq "user_id" uid
            (Provider.eq "id" (VInt record_id)
               (Provider.table "health_records" (Update data)))) in
     let* row := first_or_none response in
     ret (VDict [("success", VBool true); ("data", row);
                 ("message", VStr "Health record updated successfully")]))
    failure.

(** The body shared by [delete_health_record], [delete_vision_analysis] and
    [delete_pneumonia_analysis]. *)
Definition delete_row (t message : string) (access_token : string) (id : Z)
  : M value :=
  try_except
    (let* user := get_user access_token in
     if negb (truthy user) then ret invalid_token else
     let* uid := getitem user "id" in
     let* _ :=
       Provider.execute
         (Provider.eq "user_id" uid
            (Provider.eq "id" (VInt id) (Provider.table t Delete))) in
     ret (VDict [("success", VBool true); ("message", VStr message)]))
    failure.

Definition delete_health_record :=
  delete_row "health_records" "Health record deleted successfully".

Definition create_vision_analysis (access_token : string)
    (image_url ai_description processing_time model_name : value) : M value :=
  try_except
    (let* user := get_user access_token in
     if negb (truthy user) then ret invalid_token else
     let* uid := getitem user "id" in
     let data := [("user_id", uid); ("image_url", image_url);
                  ("ai_description", ai_description);
                  ("processing_time", processing_time);
                  ("model_name", model_name)] in
     let* response := Provider.execute (Provider.table "vision_analysis" (Insert data)) in
     let* row := first_or_none response in
     ret (VDict [("success", VBool true); ("data", row);
                 ("message", VStr "Vision analysis created successfully")]))
    failure.

Definition get_vision_analyses := list_rows "vision_analysis" "created_at".
Definition get_vision_analysis := get_row "vision_analysis".
Definition delete_vision_analysis :=
  delete_row "vision_analysis" "Vision analysis deleted successfully".

(** [create_pneumonia_analysis]; its arguments are the fields of the
    classification result.  After the insert it prints the id of the first
    returned row, which raises if there is none. *)
Definition create_pneumonia_analysis (access_token : string)
    (image_url prediction confidence confidence_percentage is_pneumonia severity
     recommendation all_predictions processing_time model_name : value) : M value :=
  try_except
    (let* user := get_user access_token in
     if negb (truthy user) then ret invalid_token else
     let* uid := getitem user "id" in
     let data := [("user_id", uid); ("image_url", image_url);
                  ("prediction", prediction); ("confidence", confidence);
                  ("confidence_percentage", confidence_percentage);
                  ("is_pneumonia", is_pneumonia); ("severity", severity);
                  ("recommendation", recommendation);
                  ("all_predictions", all_predictions);
                  ("processing_time", processing_time);
                  ("model_name", model_name)] in
     let* response := Provider.execute (Provider.table "pneumonia_analyses" (Insert data)) in
     let* row0 := index0 response in
     let* _ := getitem row0 "id" in
     let* row := first_or_none response in
     ret (VDict [("success", VBool true); ("data", row);
                 ("message", VStr "Pneumonia analysis created successfully")]))
    failure.

Definition get_pneumonia_analyses := list_rows "pneumonia_analyses" "created_at".
Definition get_pneumonia_analysis := get_row "pneumonia_analyses".

Definition create_clip_analysis (access_token : string) (image_url : value)
    (text : string) (similarity_score : float) (filename : string) : M value :=
  try_except
    (let* user := get_user access_token in
     if negb (truthy user) then ret invalid_token else
     let* uid := getitem user "id" in
     let data := [("user_id", uid); ("image_url", image_url);
                  ("text", VStr text);
                  ("similarity_score", VFloat similarity_score);
                  ("filename", VStr filename)] in
     let* response := Provider.execute (Provider.table "clip_analyses" (Insert data)) in
     let* row := first_or_none response in
     ret (VDict [("success", VBool true); ("data", row)]))
    failure.

Definition delete_pneumonia_analysis :=
  delete_row "pneumonia_analyses" "Pneumonia analysis deleted successfully".

End supabase_service.

(* ================================================================== *)
(** ** models/*.py *)
(* ================================================================== *)

(** A decoded PIL image: the bytes it was read from and its mode. *)
Record Image : Type := {
  img_bytes : list Byte.byte;
  img_mode : string
}.

(** [Image.open(io.BytesIO(data))] *)
Definition Image_open (data : list Byte.byte) : M Image :=
  let* w := get_world in
  let* mode := of_result (image_open w data) in
  ret {| img_bytes := data; img_mode := mode |}.

(** [image.convert(mode)] *)
Definition convert (mode : string) (image : Image) : Image :=
  {| img_bytes := img_bytes image; img_mode := mode |}.

(** [round(x, ndigits)] *)
Definition py_round (x : float) (ndigits : Z) : M value :=
  let* w := get_world in ret (VFloat (round w x ndigits)).

(** The status dict of a model service. *)
Definition loading_status_dict (m : model_state) : dict :=
  [("loaded", VBool (model_loaded m));
   ("status", VStr (loading_status m));
   ("progress", VInt (loading_progress m))].

Definition not_loaded_message (what : string) (m : model_state) : string :=
  what ++ " model not loaded. Status: " ++ loading_status m
       ++ " (" ++ pretty (loading_progress m) ++ "%)".

Module pneumonia_model.

Definition model_name : string := "nickmuchi/vit-finetuned-chest-xray-pneumonia".

Open Scope float_scope.

Definition _determine_severity (confidence : float) (is_pneumonia : bool) : string :=
  if negb is_pneumonia then "Normal"
  else if 0.95 <=? confidence then "High Confidence - Pneumonia Detected"
  else if 0.80 <=? confidence then "Moderate Confidence - Pneumonia Likely"
  else if 0.60 <=? confidence then "Low Confidence - Pneumonia Possible"
  else "Very Low Confidence - Unclear".

Definition _get_recommendation (is_pneumonia : bool) (confidence : float) : string :=
  if negb is_pneumonia then
    if 0.90 <=? confidence
    then "X-ray appears normal. Continue regular health monitoring."
    else "X-ray appears mostly normal, but confidence is moderate. Consider follow-up if symptoms persist."
  else if 0.90 <=? confidence
  then "⚠️ HIGH PRIORITY: Pneumonia detected with high confidence. Immediate medical consultation strongly recommended."
  else if 0.75 <=? confidence
  then "⚠️ MODERATE PRIORITY: Pneumonia likely detected. Please consult a healthcare provider soon for proper diagnosis."
  else if 0.60 <=? confidence
  then "⚠️ LOW PRIORITY: Possible pneumonia indication. Monitor symptoms and consider medical consultation if condition worsens."
  else "Results inconclusive. If experiencing respiratory symptoms, please consult a healthcare provider.".

Close Scope float_scope.

(** [prediction_label.upper() == 'PNEUMONIA'] *)
Definition is_pneumonia_label (prediction_label : string) : bool :=
  String.eqb (Py.upper prediction_label) "PNEUMONIA".

(** Severity and recommendation as [classify_xray] derives them from the top
    prediction. *)
Definition severity_of (prediction_label : string) (confidence : float) : string :=
  _determine_severity confidence (is_pneumonia_label prediction_label).

Definition recommendation_of (prediction_label : string) (confidence : float) : string :=
  _get_recommendation (is_pneumonia_label prediction_label) confidence.

(** [sorted(results, key=lambda x: x['score'], reverse=True)]: a stable sort,
    highest score first. *)
Fixpoint insert_by_score (x : string * float) (l : list (string * float))
  : list (string * float) :=
  match l with
  | [] => [x]
  | y :: l' =>
      if PrimFloat.ltb y.2 x.2 then x :: l else y :: insert_by_score x l'
  end.

Definition sorted_by_score (results : list (string * float)) : list (string * float) :=
  fold_left (fun acc x => insert_by_score x acc) results [].

Definition get_loading_status : M dict :=
  let* w := get_world in
  ret (loading_status_dict (pneumonia_model_service w)
         ++ [("model_name", VStr model_name)])%list.

Definition prediction_entry (w : World) (pred : string * float) : value :=
  VDict [("label", VStr pred.1);
         ("confidence", VFloat (round w pred.2 4));
         ("percentage", VFloat (round w (pred.2 * 100)%float 2))].

Definition classify_xray (image : Image) : M value :=
  let* w := get_world in
  if negb (model_loaded (pneumonia_model_service w)) then
    raise (Exception (not_loaded_message "Pneumonia" (pneumonia_model_service w)))
  else
  try_except
    (let image := if negb (String.eqb (img_mode image) "RGB")
                  then convert "RGB" image else image in
     let* _ := record_call (CallInference model_name) in
     let* results := of_result (pneumonia_pipe w (img_bytes image)) in
     match results with
     | [] => raise (Exception "No classification results returned")
     | top_prediction :: _ =>
         let prediction_label := top_prediction.1 in
         let confidence := top_prediction.2 in
         let all_predictions := sorted_by_score results in
         let is_pneumonia := is_pneumonia_label prediction_label in
         let severity := _determine_severity confidence is_pneumonia in
         let recommendation := _get_recommendation is_pneumonia confidence in
         let* c4 := py_round confidence 4 in
         let* c2 := py_round (confidence * 100)%float 2 in
         let* pt := py_round (elapsed w) 2 in
         ret (VDict [("prediction", VStr prediction_label);
                     ("confidence", c4);
                     ("confidence_percentage", c2);
                     ("is_pneumonia", VBool is_pneumonia);
                     ("severity", VStr severity);
                     ("recommendation", VStr recommendation);
                     ("all_predictions", VList (prediction_entry w <$> all_predictions));
                     ("processing_time", pt);
                     ("model", VStr model_name)])
     end)
    (fun e => raise (Exception ("Failed to classify X-ray: " ++ str e))).

End pneumonia_model.

Module vision_model.

Definition model_name : string := "Salesforce/blip-image-captioning-large".

(** [load_model]: a second attempt at loading the pipeline when the attempt
    at start-up failed. *)
Definition load_model : M bool :=
  let* w := get_world in
  if model_loaded (vision_model_service w) then ret true else
  let* _ := record_call (CallLoadPipeline "image-to-text" model_name) in
  let* w := get_world in
  match pipeline_load w "image-to-text" model_name with
  | None =>
      let* _ := modify (with_vision_model_service
                  {| model_loaded := true; loading_status := "Ready";
                     loading_progress := 100 |}) in
      ret true
  | Some msg =>
      let* _ := modify (with_vision_model_service
                  {| model_loaded := false; loading_status := "Error: " ++ msg;
                     loading_progress := 0 |}) in
      ret false
  end.

Definition get_loading_status : M dict :=
  let* w := get_world in ret (loading_status_dict (vision_model_service w)).

(** [generated_text[:100]] is printed after [len(generated_text)]: both must
    be defined. *)
Definition printable (v : value) : M unit :=
  match v with
  | VStr _ | VList _ => ret tt
  | VDict _ => raise (Exception "unhashable type: 'slice'")
  | _ => raise (Exception "object has no len()")
  end.

Definition generate_description (image : Image) (prompt : option string) : M value :=
  let* w := get_world in
  if negb (model_loaded (vision_model_service w)) then
    raise (Exception (not_loaded_message "Vision" (vision_model_service w)))
  else
  try_except
    (let image := if negb (String.eqb (img_mode image) "RGB")
                  then convert "RGB" image else image in
     let* _ := record_call (CallInference model_name) in
     let prompt' := match prompt with
                    | Some p => if String.eqb p "" then None else Some p
                    | None => None
                    end in
     let* results := of_result (vision_pipe w (img_bytes image) prompt') in
     let* generated_text :=
       match results with
       | VList (r :: _) => get r "generated_text" (VStr "")
       | _ => ret (VStr (format_value results))
       end in
     let* _ := printable generated_text in
     let* pt := py_round (elapsed w) 2 in
     ret (VDict [("generated_text", generated_text);
                 ("prompt", match prompt with Some p => VStr p | None => VNone end);
                 ("processing_time", pt);
                 ("model", VStr model_name)]))
    (fun e => raise (Exception ("Failed to generate description: " ++ str e))).

End vision_model.

Module clip_model.

Definition model_name : string := "hf-hub:laion/CLIP-ViT-B-32-laion2B-s34B-b79K".

Definition get_loading_status : M dict :=
  let* w := get_world in ret (loading_status_dict (clip_model_service w)).

Definition image_text_similarity (image : Image) (text : string) : M float :=
  let* w := get_world in
  let* _ := record_call (CallInference model_name) in
  of_result (clip_similarity_score w (img_bytes image) text).

End clip_model.

Module autoglm_model.

Definition model_name : string := "Salesforce/blip-image-captioning-base".

(** [result[0]['generated_text'] if result else None] *)
Definition infer (image_url : string) : M value :=
  let* w := get_world in
  let* _ := record_call (CallInference model_name) in
  let* result := of_result (autoglm_pipe w image_url) in
  match result with
  | r :: _ => getitem (VDict r) "generated_text"
  | [] => ret VNone
  end.

Definition get_loading_status : M dict :=
  ret [("loaded", VBool true); ("model_name", VStr model_name)].

End autoglm_model.

(* ================================================================== *)
(** ** api/*.py *)
(* ================================================================== *)

(** [not authorization or not authorization.startswith("Bearer ")] *)
Definition missing_or_invalid (authorization : option string) : bool :=
  match authorization with
  | None => true
  | Some a => negb (truthy (VStr a)) || negb (Py.startswith a "Bearer ")
  end.

(** [authorization.replace("Bearer ", "")] *)
Definition bearer_token (authorization : string) : string :=
  Py.replace authorization "Bearer " "".

(** The two statements a bearer-authenticated handler opens with: the 401
    guard, then the token taken from the header. *)
Definition bearer (authorization : option string) : M string :=
  if missing_or_invalid authorization
  then raise (HTTPException 401 (VStr "Missing or invalid authorization header"))
  else match authorization with
       | Some a => ret (bearer_token a)
       | None => raise (Exception "'NoneType' object has no attribute 'replace'")
       end.

(** An uploaded file: its name and its bytes. *)
Record UploadFile : Type := {
  filename : string;
  file : list Byte.byte
}.

Module auth.

Record SignUpRequest : Type := {
  su_email : string; su_password : string; su_full_name : string
}.

Record SignInRequest : Type := { si_email : string; si_password : string }.

Definition signup (request : SignUpRequest) : M value :=
  let* result := supabase_service.sign_up (su_email request)
                   (su_password request) (su_full_name request) in
  let* success := getitem result "success" in
  if truthy success then
    ret (VDict [("success", VBool true);
                ("message", VStr "User created successfully");
                ("data", result)])
  else
    let* detail := get result "error" (VStr "Failed to create user") in
    raise (HTTPException 400 detail).

Definition login (request : SignInRequest) : M value :=
  let* result := supabase_service.sign_in (si_email request) (si_password request) in
  let* success := getitem result "success" in
  if truthy success then
    ret (VDict [("success", VBool true);
                ("message", VStr "Logged in successfully");
                ("data", result)])
  else
    let* detail := get result "error" (VStr "Invalid credentials") in
    raise (HTTPException 401 detail).

Definition logout (authorization : option string) : M value :=
  let* token := bearer authorization in
  let* result := supabase_service.sign_out token in
  let* success := getitem result "success" in
  if truthy success then
    ret (VDict [("success", VBool true);
                ("message", VStr "Logged out successfully")])
  else
    let* detail := get result "error" (VStr "Failed to logout") in
    raise (HTTPException 400 detail).

Definition get_user (authorization : option string) : M value :=
  let* token := bearer authorization in
  let* user := supabase_service.get_user token in
  if truthy user then
    ret (VDict [("success", VBool true); ("data", user)])
  else
    raise (HTTPException 401 (VStr "Invalid or expired token")).

End auth.

(** The tail shared by the history handlers: the rows and their count, or
    400 with the adapter's error. *)
Definition history_response (result : value) (fallback : string) : M value :=
  let* success := getitem result "success" in
  if truthy success then
    let* data := getitem result "data" in
    let* count := getitem result "count" in
    ret (VDict [("success", VBool true); ("data", data); ("count", count)])
  else
    let* detail := get result "error" (VStr fallback) in
    raise (HTTPException 400 detail).

(** The tail shared by the get-by-id handlers: the row, or 404 with the
    adapter's error. *)
Definition get_response (result : value) (fallback : string) : M value :=
  let* success := getitem result "success" in
  if truthy success then
    let* data := getitem result "data" in
    ret (VDict [("success", VBool true); ("data", data)])
  else
    let* detail := get result "error" (VStr fallback) in
    raise (HTTPException 404 detail).

(** The tail shared by the delete handlers: the adapter's message, or 400
    with the adapter's error. *)
Definition delete_response (result : value) (fallback : string) : M value :=
  let* success := getitem result "success" in
  if truthy success then
    let* message := getitem result "message" in
    ret (VDict [("success", VBool true); ("message", message)])
  else
    let* detail := get result "error" (VStr fallback) in
    raise (HTTPException 400 detail).

Module records.

Record HealthRecordCreate : Type := {
  title : string; description : string; category : string; date : string
}.

Definition HealthRecordUpdate : Type := HealthRecordCreate.

Definition create_record (record : HealthRecordCreate)
    (authorization : option string) : M value :=
  let* token := bearer authorization in
  try_except
    (let* result := supabase_service.create_health_record token (title record)
                      (description record) (category record) (date record) in
     let* success := getitem result "success" in
     if truthy success then
       let* message := getitem result "message" in
       let* data := getitem result "data" in
       ret (VDict [("success", VBool true); ("message", message); ("data", data)])
     else
       let* detail := get result "error" (VStr "Failed to create record") in
       raise (HTTPException 400 detail))
    (fun e => raise (HTTPException 500 (VStr ("Failed to create record: " ++ str e)))).

Definition get_records (authorization : option string) : M value :=
  let* token := bearer authorization in
  let* result := supabase_service.get_health_records token in
  history_response result "Failed to fetch records".

Definition get_record (record_id : Z) (authorization : option string) : M value :=
  let* token := bearer authorization in
  let* result := supabase_service.get_health_record token record_id in
  get_response result "Record not found".

Definition update_record (record_id : Z) (record : HealthRecordUpdate)
    (authorization : option string) : M value :=
  let* token := bearer authorization in
  try_except
    (let* result := supabase_service.update_health_record token record_id
                      (title record) (description record) (category record)
                      (date record) in
     let* success := getitem result "success" in
     if truthy success then
       let* message := getitem result "message" in
       let* data := getitem result "data" in
       ret (VDict [("success", VBool true); ("message", message); ("data", data)])
     else
       let* detail := get result "error" (VStr "Failed to update record") in
       raise (HTTPException 400 detail))
    (fun e => raise (HTTPException 500 (VStr ("Failed to update record: " ++ str e)))).

Definition delete_record (record_id : Z) (authorization : option string) : M value :=
  let* token := bearer authorization in
  let* result := supabase_service.delete_health_record token record_id in
  delete_response result "Failed to delete record".

End records.

Module vision.

Definition analyze_image (image : UploadFile) (authorization : option string)
  : M value :=
  let* token := bearer authorization in
  try_except
    (let image_data := file image in
     let* upload_result := supabase_service.upload_image token image_data (filename image) in
     let* uploaded := getitem upload_result "success" in
     let* _ :=
       if negb (truthy uploaded) then
         let* err := get upload_result "error" VNone in
         raise (HTTPException 400 (VStr ("Failed to upload image: " ++ format_value err)))
       else ret tt in
     let* image_url := getitem upload_result "url" in
     let* w := get_world in
     let* _ :=
       if negb (model_loaded (vision_model_service w)) then
         let* loaded := vision_model.load_model in
         if negb loaded then
           raise (HTTPException 503
                    (VStr "Vision model not available. Please try again later."))
         else ret tt
       else ret tt in
     let* pil_image := Image_open image_data in
     let* ai_result := vision_model.generate_description pil_image None in
     let* ai_description := getitem ai_result "generated_text" in
     let* processing_time := getitem ai_result "processing_time" in
     let* model_name := getitem ai_result "model" in
     let* _ := vision_model.printable ai_description in
     let* result := supabase_service.create_vision_analysis token image_url
                      ai_description processing_time model_name in
     let* stored := getitem result "success" in
     let* _ :=
       if negb (truthy stored) then
         let* detail := get result "error" (VStr "Failed to store analysis") in
         raise (HTTPException 400 detail)
       else ret tt in
     let* data := getitem result "data" in
     ret (VDict [("success", VBool true);
                 ("message", VStr "Image analyzed successfully");
                 ("data", data)]))
    (fun e => raise (HTTPException 500 (VStr ("Failed to analyze image: " ++ str e)))).

Definition get_analysis_history (authorization : option string) : M value :=
  let* token := bearer authorization in
  let* result := supabase_service.get_vision_analyses token in
  history_response result "Failed to fetch history".

Definition get_analysis (analysis_id : Z) (authorization : option string) : M value :=
  let* token := bearer authorization in
  let* result := supabase_service.get_vision_analysis token analysis_id in
  get_response result "Analysis not found".

Definition delete_analysis (analysis_id : Z) (authorization : option string) : M value :=
  let* token := bearer authorization in
  let* result := supabase_service.delete_vision_analysis token analysis_id in
  delete_response result "Failed to delete analysis".

Definition get_vision_status : M value :=
  let* status := vision_model.get_loading_status in
  let* loaded := getitem (VDict status) "loaded" in
  let* st := getitem (VDict status) "status" in
  let* progress := getitem (VDict status) "progress" in
  ret (VDict [("success", VBool true);
              ("model_loaded", loaded);
              ("status", st);
              ("progress", progress);
              ("model_name", if truthy loaded then VStr vision_model.model_name
                             else VNone)]).

End vision.

Module pneumonia.

Definition get_pneumonia_status : M value :=
  let* status := pneumonia_model.get_loading_status in
  ret (VDict [("success", VBool true);
              ("model", VStr "Pneumonia Detection (Chest X-ray)");
              ("status", VDict status)]).

Definition analyze_xray (image : UploadFile) (authorization : option string)
  : M value :=
  let* token := bearer authorization in
  try_except_reraise_http
    (let image_data := file image in
     let* _ :=
       if (length image_data =? 0)%nat
       then raise (HTTPException 400 (VStr "Empty image file"))
       else ret tt in
     let* status := pneumonia_model.get_loading_status in
     let* loaded := getitem (VDict status) "loaded" in
     let* _ :=
       if negb (truthy loaded) then
         let* st := getitem (VDict status) "status" in
         let* progress := getitem (VDict status) "progress" in
         raise (HTTPException 503
                  (VStr ("Pneumonia model not ready: " ++ format_value st
                         ++ " (" ++ format_value progress ++ "%)")))
       else ret tt in
     let* pil_image := Image_open image_data in
     let* upload_result :=
       supabase_service.upload_pneumonia_image token image_data (filename image) in
     let* uploaded := getitem upload_result "success" in
     let* _ :=
       if negb (truthy uploaded) then
         let* err := get upload_result "error" VNone in
         raise (HTTPException 400 (VStr ("Failed to upload image: " ++ format_value err)))
       else ret tt in
     let* image_url := getitem upload_result "url" in
     let* classification_result := pneumonia_model.classify_xray pil_image in
     let* prediction := getitem classification_result "prediction" in
     let* confidence_percentage := getitem classification_result "confidence_percentage" in
     let* severity := getitem classification_result "severity" in
     let* confidence := getitem classification_result "confidence" in
     let* is_pneumonia := getitem classification_result "is_pneumonia" in
     let* recommendation := getitem classification_result "recommendation" in
     let* all_predictions := getitem classification_result "all_predictions" in
     let* processing_time := getitem classification_result "processing_time" in
     let* model := getitem classification_result "model" in
     let* db_result :=
       supabase_service.create_pneumonia_analysis token image_url prediction
         confidence confidence_percentage is_pneumonia severity recommendation
         all_predictions processing_time model in
     let* saved := getitem db_result "success" in
     (* a failed insert is only printed as a warning *)
     let* _ :=
       if negb (truthy saved) then
         let* _ := get db_result "error" VNone in ret tt
       else
         let* data := getitem db_result "data" in
         let* _ := getitem data "id" in ret tt in
     let* analysis_id :=
       if truthy saved then
         let* data := getitem db_result "data" in getitem data "id"
       else ret VNone in
     let* created_at :=
       if truthy saved then
         let* data := getitem db_result "data" in get data "created_at" VNone
       else ret VNone in
     ret (VDict [("success", VBool true);
                 ("message", VStr "Chest X-ray analyzed successfully");
                 ("data", VDict [("image_url", image_url);
                                 ("classification", classification_result);
                                 ("analysis_id", analysis_id);
                                 ("created_at", created_at)])]))
    (fun e => raise (HTTPException 500 (VStr ("Failed to analyze X-ray: " ++ str e)))).

Definition get_pneumonia_history (authorization : option string) : M value :=
  let* token := bearer authorization in
  let* result := supabase_service.get_pneumonia_analyses token in
  history_response result "Failed to fetch analyses".

Definition get_pneumonia_analysis (analysis_id : Z) (authorization : option string)
  : M value :=
  let* token := bearer authorization in
  let* result := supabase_service.get_pneumonia_analysis token analysis_id in
  get_response result "Analysis not found".

Definition delete_pneumonia_analysis (analysis_id : Z) (authorization : option string)
  : M value :=
  let* token := bearer authorization in
  let* result := supabase_service.delete_pneumonia_analysis token analysis_id in
  delete_response result "Failed to delete analysis".

End pneumonia.

Module mnist_api.

Definition model_name : string := "models/mnist_cnn_mobile.pt".

(** [np.argmax]: the first index of the largest entry, a NaN counting as
    largest. *)
Fixpoint argmax_from (best_i : nat) (best : float) (i : nat) (l : list float) : nat :=
  match l with
  | [] => best_i
  | x :: l' =>
      if negb (PrimFloat.is_nan best) && (PrimFloat.ltb best x || PrimFloat.is_nan x)
      then argmax_from i x (S i) l'
      else argmax_from best_i best (S i) l'
  end.

Definition argmax (probs : list float) : M Z :=
  match probs with
  | [] => raise (Exception "attempt to get argmax of an empty sequence")
  | x :: l => ret (Z.of_nat (argmax_from 0 x 1 l))
  end.

Definition mnist_infer (image : UploadFile) (authorization : option string)
  : M value :=
  let* token := bearer authorization in
  try_except_reraise_http
    (let image_bytes := file image in
     let* pil_img := Image_open image_bytes in
     let pil_img := convert "L" pil_img in
     let* w := get_world in
     let* _ := record_call (CallInference model_name) in
     let* probs := of_result (mnist_probs w (img_bytes pil_img)) in
     let* pred := argmax probs in
     let* upload_result :=
       supabase_service.upload_mnist_image token image_bytes (filename image) in
     let* uploaded := getitem upload_result "success" in
     let* _ :=
       if negb (truthy uploaded) then
         let* err := getitem upload_result "error" in
         raise (HTTPException 400 (VStr ("Image upload failed: " ++ format_value err)))
       else ret tt in
     let* image_url := getitem upload_result "url" in
     let* db_result :=
       supabase_service.create_mnist_analysis token image_url pred probs
         (filename image) in
     let* data := get db_result "data" (VDict []) in
     let* analysis_id := get data "id" VNone in
     ret (VDict [("success", VBool true);
                 ("prediction", VInt pred);
                 ("probabilities", VList (VFloat <$> probs));
                 ("image_url", image_url);
                 ("analysis_id", analysis_id)]))
    (fun e => raise (HTTPException 500 (VStr ("Inference failed: " ++ str e)))).

End mnist_api.

Module clip_api.

Definition clip_model_status : M value :=
  let* status := clip_model.get_loading_status in ret (VDict status).

Definition clip_similarity (image : UploadFile) (text : string)
    (authorization : option string) : M value :=
  try_except_reraise_http
    (let* token := bearer authorization in
     let image_data := file image in
     let* pil_image := Image_open image_data in
     let pil_image := convert "RGB" pil_image in
     let* score := clip_model.image_text_similarity pil_image text in
     let* upload_result :=
       supabase_service.upload_image token image_data (filename image) in
     let* uploaded := getitem upload_result "success" in
     let* _ :=
       if negb (truthy uploaded) then
         let* err := getitem upload_result "error" in
         raise (HTTPException 400 (VStr ("Image upload failed: " ++ format_value err)))
       else ret tt in
     let* image_url := getitem upload_result "url" in
     let* db_result :=
       supabase_service.create_clip_analysis token image_url text score
         (filename image) in
     let* data := get db_result "data" (VDict []) in
     let* analysis_id := get data "id" VNone in
     ret (VDict [("success", VBool true);
                 ("similarity_score", VFloat score);
                 ("text", VStr text);
                 ("filename", VStr (filename image));
                 ("image_url", image_url);
                 ("analysis_id", analysis_id)]))
    (fun e => raise (HTTPException 500 (VStr ("CLIP similarity failed: " ++ str e)))).

End clip_api.

Module autoglm_api.

Record ImageRequest : Type := {
  image_url : string;
  description : option string
}.

Definition autoglm_infer (request : ImageRequest) (authorization : option string)
  : M value :=
  let* token := bearer authorization in
  try_except
    (let* result := autoglm_model.infer (image_url request) in
     let* db_result :=
       supabase_service.create_autoglm_analysis token (VStr (image_url request))
         result
         (match description request with Some d => VStr d | None => VNone end) in
     let* data := get db_result "data" (VDict []) in
     let* analysis_id := get data "id" VNone in
     ret (VDict [("success", VBool true);
                 ("caption", result);
                 ("image_url", VStr (image_url request));
                 ("analysis_id", analysis_id)]))
    (fun e => raise (HTTPException 500 (VStr ("Inference failed: " ++ str e)))).

Definition autoglm_status : M value :=
  let* status := autoglm_model.get_loading_status in ret (VDict status).

End autoglm_api.

(* ================================================================== *)
(** ** main.py: the routes and the responses FastAPI writes *)
(* ================================================================== *)

Module main.

Definition root : M value :=
  let* vision_status := vision_model.get_loading_status in
  let* pneumonia_status := pneumonia_model.get_loading_status in
  let* vl := getitem (VDict vision_status) "loaded" in
  let* vs := getitem (VDict vision_status) "status" in
  let* pl := getitem (VDict pneumonia_status) "loaded" in
  let* ps := getitem (VDict pneumonia_status) "status" in
  ret (VDict
    [("message", VStr "Newjilo API with Vision AI and Pneumonia Detection");
     ("version", VStr "1.0.0");
     ("models", VDict
        [("vision_ai", VDict [("loaded", vl); ("status", vs)]);
         ("pneumonia_detection", VDict [("loaded", pl); ("status", ps)])]);
     ("endpoints", VDict
        [("auth", VDict [("signup", VStr "/api/auth/signup");
                         ("login", VStr "/api/auth/login");
                         ("logout", VStr "/api/auth/logout");
                         ("user", VStr "/api/auth/user")]);
         ("records", VDict [("create", VStr "POST /api/records");
                            ("list", VStr "GET /api/records");
                            ("get", VStr "GET /api/records/{id}");
                            ("update", VStr "PUT /api/records/{id}");
                            ("delete", VStr "DELETE /api/records/{id}")]);
         ("vision", VDict [("analyze", VStr "POST /api/vision/analyze");
                           ("history", VStr "GET /api/vision/history");
                           ("status", VStr "GET /api/vision/status")]);
         ("pneumonia", VDict [("analyze", VStr "POST /api/pneumonia/analyze");
                              ("history", VStr "GET /api/pneumonia/history");
                              ("status", VStr "GET /api/pneumonia/status")])])]).

Definition health_check : M value :=
  let* vision_status := vision_model.get_loading_status in
  let* pneumonia_status := pneumonia_model.get_loading_status in
  ret (VDict [("status", VStr "healthy");
              ("models", VDict [("vision_ai", VDict vision_status);
                                ("pneumonia_detection", VDict pneumonia_status)])]).

(** A request that passed FastAPI's validation of path, body and form: the
    route and the arguments its handler is called with. *)
Inductive request : Type :=
| GET_root
| GET_health
| POST_auth_signup (r : auth.SignUpRequest)
| POST_auth_login (r : auth.SignInRequest)
| POST_auth_logout (authorization : option string)
| GET_auth_user (authorization : option string)
| POST_records (record : records.HealthRecordCreate) (authorization : option string)
| GET_records (authorization : option string)
| GET_records_id (record_id : Z) (authorization : option string)
| PUT_records_id (record_id : Z) (record : records.HealthRecordUpdate)
    (authorization : option string)
| DELETE_records_id (record_id : Z) (authorization : option string)
| POST_vision_analyze (image : UploadFile) (authorization : option string)
| GET_vision_history (authorization : option string)
| GET_vision_analyze_id (analysis_id : Z) (authorization : option string)
| DELETE_vision_analyze_id (analysis_id : Z) (authorization : option string)
| GET_vision_status
| GET_pneumonia_status
| POST_pneumonia_analyze (image : UploadFile) (authorization : option string)
| GET_pneumonia_history (authorization : option string)
| GET_pneumonia_analyze_id (analysis_id : Z) (authorization : option string)
| DELETE_pneumonia_analyze_id (analysis_id : Z) (authorization : option string)
| POST_mnist_infer (image : UploadFile) (authorization : option string)
| GET_clip_status
| POST_clip_similarity (image : UploadFile) (text : string)
    (authorization : option string)
| POST_autoglm_infer (r : autoglm_api.ImageRequest) (authorization : option string)
| GET_autoglm_status.

(** The handler each route is bound to. *)
Definition handler (req : request) : M value :=
  match req with
  | GET_root => root
  | GET_health => health_check
  | POST_auth_signup r => auth.signup r
  | POST_auth_login r => auth.login r
  | POST_auth_logout a => auth.logout a
  | GET_auth_user a => auth.get_user a
  | POST_records r a => records.create_record r a
  | GET_records a => records.get_records a
  | GET_records_id i a => records.get_record i a
  | PUT_records_id i r a => records.update_record i r a
  | DELETE_records_id i a => records.delete_record i a
  | POST_vision_analyze f a => vision.analyze_image f a
  | GET_vision_history a => vision.get_analysis_history a
  | GET_vision_analyze_id i a => vision.get_analysis i a
  | DELETE_vision_analyze_id i a => vision.delete_analysis i a
  | GET_vision_status => vision.get_vision_status
  | GET_pneumonia_status => pneumonia.get_pneumonia_status
  | POST_pneumonia_analyze f a => pneumonia.analyze_xray f a
  | GET_pneumonia_history a => pneumonia.get_pneumonia_history a
  | GET_pneumonia_analyze_id i a => pneumonia.get_pneumonia_analysis i a
  | DELETE_pneumonia_analyze_id i a => pneumonia.delete_pneumonia_analysis i a
  | POST_mnist_infer f a => mnist_api.mnist_infer f a
  | GET_clip_status => clip_api.clip_model_status
  | POST_clip_similarity f t a => clip_api.clip_similarity f t a
  | POST_autoglm_infer r a => autoglm_api.autoglm_infer r a
  | GET_autoglm_status => autoglm_api.autoglm_status
  end.

(** The [Authorization] header of a request to a bearer-authenticated route;
    [None] for the routes that take none. *)
Definition authorization_of (req : request) : option (option string) :=
  match req with
  | POST_auth_logout a | GET_auth_user a
  | POST_records _ a | GET_records a | GET_records_id _ a
  | PUT_records_id _ _ a | DELETE_records_id _ a
  | POST_vision_analyze _ a | GET_vision_history a
  | GET_vision_analyze_id _ a | DELETE_vision_analyze_id _ a
  | POST_pneumonia_analyze _ a | GET_pneumonia_history a
  | GET_pneumonia_analyze_id _ a | DELETE_pneumonia_analyze_id _ a
  | POST_mnist_infer _ a | POST_clip_similarity _ _ a
  | POST_autoglm_infer _ a => Some a
  | _ => None
  end.

Record response : Type := {
  status_code : nat;
  content : value
}.

(** What FastAPI writes: a returned dict is the JSON body of a 200; an
    [HTTPException] is its status with the body [{"detail": ...}]; any other
    exception that escapes the handler is a plain-text 500. *)
Definition respond (o : outcome value) : response :=
  match o with
  | Return v => {| status_code := 200; content := v |}
  | Raise (HTTPException c d) =>
      {| status_code := c; content := VDict [("detail", d)] |}
  | Raise (Exception _) =>
      {| status_code := 500; content := VStr "Internal Server Error" |}
  end.

Definition serve (req : request) (w : World) : response * World :=
  let (o, w') := handler req w in (respond o, w').

(** The field of a JSON body. *)
Definition field (k : string) (r : response) : option value :=
  match content r with
  | VDict d => assoc k d
  | _ => None
  end.

End main.

(* ================================================================== *)
(** ** A concrete world *)
(* ================================================================== *)

(** Two users, one health record owned by the second, all models loaded and
    no provider failing. *)
Module Demo.

Definition alice : auth_user :=
  {| au_id := "user-a"; au_email := "alice@example.org";
     au_user_metadata := [("full_name", VStr "Alice")] |}.

Definition bob : auth_user :=
  {| au_id := "user-b"; au_email := "bob@example.org";
     au_user_metadata := [("full_name", VStr "Bob")] |}.

Definition bobs_record : dict :=
  [("id", VInt 1); ("user_id", VStr "user-b"); ("title", VStr "Checkup");
   ("description", VStr "Annual checkup"); ("category", VStr "general");
   ("date", VStr "2024-01-15")].

Definition ready : model_state :=
  {| model_loaded := true; loading_status := "Ready"; loading_progress := 100 |}.

Definition not_started : model_state :=
  {| model_loaded := false; loading_status := "Not started"; loading_progress := 0 |}.

Definition no_faults : provider_op -> option string := fun _ => None.

Definition world (f : provider_op -> option string) (vision_state : model_state)
  : World :=
  {| auth_users := {[ "token-a" := alice; "token-b" := bob ]};
     sign_up_result := fun _ _ _ => Ok None;
     sign_in_result := fun _ _ => Ok None;
     tables := {[ "health_records" := [bobs_record] ]};
     next_id := 2;
     clock := 100;
     storage := [];
     public_url_prefix := "https://storage.example.org/object/public/";
     faults := f;
     pneumonia_model_service := ready;
     vision_model_service := vision_state;
     clip_model_service := ready;
     uuids := fun n => "uuid-" ++ pretty n;
     uuid_count := 0;
     round := fun x _ => x;
     elapsed := 0.5%float;
     image_open := fun _ => Ok "RGB";
     pipeline_load := fun _ _ => Some "out of memory";
     pneumonia_pipe := fun _ => Ok [("PNEUMONIA", 0.96%float); ("NORMAL", 0.04%float)];
     vision_pipe := fun _ _ => Ok (VList [VDict [("generated_text", VStr "a chest x-ray")]]);
     clip_similarity_score := fun _ _ => Ok 0.25%float;
     mnist_probs := fun _ => Ok [0.5%float; 0.5%float];
     autoglm_pipe := fun _ => Ok [[("generated_text", VStr "an image")]];
     log := [] |}.

Definition insert_fails : provider_op -> option string :=
  fun op => match op with OpInsert => Some "connection refused" | _ => None end.

Definition w0 : World := world no_faults ready.

Definition xray : UploadFile :=
  {| filename := "chest.png"; file := [Byte.x89; Byte.x50; Byte.x4e; Byte.x47] |}.

Definition new_fields : records.HealthRecordUpdate :=
  {| records.title := "Stolen"; records.description := "overwritten";
     records.category := "none"; records.date := "2030-01-01" |}.

End Demo.

(* ================================================================== *)
(** * Vocabulary of the properties *)
(* ================================================================== *)

Import main.

(** The claim of C3 as a statement: two confidences of one label fall in the
    same recommendation branch exactly when they fall in the same severity
    tier. *)
Definition recommendation_follows_severity_tiers : Prop :=
  forall (label : string) (c1 c2 : float),
    pneumonia_model.recommendation_of label c1
    = pneumonia_model.recommendation_of label c2 <->
    pneumonia_model.severity_of label c1 = pneumonia_model.severity_of label c2.

(** The dict [get_user] builds for a user. *)
Definition user_dict (u : auth_user) : value :=
  VDict [("id", VStr (au_id u)); ("email", VStr (au_email u));
         ("full_name", default (VStr "") (assoc "full_name" (au_user_metadata u)))].

(** What [get_user] answers for a token. *)
Definition resolve (w : World) (token : string) : value :=
  match faults w OpGetUser, auth_users w !! token with
  | None, Some u => user_dict u
  | _, _ => VNone
  end.

(** The rows of a table. *)
Definition rows_of (t : string) (w : World) : list dict :=
  default [] (tables w !! t).

(** The row is owned by the user. *)
Definition owned_by (uid : string) (r : dict) : bool :=
  match assoc "user_id" r with
  | Some (VStr u) => String.eqb u uid
  | _ => false
  end.

(** The row has the id. *)
Definition has_id (id : Z) (r : dict) : bool :=
  match assoc "id" r with
  | Some (VInt n) => (n =? id)%Z
  | _ => false
  end.

(** No row with this id belongs to the user. *)
Definition foreign (id : Z) (uid : string) (rows : list dict) : Prop :=
  forall r, In r rows -> has_id id r = true -> owned_by uid r = false.

(** The header is missing, or does not start with "Bearer ". *)
Definition missing_or_malformed (a : option string) : Prop :=
  a = None \/ exists h, a = Some h /\ Py.startswith h "Bearer " = false.


(** The path an upload goes to: the user's folder, a fresh uuid, the
    extension of the file name. *)
Definition upload_path (w : World) (u : auth_user) (filename default_ext : string) : string :=
  au_id u ++ "/" ++ uuids w (uuid_count w) ++ "." ++ Py.file_extension filename default_ext.

(** The world after a successful upload. *)
Definition uploaded (bucket path token : string) (data : list Byte.byte) (w : World) : World :=
  logged (CallPublicUrl bucket path)
    (with_storage (storage w ++ [(bucket, path, data)])
       (logged (CallUpload bucket path)
          (with_uuid_count (S (uuid_count w)) (logged (CallGetUser token) w)))).


(** An exception that FastAPI answers with a status other than 200. *)
Definition error_status (e : exn) : Prop :=
  match e with
  | HTTPException c _ => c <> 200
  | Exception _ => True
  end.

(** An [HTTPException] with a status other than 200. *)
Definition http_error (e : exn) : Prop :=
  match e with
  | HTTPException c _ => c <> 200
  | Exception _ => False
  end.

(** In every world, [m] returns a value in [Q] or raises an exception in [E]. *)
Definition post {A} (E : exn -> Prop) (m : M A) (Q : A -> Prop) : Prop :=
  forall w, match (m w).1 with
            | Return a => Q a
            | Raise e => E e
            end.

(** The answer of an adapter method: a dict whose [success] is a boolean
    and which, when it is true, has the keys the handler reads. *)
Definition adapter_result (keys : list string) (v : value) : bool :=
  match v with
  | VDict d =>
      match assoc "success" d with
      | Some (VBool true) =>
          forallb (fun k => match assoc k d with Some _ => true | None => false end) keys
      | Some (VBool false) => true
      | _ => false
      end
  | _ => false
  end.

(** The body of a 200 of a route that reports success. *)
Definition has_success (v : value) : Prop :=
  exists d, v = VDict (("success", VBool true) :: d).

(** The routes that report [success]: all but the root, the health check
    and the status of the CLIP and captioning models. *)
Definition reports_success (req : request) : bool :=
  match req with
  | GET_root | GET_health | GET_clip_status | GET_autoglm_status => false
  | _ => true
  end.

(** The call asks the identity provider about no token but [token]. *)
Definition asks_only (token : string) (c : call) : Prop :=
  match c with
  | CallGetUser t => t = token
  | _ => True
  end.

(** [w'] is [w] after some calls, none asking about another token. *)
Definition extends (token : string) (w w' : World) : Prop :=
  exists l, log w' = (log w ++ l)%list /\ Forall (asks_only token) l.

(** Whatever [m] does, it asks the identity provider about [token] only, and
    a value it returns is in [Q]. *)
Definition forwards {A} (token : string) (m : M A) (Q : A -> Prop) : Prop :=
  forall w, extends token w (m w).2 /\
            match (m w).1 with Return a => Q a | Raise _ => True end.

(* ================================================================== *)
(** * Vocabulary of the further properties *)
(* ================================================================== *)

(** The row the data API stores for a new health record. *)
Definition new_record (w : World) (u : auth_user) (record : records.HealthRecordCreate) : dict :=
  [("user_id", VStr (au_id u)); ("title", VStr (records.title record));
   ("description", VStr (records.description record));
   ("category", VStr (records.category record));
   ("date", VStr (records.date record));
   ("id", VInt (next_id w)); ("created_at", VInt (clock w))].

(** No row of the table has the id the data API assigns next. *)
Definition next_id_is_fresh (t : string) (w : World) : Prop :=
  forall r, In r (rows_of t w) -> has_id (next_id w) r = false.

(** The fields a PUT writes. *)
Definition update_data (fields : records.HealthRecordUpdate) : dict :=
  [("title", VStr (records.title fields));
   ("description", VStr (records.description fields));
   ("category", VStr (records.category fields));
   ("date", VStr (records.date fields))].

(** The health record [r] is the one row with the id that the user owns. *)
Definition own_record (id : Z) (u : auth_user) (r : dict) (w : World) : Prop :=
  List.filter (fun r => has_id id r && owned_by (au_id u) r)
    (rows_of "health_records" w) = [r].

(** The rows of a table that the user does not own. *)
Definition rows_of_others (u : auth_user) (t : string) (w : World) : list dict :=
  List.filter (fun r => negb (owned_by (au_id u) r)) (rows_of t w).



(** The table a route inserts into, updates or deletes from. *)
Definition table_of (req : request) : option string :=
  match req with
  | POST_records _ _ | PUT_records_id _ _ _ | DELETE_records_id _ _ =>
      Some "health_records"
  | POST_vision_analyze _ _ | DELETE_vision_analyze_id _ _ => Some "vision_analysis"
  | POST_pneumonia_analyze _ _ | DELETE_pneumonia_analyze_id _ _ =>
      Some "pneumonia_analyses"
  | POST_mnist_infer _ _ => Some "mnist_analyses"
  | POST_clip_similarity _ _ _ => Some "clip_analyses"
  | POST_autoglm_infer _ _ => Some "autoglm_analyses"
  | _ => None
  end.

(** The bucket a route uploads to. *)
Definition bucket_of (req : request) : option string :=
  match req with
  | POST_vision_analyze _ _ | POST_clip_similarity _ _ _ =>
      Some supabase_service.STORAGE_BUCKET
  | POST_pneumonia_analyze _ _ => Some "pneumonia_images"
  | POST_mnist_infer _ _ => Some "mnist_images"
  | _ => None
  end.

(** [w'] is [w] with changes to the table [t] only and with uploads to the
    bucket [b] only. *)
Definition writes_within (t b : option string) (w w' : World) : Prop :=
  (forall t', t <> Some t' -> tables w' !! t' = tables w !! t') /\
  exists l, storage w' = (storage w ++ l)%list /\
            Forall (fun o => b = Some o.1.1) l.

(** Whatever [m] does, the world it leaves is related to the one it
    found. *)
Definition keeps {A} (R : World -> World -> Prop) (m : M A) : Prop :=
  forall w, R w (m w).2.

(** The bearer-authenticated routes that never look at what the identity
    provider says about the token: the logout, and the captioning route,
    which ignores the answer of [create_autoglm_analysis]. *)
Definition answers_without_user (req : request) : bool :=
  match req with
  | POST_auth_logout _ | POST_autoglm_infer _ _ => true
  | _ => false
  end.

(** The answer of an adapter method that failed. *)
Definition not_success (v : value) : Prop :=
  exists e, v = VDict [("success", VBool false); ("error", e)].

(** [w'] has the tables, the objects, the users and the faults of [w]. *)
Definition untouched (w w' : World) : Prop :=
  tables w' = tables w /\ storage w' = storage w /\
  auth_users w' = auth_users w /\ faults w' = faults w.

(** In a world where the identity provider resolves [token] to no user,
    [m] leaves the data as it is, and a value it returns is in [Q]. *)
Definition denied {A} (token : string) (m : M A) (Q : A -> Prop) : Prop :=
  forall w, resolve w token = VNone ->
    untouched w (m w).2 /\
    match (m w).1 with Return a => Q a | Raise _ => True end.

(** The score is a number. *)
Definition is_number (x : float) : Prop := PrimFloat.is_nan x = false.

(** [x] comes before [y] in a list in descending order of score. *)
Definition score_ge (x y : string * float) : Prop := PrimFloat.leb y.2 x.2 = true.


(** The vision model service once [load_model] succeeded. *)
Definition vision_ready : model_state :=
  {| model_loaded := true; loading_status := "Ready"; loading_progress := 100 |}.

(** The world in which POST /api/vision/analyze runs its model: the world
    after the upload, with the pipeline loaded on demand. *)
Definition vision_loaded_on_demand (w : World) : World :=
  if model_loaded (vision_model_service w) then w
  else with_vision_model_service vision_ready
         (logged (CallLoadPipeline "image-to-text" vision_model.model_name) w).

(** The row [create_vision_analysis] stores. *)
Definition vision_row (w : World) (u : auth_user) (url text : string) : dict :=
  [("user_id", VStr (au_id u)); ("image_url", VStr url);
   ("ai_description", VStr text);
   ("processing_time", VFloat (round w (elapsed w) 2));
   ("model_name", VStr vision_model.model_name);
   ("id", VInt (next_id w)); ("created_at", VInt (clock w))].

(** What stays as it was when the world changes. *)
Definition same_services (w w' : World) : Prop :=
  auth_users w' = auth_users w /\ faults w' = faults w /\
  next_id w' = next_id w /\ clock w' = clock w /\
  image_open w' = image_open w /\ vision_pipe w' = vision_pipe w /\
  pipeline_load w' = pipeline_load w /\
  round w' = round w /\ elapsed w' = elapsed w /\ tables w' = tables w.

(** [p] is the first largest entry of [probs], at index [i]. *)
Definition first_largest (probs : list float) (i : nat) (p : float) : Prop :=
  probs !! i = Some p /\
  forall j y, probs !! j = Some y ->
    PrimFloat.leb y p = true /\ (j < i -> PrimFloat.ltb y p = true).

(** The query touches rows of the user only: a row it inserts carries the
    id of the user, and an update or a delete is filtered by that id (an
    update leaving the owner as it is). *)
Definition scoped (uid : string) (q : query) : Prop :=
  match q_verb q with
  | Select => True
  | Insert data => assoc "user_id" data = Some (VStr uid)
  | Update data => In ("user_id", VStr uid) (q_filters q) /\ assoc "user_id" data = None
  | Delete => In ("user_id", VStr uid) (q_filters q)
  end.

(** [w'] has the users of [w], and in every table the rows that are not the
    user's are those of [w]. *)
Definition apart (u : auth_user) (w w' : World) : Prop :=
  (forall t, rows_of_others u t w' = rows_of_others u t w) /\
  auth_users w' = auth_users w.

(** In a world where [token] resolves to the user [u], [m] leaves the rows
    of the other users as they are, and a value it returns is in [Q]. *)
Definition as_user {A} (token : string) (u : auth_user) (m : M A) (Q : A -> Prop)
  : Prop :=
  forall w, auth_users w !! token = Some u ->
    apart u w (m w).2 /\ match (m w).1 with Return a => Q a | Raise _ => True end.

(** The get-by-id routes, with the table each reads and the id asked for. *)
Definition reads_by_id (req : request) : option (string * Z * option string) :=
  match req with
  | GET_records_id id a => Some ("health_records", id, a)
  | GET_vision_analyze_id id a => Some ("vision_analysis", id, a)
  | GET_pneumonia_analyze_id id a => Some ("pneumonia_analyses", id, a)
  | _ => None
  end.


(** The routes that report on the service: the root, the health check and
    the status of each model. *)
Definition reports_status (req : request) : bool :=
  match req with
  | GET_root | GET_health | GET_vision_status | GET_pneumonia_status
  | GET_clip_status | GET_autoglm_status => true
  | _ => false
  end.


(* ================================================================== *)
(** * Properties *)
(* ================================================================== *)

(** ** The string functions on small inputs *)

Section PyExamples.

Example replace_does_not_overlap : Py.replace "aaa" "aa" "b" = "ba".
Proof. reflexivity. Qed.

Example replace_every_occurrence :
  Py.replace "Bearer Bearer x" "Bearer " "" = "x".
Proof. reflexivity. Qed.

Example replace_empty_old : Py.replace "ab" "" "-" = "-a-b-".
Proof. reflexivity. Qed.

Example upper_mixed : Py.upper "Pneumonia-1" = "PNEUMONIA-1".
Proof. reflexivity. Qed.

Example extension_of_name : Py.file_extension "scan.v2.png" "jpg" = "png".
Proof. reflexivity. Qed.

Example extension_by_default : Py.file_extension "scan" "jpg" = "jpg".
Proof. reflexivity. Qed.

Example guard_is_case_sensitive :
  missing_or_invalid (Some "bearer abc") = true
  /\ missing_or_invalid (Some "") = true
  /\ missing_or_invalid (Some "Bearer abc") = false.
Proof. repeat split; reflexivity. Qed.

End PyExamples.

(** ** Comparisons of binary64 numbers *)

Section FloatOrder.

(** Below a positive finite number there is nothing above a larger one. *)
Lemma SF_lt_le_not_ge (c : spec_float) (m1 m2 : positive) (e1 e2 : Z) :
  SFltb c (S754_finite false m1 e1) = true ->
  SFleb (S754_finite false m1 e1) (S754_finite false m2 e2) = true ->
  SFleb (S754_finite false m2 e2) c = false.
Proof.
  unfold SFltb, SFleb, SFcompare.
  change (PosDef.Pos.compare_cont Eq) with Pos.compare.
  destruct c as [s|s| |s m e]; try destruct s; try discriminate; try reflexivity.
  destruct (Z.compare_spec e e1), (Z.compare_spec e1 e2), (Z.compare_spec e2 e);
    try discriminate; try lia; subst;
    destruct (Pos.compare_spec m m1), (Pos.compare_spec m1 m2),
             (Pos.compare_spec m2 m);
    try discriminate; try lia; reflexivity.
Qed.

Lemma float_lt_le_not_ge (c k k' : float) (m1 m2 : positive) (e1 e2 : Z) :
  Prim2SF k = S754_finite false m1 e1 ->
  Prim2SF k' = S754_finite false m2 e2 ->
  PrimFloat.leb k k' = true ->
  PrimFloat.ltb c k = true ->
  PrimFloat.leb k' c = false.
Proof.
  rewrite !leb_spec, ltb_spec. intros -> ->. eauto using SF_lt_le_not_ge.
Qed.

End FloatOrder.

(** [below c k k']: from [c < k] and the constants [k <= k'], the test
    [k' <= c] fails. *)
Ltac below H :=
  match type of H with
  | PrimFloat.ltb ?c ?k = true =>
      match goal with
      | |- PrimFloat.leb ?k' _ = false =>
          eapply (float_lt_le_not_ge c k k');
          [vm_compute; reflexivity | vm_compute; reflexivity
          | reflexivity | exact H]
      end
  end.

(** ** The pneumonia classifier's severity and recommendation *)

Section Pneumonia.

Import pneumonia_model.
Open Scope float_scope.

Lemma severity_normal (c : float) : _determine_severity c false = "Normal".
Proof. reflexivity. Qed.

Lemma severity_high (c : float) :
  (0.95 <=? c) = true ->
  _determine_severity c true = "High Confidence - Pneumonia Detected".
Proof. unfold _determine_severity. cbn [negb]. intros ->. reflexivity. Qed.

Lemma severity_moderate (c : float) :
  (0.80 <=? c) = true -> (c <? 0.95) = true ->
  _determine_severity c true = "Moderate Confidence - Pneumonia Likely".
Proof.
  intros H80 H95. unfold _determine_severity. cbn [negb].
  assert ((0.95 <=? c) = false) as -> by below H95.
  rewrite H80. reflexivity.
Qed.

Lemma severity_low (c : float) :
  (0.60 <=? c) = true -> (c <? 0.80) = true ->
  _determine_severity c true = "Low Confidence - Pneumonia Possible".
Proof.
  intros H60 H80. unfold _determine_severity. cbn [negb].
  assert ((0.95 <=? c) = false) as -> by below H80.
  assert ((0.80 <=? c) = false) as -> by below H80.
  rewrite H60. reflexivity.
Qed.

Lemma severity_unclear (c : float) :
  (c <? 0.60) = true ->
  _determine_severity c true = "Very Low Confidence - Unclear".
Proof.
  intros H60. unfold _determine_severity. cbn [negb].
  assert ((0.95 <=? c) = false) as -> by below H60.
  assert ((0.80 <=? c) = false) as -> by below H60.
  assert ((0.60 <=? c) = false) as -> by below H60.
  reflexivity.
Qed.

(** C2.  The severity is a function of the predicted label and of the
    confidence alone.  A label that is not the positive class gives "Normal";
    for the positive class a confidence of at least 0.95 gives the high tier,
    one in [0.80, 0.95) the moderate tier, one in [0.60, 0.80) the low tier
    and one below 0.60 the unclear tier.  In particular ("PNEUMONIA", 0.96)
    gives "High Confidence - Pneumonia Detected" and ("NORMAL", 0.50) gives
    "Normal". *)
Theorem severity_tiers (label : string) (c : float) :
  (is_pneumonia_label label = false -> severity_of label c = "Normal") /\
  (is_pneumonia_label label = true ->
     ((0.95 <=? c) = true ->
        severity_of label c = "High Confidence - Pneumonia Detected") /\
     ((0.80 <=? c) = true -> (c <? 0.95) = true ->
        severity_of label c = "Moderate Confidence - Pneumonia Likely") /\
     ((0.60 <=? c) = true -> (c <? 0.80) = true ->
        severity_of label c = "Low Confidence - Pneumonia Possible") /\
     ((c <? 0.60) = true ->
        severity_of label c = "Very Low Confidence - Unclear")) /\
  severity_of "PNEUMONIA" 0.96 = "High Confidence - Pneumonia Detected" /\
  severity_of "NORMAL" 0.50 = "Normal".
Proof.
  unfold severity_of. split; [|split; [|split]].
  - intros ->. apply severity_normal.
  - intros ->. auto using severity_high, severity_moderate, severity_low,
      severity_unclear.
  - reflexivity.
  - reflexivity.
Qed.

Lemma severity_tiers_witness :
  severity_of "pneumonia" 0.85 = "Moderate Confidence - Pneumonia Likely" /\
  severity_of "PNEUMONIA" 0.7 = "Low Confidence - Pneumonia Possible" /\
  severity_of "PNEUMONIA" 0.3 = "Very Low Confidence - Unclear" /\
  severity_of "Effusion" 0.99 = "Normal".
Proof.
  split; [|split; [|split]].
  - apply (severity_tiers "pneumonia" 0.85); reflexivity.
  - apply (severity_tiers "PNEUMONIA" 0.7); reflexivity.
  - apply (severity_tiers "PNEUMONIA" 0.3); reflexivity.
  - apply (severity_tiers "Effusion" 0.99); reflexivity.
Defined.

(** The recommendation changes at 0.90, inside the moderate tier, and does
    not change at 0.95. *)
Lemma recommendation_changes_inside_a_tier :
  severity_of "PNEUMONIA" 0.85 = severity_of "PNEUMONIA" 0.92 /\
  recommendation_of "PNEUMONIA" 0.85 <> recommendation_of "PNEUMONIA" 0.92 /\
  severity_of "PNEUMONIA" 0.92 <> severity_of "PNEUMONIA" 0.96 /\
  recommendation_of "PNEUMONIA" 0.92 = recommendation_of "PNEUMONIA" 0.96 /\
  ~ recommendation_follows_severity_tiers.
Proof.
  assert (recommendation_of "PNEUMONIA" 0.85 <> recommendation_of "PNEUMONIA" 0.92)
    as Hne by (vm_compute; discriminate).
  repeat split; try reflexivity; try exact Hne.
  - vm_compute; discriminate.
  - intros H. apply Hne, H. reflexivity.
Qed.

(** C3, amended.  The recommendation is a function of the label and of the
    confidence with thresholds of its own: for the positive class 0.90, 0.75
    and 0.60, for any other label 0.90. *)
Theorem recommendation_tiers (label : string) (c : float) :
  (is_pneumonia_label label = false ->
     ((0.90 <=? c) = true ->
        recommendation_of label c =
        "X-ray appears normal. Continue regular health monitoring.") /\
     ((c <? 0.90) = true ->
        recommendation_of label c =
        "X-ray appears mostly normal, but confidence is moderate. Consider follow-up if symptoms persist.")) /\
  (is_pneumonia_label label = true ->
     ((0.90 <=? c) = true ->
        recommendation_of label c =
        "⚠️ HIGH PRIORITY: Pneumonia detected with high confidence. Immediate medical consultation strongly recommended.") /\
     ((0.75 <=? c) = true -> (c <? 0.90) = true ->
        recommendation_of label c =
        "⚠️ MODERATE PRIORITY: Pneumonia likely detected. Please consult a healthcare provider soon for proper diagnosis.") /\
     ((0.60 <=? c) = true -> (c <? 0.75) = true ->
        recommendation_of label c =
        "⚠️ LOW PRIORITY: Possible pneumonia indication. Monitor symptoms and consider medical consultation if condition worsens.") /\
     ((c <? 0.60) = true ->
        recommendation_of label c =
        "Results inconclusive. If experiencing respiratory symptoms, please consult a healthcare provider.")).
Proof.
  unfold recommendation_of, _get_recommendation. split.
  - intros ->. cbn [negb]. split.
    + intros ->. reflexivity.
    + intros H. assert ((0.90 <=? c) = false) as -> by below H. reflexivity.
  - intros ->. cbn [negb]. split; [|split; [|split]].
    + intros ->. reflexivity.
    + intros H75 H90. assert ((0.90 <=? c) = false) as -> by below H90.
      rewrite H75. reflexivity.
    + intros H60 H75. assert ((0.90 <=? c) = false) as -> by below H75.
      assert ((0.75 <=? c) = false) as -> by below H75.
      rewrite H60. reflexivity.
    + intros H60. assert ((0.90 <=? c) = false) as -> by below H60.
      assert ((0.75 <=? c) = false) as -> by below H60.
      assert ((0.60 <=? c) = false) as -> by below H60. reflexivity.
Qed.

Lemma recommendation_tiers_witness :
  recommendation_of "PNEUMONIA" 0.92 = recommendation_of "PNEUMONIA" 0.96 /\
  recommendation_of "PNEUMONIA" 0.78 =
    "⚠️ MODERATE PRIORITY: Pneumonia likely detected. Please consult a healthcare provider soon for proper diagnosis." /\
  recommendation_of "NORMAL" 0.85 =
    "X-ray appears mostly normal, but confidence is moderate. Consider follow-up if symptoms persist.".
Proof.
  split; [|split].
  - transitivity "⚠️ HIGH PRIORITY: Pneumonia detected with high confidence. Immediate medical consultation strongly recommended.".
    + apply (recommendation_tiers "PNEUMONIA" 0.92); reflexivity.
    + symmetry. apply (recommendation_tiers "PNEUMONIA" 0.96); reflexivity.
  - apply (recommendation_tiers "PNEUMONIA" 0.78); reflexivity.
  - apply (recommendation_tiers "NORMAL" 0.85); reflexivity.
Defined.

End Pneumonia.


(** ** Running the adapter and the handlers *)

Section Running.

Lemma bind_Return {A B} (m : M A) (k : A -> M B) (w w' : World) (a : A) :
  m w = (Return a, w') -> bind m k w = k a w'.
Proof. unfold bind. intros ->. reflexivity. Qed.

Lemma bind_Raise {A B} (m : M A) (k : A -> M B) (w w' : World) (e : exn) :
  m w = (Raise e, w') -> bind m k w = (Raise e, w').
Proof. unfold bind. intros ->. reflexivity. Qed.

Lemma try_except_Return {A} (m : M A) (h : exn -> M A) (w w' : World) (a : A) :
  m w = (Return a, w') -> try_except m h w = (Return a, w').
Proof. unfold try_except. intros ->. reflexivity. Qed.

Lemma try_except_Raise {A} (m : M A) (h : exn -> M A) (w w' : World) (e : exn) :
  m w = (Raise e, w') -> try_except m h w = h e w'.
Proof. unfold try_except. intros ->. reflexivity. Qed.

(** A provider call is logged whether it fails or not. *)
Lemma provider_spec (op : provider_op) (c : call) (w : World) :
  provider op c w =
  (match faults w op with
   | Some msg => Raise (Exception msg)
   | None => Return tt
   end, logged c w).
Proof.
  unfold provider, bind, record_call, get_world.
  change (faults (logged c w) op) with (faults w op).
  destruct (faults w op); reflexivity.
Qed.

Lemma execute_spec (q : query) (w : World) :
  Provider.execute q w =
  match faults w (Provider.op_of (q_verb q)) with
  | Some msg => (Raise (Exception msg), logged (CallExecute q) w)
  | None => Provider.run_query q (logged (CallExecute q) w)
  end.
Proof.
  unfold Provider.execute, bind. rewrite provider_spec.
  destruct (faults w _); reflexivity.
Qed.

(** [get_user] never raises and makes one call. *)
Lemma get_user_spec (token : string) (w : World) :
  supabase_service.get_user token w
  = (Return (resolve w token), logged (CallGetUser token) w).
Proof.
  unfold supabase_service.get_user, try_except, bind, Provider.auth_get_user, bind.
  rewrite provider_spec. unfold resolve.
  destruct (faults w OpGetUser); [reflexivity|].
  unfold get_world. change (auth_users (logged _ w)) with (auth_users w).
  destruct (auth_users w !! token) as [u|]; [|reflexivity].
  unfold get, user_dict. cbn. destruct (assoc _ _); reflexivity.
Qed.

Lemma resolve_known (w : World) (token : string) (u : auth_user) :
  faults w OpGetUser = None -> auth_users w !! token = Some u ->
  resolve w token = user_dict u.
Proof. unfold resolve. intros -> ->. reflexivity. Qed.

Lemma bearer_ok (h : string) (w : World) :
  missing_or_invalid (Some h) = false ->
  bearer (Some h) w = (Return (bearer_token h), w).
Proof. unfold bearer. intros ->. reflexivity. Qed.

Lemma bearer_bad (a : option string) (w : World) :
  missing_or_invalid a = true ->
  bearer a w
  = (Raise (HTTPException 401 (VStr "Missing or invalid authorization header")), w).
Proof. unfold bearer. intros ->. reflexivity. Qed.

End Running.

(** Normalising a handler applied to a world: the monad is unfolded and the
    literal dicts are computed; the adapter calls stay, to be rewritten with
    their equations. *)
Ltac mcbn :=
  cbn [getitem get index0 len first_or_none truthy negb
       assoc String.eqb Ascii.eqb Bool.eqb andb orb user_dict
       supabase_service.failure supabase_service.invalid_token
       q_verb q_single q_order q_table q_filters Provider.op_of
       Provider.single Provider.eq Provider.order Provider.table app
       main.respond fst snd].
Ltac munfold :=
  unfold try_except_reraise_http, try_except, bind, ret, raise, get_world,
    modify, record_call, of_result; cbv beta.
Ltac mrun := repeat progress (munfold; mcbn).

(** The function a computation is an application of. *)
Ltac head t := lazymatch t with ?f _ => head f | _ => t end.

(** Logging, storing a file and drawing a uuid leave the rest of the world as
    it is. *)
Ltac wsimpl :=
  cbn [faults auth_users tables next_id clock pneumonia_model_service
       vision_model_service pipeline_load image_open pneumonia_pipe round
       elapsed uuids public_url_prefix
       logged with_log with_storage with_uuid_count].

(** ** Ownership *)

Section Ownership.

Lemma matches_id_owner (id : Z) (uid : string) (r : dict) :
  Provider.matches [("id", VInt id); ("user_id", VStr uid)] r
  = has_id id r && owned_by uid r.
Proof.
  unfold Provider.matches, has_id, owned_by. cbn.
  destruct (assoc "id" r) as [[]|], (assoc "user_id" r) as [[]|];
    cbn; rewrite ?andb_true_r, ?andb_false_r; reflexivity.
Qed.


(** A record of another owner is foreign. *)
Lemma foreign_of_other_owner (id : Z) (a b : string) (rows : list dict) :
  a <> b ->
  (forall r, In r rows -> has_id id r = true -> owned_by b r = true) ->
  foreign id a rows.
Proof.
  intros Hab H r Hr Hid. specialize (H r Hr Hid). unfold owned_by in *.
  destruct (assoc "user_id" r) as [[| | | |u| |]|]; try reflexivity.
  apply String.eqb_eq in H as ->. apply String.eqb_neq. congruence.
Qed.

Lemma foreign_no_hit (id : Z) (uid : string) (rows : list dict) :
  foreign id uid rows ->
  List.filter (Provider.matches [("id", VInt id); ("user_id", VStr uid)]) rows = [].
Proof.
  intros H. induction rows as [|r rows IH]; [reflexivity|].
  cbn [List.filter]. rewrite matches_id_owner.
  destruct (has_id id r) eqn:Hid; cbn [andb].
  - rewrite (H r) by (cbn; auto). apply IH. intros r' ?. apply H. cbn. auto.
  - apply IH. intros r' ?. apply H. cbn. auto.
Qed.

Lemma foreign_all_kept (id : Z) (uid : string) (rows : list dict) :
  foreign id uid rows ->
  List.filter (fun r => negb (Provider.matches [("id", VInt id); ("user_id", VStr uid)] r)) rows = rows.
Proof.
  intros H. induction rows as [|r rows IH]; [reflexivity|].
  cbn [List.filter]. rewrite matches_id_owner.
  assert (has_id id r && owned_by uid r = false) as ->.
  { destruct (has_id id r) eqn:Hid; [|reflexivity]. cbn. apply H; cbn; auto. }
  cbn. f_equal. apply IH. intros r' ?. apply H. cbn. auto.
Qed.

Lemma foreign_none_updated (id : Z) (uid : string) (data : dict) (rows : list dict) :
  foreign id uid rows ->
  (fun r => if Provider.matches [("id", VInt id); ("user_id", VStr uid)] r
            then dict_update r data else r) <$> rows = rows.
Proof.
  intros H. induction rows as [|r rows IH]; [reflexivity|].
  cbn [fmap list_fmap]. rewrite matches_id_owner.
  assert (has_id id r && owned_by uid r = false) as ->.
  { destruct (has_id id r) eqn:Hid; [|reflexivity]. cbn. apply H; cbn; auto. }
  f_equal. apply IH. intros r' ?. apply H. cbn. auto.
Qed.

End Ownership.

(** ** Access to a record of another owner *)

Section ForeignRecord.

Import main.

Lemma rows_of_with_table (t : string) (rows : list dict) (i c : Z) (w : World) :
  rows_of t (with_table t rows i c w) = rows.
Proof.
  unfold rows_of. cbn [tables with_table]. rewrite lookup_insert_eq. reflexivity.
Qed.

Lemma get_row_absent (t : string) (w : World) (token : string) (u : auth_user)
    (id : Z) :
  auth_users w !! token = Some u ->
  faults w OpGetUser = None -> faults w OpSelect = None ->
  foreign id (au_id u) (rows_of t w) ->
  exists w',
    supabase_service.get_row t token id w
    = (Return (VDict [("success", VBool false);
                      ("error", VStr Provider.single_row_error)]), w')
    /\ rows_of t w' = rows_of t w.
Proof.
  intros Hu Hf Hs Hrows. eexists.
  unfold supabase_service.get_row. munfold.
  rewrite get_user_spec, (resolve_known _ _ _ Hf Hu). mrun.
  rewrite execute_spec. mcbn. wsimpl. rewrite Hs.
  unfold Provider.run_query. mrun. wsimpl.
  fold (rows_of t w). rewrite (foreign_no_hit _ _ _ Hrows).
  split; reflexivity.
Qed.

Lemma update_absent (w : World) (token : string) (u : auth_user) (id : Z)
    (title description category date : string) :
  auth_users w !! token = Some u ->
  faults w OpGetUser = None -> faults w OpUpdate = None ->
  foreign id (au_id u) (rows_of "health_records" w) ->
  exists w',
    supabase_service.update_health_record token id title description category
      date w
    = (Return (VDict [("success", VBool true); ("data", VNone);
                      ("message", VStr "Health record updated successfully")]), w')
    /\ rows_of "health_records" w' = rows_of "health_records" w.
Proof.
  intros Hu Hf Hs Hrows. eexists.
  unfold supabase_service.update_health_record. munfold.
  rewrite get_user_spec, (resolve_known _ _ _ Hf Hu). mrun.
  rewrite execute_spec. mcbn. wsimpl. rewrite Hs.
  unfold Provider.run_query. mrun. wsimpl.
  fold (rows_of "health_records" w).
  rewrite (foreign_no_hit _ _ _ Hrows), (foreign_none_updated _ _ _ _ Hrows).
  cbn [fmap list_fmap]. mcbn.
  split; [reflexivity | apply rows_of_with_table].
Qed.

Lemma delete_absent (t message : string) (w : World) (token : string)
    (u : auth_user) (id : Z) :
  auth_users w !! token = Some u ->
  faults w OpGetUser = None -> faults w OpDelete = None ->
  foreign id (au_id u) (rows_of t w) ->
  exists w',
    supabase_service.delete_row t message token id w
    = (Return (VDict [("success", VBool true); ("message", VStr message)]), w')
    /\ rows_of t w' = rows_of t w.
Proof.
  intros Hu Hf Hs Hrows. eexists.
  unfold supabase_service.delete_row. munfold.
  rewrite get_user_spec, (resolve_known _ _ _ Hf Hu). mrun.
  rewrite execute_spec. mcbn. wsimpl. rewrite Hs.
  unfold Provider.run_query. mrun. wsimpl.
  fold (rows_of t w). rewrite (foreign_all_kept _ _ _ Hrows).
  split; [reflexivity | apply rows_of_with_table].
Qed.

(** The claim of C1 at one input: the update and the delete of a record of
    another owner are answered as if they had been done. *)
Lemma foreign_update_and_delete_report_success :
  let put := (serve (PUT_records_id 1 Demo.new_fields (Some "Bearer token-a")) Demo.w0).1 in
  let del := (serve (DELETE_records_id 1 (Some "Bearer token-a")) Demo.w0).1 in
  foreign 1 (au_id Demo.alice) (rows_of "health_records" Demo.w0) /\
  status_code put = 200 /\ status_code put <> 404 /\
  field "success" put = Some (VBool true) /\
  status_code del = 200 /\ status_code del <> 404 /\
  field "success" del = Some (VBool true).
Proof.
  cbv zeta. split.
  - intros r [<-|[]]. reflexivity.
  - repeat split; solve [vm_compute; reflexivity | vm_compute; discriminate].
Qed.

(** C1, amended.  Let the token of the header resolve to a user, let no
    provider call fail, and let no health record with the id [rid] belong to
    that user (it is another owner's, or nobody's).  Then getById answers 404,
    while update and delete answer 200 with [success] true, the update with
    [data] null; no answer holds the record and the table is as before. *)
Theorem foreign_record_is_hidden_and_kept (w : World) (h : string)
    (u : auth_user) (rid : Z) (fields : records.HealthRecordUpdate) :
  missing_or_invalid (Some h) = false ->
  auth_users w !! bearer_token h = Some u ->
  (forall op, faults w op = None) ->
  foreign rid (au_id u) (rows_of "health_records" w) ->
  (let (r, w') := serve (GET_records_id rid (Some h)) w in
   r = {| status_code := 404;
          content := VDict [("detail", VStr Provider.single_row_error)] |}
   /\ rows_of "health_records" w' = rows_of "health_records" w) /\
  (let (r, w') := serve (PUT_records_id rid fields (Some h)) w in
   r = {| status_code := 200;
          content := VDict [("success", VBool true);
                            ("message", VStr "Health record updated successfully");
                            ("data", VNone)] |}
   /\ rows_of "health_records" w' = rows_of "health_records" w) /\
  (let (r, w') := serve (DELETE_records_id rid (Some h)) w in
   r = {| status_code := 200;
          content := VDict [("success", VBool true);
                            ("message", VStr "Health record deleted successfully")] |}
   /\ rows_of "health_records" w' = rows_of "health_records" w).
Proof.
  intros Hh Hu Hf Hrows. unfold serve. cbn [handler]. split; [|split].
  - destruct (get_row_absent "health_records" w _ u rid Hu (Hf _) (Hf _) Hrows)
      as (w' & E & Ht).
    unfold records.get_record, supabase_service.get_health_record. munfold.
    rewrite (bearer_ok h w Hh), E. unfold get_response. mrun. auto.
  - destruct (update_absent w _ u rid (records.title fields)
                (records.description fields) (records.category fields)
                (records.date fields) Hu (Hf _) (Hf _) Hrows) as (w' & E & Ht).
    unfold records.update_record. munfold.
    rewrite (bearer_ok h w Hh), E. mrun. auto.
  - destruct (delete_absent "health_records" "Health record deleted successfully"
                w _ u rid Hu (Hf _) (Hf _) Hrows) as (w' & E & Ht).
    unfold records.delete_record, supabase_service.delete_health_record. munfold.
    rewrite (bearer_ok h w Hh), E. unfold delete_response. mrun. auto.
Qed.

Lemma foreign_record_is_hidden_and_kept_witness :
  (serve (GET_records_id 1 (Some "Bearer token-a")) Demo.w0).1
  = {| status_code := 404;
       content := VDict [("detail", VStr Provider.single_row_error)] |}
  /\ rows_of "health_records"
       (serve (DELETE_records_id 1 (Some "Bearer token-a")) Demo.w0).2
     = [Demo.bobs_record].
Proof.
  assert (foreign 1 (au_id Demo.alice) (rows_of "health_records" Demo.w0)) as Hrows
    by (apply (foreign_of_other_owner 1 "user-a" "user-b");
        [discriminate | intros r [<-|[]]; reflexivity]).
  pose proof (foreign_record_is_hidden_and_kept Demo.w0 "Bearer token-a"
                Demo.alice 1 Demo.new_fields eq_refl eq_refl
                (fun _ => eq_refl) Hrows) as (Hget & _ & Hdel).
  destruct (serve (GET_records_id 1 (Some "Bearer token-a")) Demo.w0) as [r1 w1].
  destruct (serve (DELETE_records_id 1 (Some "Bearer token-a")) Demo.w0) as [r3 w3].
  split; [apply Hget | apply Hdel].
Defined.

End ForeignRecord.

(** ** The bearer token *)

Section BearerToken.

Lemma replace_from_absent (old new s : string) :
  Py.contains s old = false -> Py.replace_from old new 0 s = s.
Proof.
  induction s as [|c s IH]; [reflexivity|].
  cbn [Py.contains Py.replace_from]. intros H.
  apply orb_false_iff in H as [-> H]. rewrite IH by exact H. reflexivity.
Qed.

(** After an occurrence the scan resumes behind it. *)
Lemma replace_from_skip (old new p t : string) :
  Py.replace_from old new (String.length p) (p ++ t) = Py.replace_from old new 0 t.
Proof.
  induction p as [|c p IH];
    cbn [String.length String.append Py.replace_from]; [reflexivity | exact IH].
Qed.

Lemma bearer_token_prefix (rest : string) :
  bearer_token ("Bearer " ++ rest) = Py.replace_from "Bearer " "" 0 rest.
Proof.
  unfold bearer_token, Py.replace.
  assert (String.prefix "Bearer " ("Bearer " ++ rest) = true) as Hp
    by (cbn; destruct rest; reflexivity).
  change ("Bearer " ++ rest) with (String "B" ("earer " ++ rest)) in *.
  cbn [Py.replace_from]. rewrite Hp.
  apply (replace_from_skip "Bearer " "" "earer " rest).
Qed.

(** *** Which token the handlers forward *)

Section Forwards.

Context (token : string).

Lemma extends_refl (w : World) : extends token w w.
Proof. exists []. split; [symmetry; apply app_nil_r | constructor]. Qed.

Lemma extends_trans (w1 w2 w3 : World) :
  extends token w1 w2 -> extends token w2 w3 -> extends token w1 w3.
Proof.
  intros (l1 & E1 & H1) (l2 & E2 & H2). exists (l1 ++ l2)%list. split.
  - rewrite E2, E1, app_assoc. reflexivity.
  - apply Forall_app. auto.
Qed.

Lemma forwards_ret {A} (a : A) (Q : A -> Prop) : Q a -> forwards token (ret a) Q.
Proof. intros H w. split; [apply extends_refl | exact H]. Qed.

Lemma forwards_raise {A} (e : exn) (Q : A -> Prop) : forwards token (raise e) Q.
Proof. intros w. split; [apply extends_refl | exact I]. Qed.

Lemma forwards_get_world : forwards token get_world (fun _ => True).
Proof. intros w. split; [apply extends_refl | exact I]. Qed.

Lemma forwards_of_result {A} (r : result A) :
  forwards token (of_result r) (fun _ => True).
Proof. intros w. split; [apply extends_refl | destruct r; exact I]. Qed.

Lemma forwards_modify (f : World -> World) :
  (forall w, log (f w) = log w) -> forwards token (modify f) (fun _ => True).
Proof.
  intros H w. split; [|exact I]. exists []. cbn. rewrite H, app_nil_r.
  split; [reflexivity | constructor].
Qed.

Lemma forwards_record_call (c : call) :
  asks_only token c -> forwards token (record_call c) (fun _ => True).
Proof.
  intros H w. split; [|exact I]. exists [c]. split; [reflexivity|].
  constructor; [exact H | constructor].
Qed.

Lemma forwards_bind {A B} (m : M A) (k : A -> M B) (Q1 : A -> Prop)
    (Q : B -> Prop) :
  forwards token m Q1 -> (forall a, Q1 a -> forwards token (k a) Q) ->
  forwards token (bind m k) Q.
Proof.
  intros Hm Hk w. unfold bind. destruct (Hm w) as [He Hq].
  destruct (m w) as [[a|e] w']; cbn in *.
  - destruct (Hk a Hq w') as [He' Hq']. split; [|exact Hq'].
    eapply extends_trans; eassumption.
  - split; [exact He | exact I].
Qed.

Lemma forwards_try_except {A} (m : M A) (h : exn -> M A) (Q : A -> Prop) :
  forwards token m Q -> (forall e, forwards token (h e) Q) ->
  forwards token (try_except m h) Q.
Proof.
  intros Hm Hh w. unfold try_except. destruct (Hm w) as [He Hq].
  destruct (m w) as [[a|e] w']; cbn in *.
  - split; assumption.
  - destruct (Hh e w') as [He' Hq']. split; [|exact Hq'].
    eapply extends_trans; eassumption.
Qed.

Lemma forwards_any {A} (m : M A) (Q : A -> Prop) :
  forwards token m Q -> forwards token m (fun _ => True).
Proof. intros H w. destruct (H w) as [He _]. split; [exact He|]. destruct ((m w).1); exact I. Qed.

End Forwards.

Lemma forwards_bearer (h : string) :
  forwards (bearer_token h) (bearer (Some h)) (fun t => t = bearer_token h).
Proof.
  intros w. unfold bearer. destruct (missing_or_invalid (Some h)); cbn.
  - split; [apply extends_refl | exact I].
  - split; [apply extends_refl | reflexivity].
Qed.

Ltac forwards_go :=
  cbv zeta;
  lazymatch goal with
  | |- forwards _ (bind (bearer (Some ?h)) _) _ =>
      apply (forwards_bind _ _ _ (fun t => t = bearer_token h));
      [apply forwards_bearer | intros ? ->; forwards_go]
  | |- forwards _ (bind _ _) _ =>
      apply (forwards_bind _ _ _ (fun _ => True)); [forwards_go | intros ? _; forwards_go]
  | |- forwards _ (try_except _ _) _ =>
      apply forwards_try_except; [forwards_go | intros ?; forwards_go]
  | |- forwards _ (ret _) _ => apply forwards_ret; exact I
  | |- forwards _ (raise _) _ => apply forwards_raise
  | |- forwards _ get_world _ => apply forwards_get_world
  | |- forwards _ (modify _) _ => apply forwards_modify; intros ?; reflexivity
  | |- forwards _ (record_call _) _ => apply forwards_record_call; first [exact I | reflexivity]
  | |- forwards _ (of_result _) _ => apply forwards_of_result
  | |- forwards _ (if ?b then _ else _) _ => destruct b; forwards_go
  | |- forwards _ (match ?x with _ => _ end) _ => destruct x; forwards_go
  | |- forwards _ ?m _ => let h := head m in unfold h; forwards_go
  end.

Lemma handler_forwards (req : request) (h : string) :
  authorization_of req = Some (Some h) ->
  forwards (bearer_token h) (handler req) (fun _ => True).
Proof.
  destruct req; cbn [authorization_of handler]; try discriminate;
    intros [= ->]; forwards_go.
Qed.

(** C10.  The token forwarded to the identity provider is the header with
    every occurrence of "Bearer " removed: for a header "Bearer " ++ t whose
    [t] does not contain "Bearer " it is [t], for the header
    "Bearer aBearer b" it is "ab" and not the token sent.  The handler of
    GET /api/auth/user asks the provider about exactly that string, and no
    bearer-authenticated handler asks the provider about any other. *)
Theorem bearer_token_removes_every_occurrence :
  (forall t : string,
     Py.contains t "Bearer " = false -> bearer_token ("Bearer " ++ t) = t) /\
  (exists t : string,
     Py.contains t "Bearer " = true /\ bearer_token ("Bearer " ++ t) <> t) /\
  (forall (h : string) (w : World),
     missing_or_invalid (Some h) = false ->
     log (main.serve (main.GET_auth_user (Some h)) w).2
     = (log w ++ [CallGetUser (bearer_token h)])%list) /\
  (forall (req : request) (h : string) (w : World),
     authorization_of req = Some (Some h) ->
     exists l, log (serve req w).2 = (log w ++ l)%list /\
               Forall (asks_only (bearer_token h)) l).
Proof.
  split; [|split; [|split]]; cycle 3.
  { intros req h w H. destruct (handler_forwards req h H w) as [He _].
    unfold serve. destruct (handler req w). exact He. }
  - intros t H. rewrite bearer_token_prefix. apply replace_from_absent, H.
  - exists "aBearer b". split; [reflexivity|]. vm_compute. discriminate.
  - intros h w H. unfold main.serve. cbn [main.handler].
    unfold auth.get_user. munfold.
    rewrite (bearer_ok h w H), get_user_spec.
    destruct (truthy (resolve w (bearer_token h))); reflexivity.
Qed.

Lemma bearer_token_removes_every_occurrence_witness :
  bearer_token ("Bearer " ++ "eyJhbGciOi.token") = "eyJhbGciOi.token" /\
  log (main.serve (main.GET_auth_user (Some "Bearer aBearer b")) Demo.w0).2
  = [CallGetUser "ab"].
Proof.
  split.
  - apply bearer_token_removes_every_occurrence. reflexivity.
  - apply (proj1 (proj2 (proj2 bearer_token_removes_every_occurrence))).
    reflexivity.
Defined.

End BearerToken.

(** ** The bearer guard *)

Section BearerGuard.

Import main.

Lemma missing_or_malformed_guard (a : option string) :
  missing_or_malformed a -> missing_or_invalid a = true.
Proof.
  intros [->|(h & -> & H)]; [reflexivity|].
  unfold missing_or_invalid. rewrite H. apply orb_true_r.
Qed.

(** C4.  A request to a bearer-authenticated route whose Authorization header
    is missing or does not start with "Bearer " is answered 401, and the
    world is left as it was: nothing was asked of the identity provider, no
    model was run, nothing was uploaded and no table was read or written. *)
Theorem request_without_bearer_is_rejected (req : request) (a : option string)
    (w : World) :
  authorization_of req = Some a ->
  missing_or_malformed a ->
  serve req w
  = ({| status_code := 401;
        content := VDict [("detail", VStr "Missing or invalid authorization header")] |},
     w).
Proof.
  intros Hreq Ha. apply missing_or_malformed_guard in Ha.
  unfold serve.
  destruct req; cbn [authorization_of] in Hreq; try discriminate;
    injection Hreq as ->; cbn [handler];
    unfold auth.logout, auth.get_user, records.create_record,
      records.get_records, records.get_record, records.update_record,
      records.delete_record, vision.analyze_image, vision.get_analysis_history,
      vision.get_analysis, vision.delete_analysis, pneumonia.analyze_xray,
      pneumonia.get_pneumonia_history, pneumonia.get_pneumonia_analysis,
      pneumonia.delete_pneumonia_analysis, mnist_api.mnist_infer,
      clip_api.clip_similarity, autoglm_api.autoglm_infer;
    munfold; rewrite (bearer_bad _ _ Ha); reflexivity.
Qed.

Lemma request_without_bearer_is_rejected_witness :
  (serve (POST_mnist_infer Demo.xray (Some "Basic dXNlcjpwYXNz")) Demo.w0).1
  = {| status_code := 401;
       content := VDict [("detail", VStr "Missing or invalid authorization header")] |}
  /\ log (serve (DELETE_records_id 1 None) Demo.w0).2 = [].
Proof.
  split.
  - rewrite (request_without_bearer_is_rejected
               (POST_mnist_infer Demo.xray (Some "Basic dXNlcjpwYXNz"))
               (Some "Basic dXNlcjpwYXNz") Demo.w0 eq_refl).
    + reflexivity.
    + right. exists "Basic dXNlcjpwYXNz". split; reflexivity.
  - rewrite (request_without_bearer_is_rejected (DELETE_records_id 1 None)
               None Demo.w0 eq_refl).
    + reflexivity.
    + left. reflexivity.
Defined.

End BearerGuard.

(** ** Listing the rows of an owner *)

Section Listing.

Lemma string_leb_trans (a b c : string) :
  String.leb a b = true -> String.leb b c = true -> String.leb a c = true.
Proof.
  unfold String.leb. revert b c.
  induction a as [|x a IH]; intros [|y b] [|z c]; cbn; try congruence.
  unfold Ascii.compare.
  destruct (N.compare_spec (N_of_ascii x) (N_of_ascii y)),
           (N.compare_spec (N_of_ascii y) (N_of_ascii z)),
           (N.compare_spec (N_of_ascii x) (N_of_ascii z));
    try congruence; try lia.
  apply IH.
Qed.

Lemma value_leb_total (a b : value) :
  Provider.value_leb a b = true \/ Provider.value_leb b a = true.
Proof.
  destruct a as [|[]| | | | |], b as [|[]| | | | |]; cbn; auto.
  - rewrite !Z.leb_le. lia.
  - apply String.leb_total.
Qed.

Lemma value_leb_trans (a b c : value) :
  Provider.value_leb a b = true -> Provider.value_leb b c = true ->
  Provider.value_leb a c = true.
Proof.
  destruct a as [|[]| | | | |], b as [|[]| | | | |], c as [|[]| | | | |];
    cbn; try congruence.
  - rewrite !Z.leb_le. lia.
  - apply string_leb_trans.
Qed.

#[local] Instance row_before_total col desc : Total (Provider.row_before col desc).
Proof.
  intros r1 r2. unfold Provider.row_before.
  destruct desc;
    [destruct (value_leb_total (column col r2) (column col r1)) as [->| ->]
    |destruct (value_leb_total (column col r1) (column col r2)) as [->| ->]];
    cbn; auto.
Qed.

#[local] Instance row_before_trans col desc :
  Transitive (Provider.row_before col desc).
Proof.
  intros r1 r2 r3. unfold Provider.row_before.
  destruct desc; rewrite !Is_true_true; eauto using value_leb_trans.
Qed.




End Listing.


(** ** Uploading an image *)

Section Upload.

Lemma upload_to_ok (bucket ext token : string) (data : list Byte.byte)
    (fname : string) (u : auth_user) (w : World) :
  auth_users w !! token = Some u ->
  faults w OpGetUser = None -> faults w OpUpload = None ->
  faults w OpPublicUrl = None ->
  let path := upload_path w u fname ext in
  supabase_service.upload_to bucket ext token data fname w
  = (Return (VDict [("success", VBool true);
                    ("url", VStr (public_url_prefix w ++ bucket ++ "/" ++ path));
                    ("path", VStr path)]),
     uploaded bucket path token data w).
Proof.
  intros Hu Hf Hup Hurl path.
  unfold supabase_service.upload_to. munfold.
  rewrite get_user_spec, (resolve_known _ _ _ Hf Hu). mrun.
  unfold Provider.uuid4. mrun.
  unfold Provider.upload. munfold. rewrite provider_spec. wsimpl. rewrite Hup.
  mrun. unfold Provider.get_public_url. munfold. rewrite provider_spec.
  wsimpl. rewrite Hurl. mrun. reflexivity.
Qed.


End Upload.

(** ** A model that is not loaded *)

Section ModelNotReady.

Import main.

Lemma pneumonia_not_loaded (image : UploadFile) (h : string) (w : World) :
  missing_or_invalid (Some h) = false ->
  file image <> [] ->
  model_loaded (pneumonia_model_service w) = false ->
  serve (POST_pneumonia_analyze image (Some h)) w
  = ({| status_code := 503;
        content := VDict [("detail", VStr ("Pneumonia model not ready: "
                     ++ loading_status (pneumonia_model_service w) ++ " ("
                     ++ pretty (loading_progress (pneumonia_model_service w)) ++ "%)"))] |}, w).
Proof.
  intros Hh Hfile Hl. unfold serve. cbn [handler].
  unfold pneumonia.analyze_xray. munfold. rewrite (bearer_ok h w Hh).
  destruct (file image) as [|b bs] eqn:E; [congruence|]. cbn [length Nat.eqb].
  unfold pneumonia_model.get_loading_status. mrun.
  unfold loading_status_dict. rewrite Hl. mrun. reflexivity.
Qed.

Lemma vision_not_loaded (image : UploadFile) (h : string) (u : auth_user)
    (msg : string) (w : World) :
  missing_or_invalid (Some h) = false ->
  auth_users w !! bearer_token h = Some u ->
  faults w OpGetUser = None -> faults w OpUpload = None ->
  faults w OpPublicUrl = None ->
  model_loaded (vision_model_service w) = false ->
  pipeline_load w "image-to-text" vision_model.model_name = Some msg ->
  (serve (POST_vision_analyze image (Some h)) w).1
  = {| status_code := 500;
       content := VDict [("detail", VStr "Failed to analyze image: 503: Vision model not available. Please try again later.")] |}.
Proof.
  intros Hh Hu Hf Hup Hurl Hl Hload. unfold serve. cbn [handler].
  unfold vision.analyze_image. munfold. rewrite (bearer_ok h w Hh).
  unfold supabase_service.upload_image.
  rewrite (upload_to_ok _ _ _ _ _ u w Hu Hf Hup Hurl). mrun.
  unfold uploaded. wsimpl. rewrite Hl. cbn [negb].
  unfold vision_model.load_model. mrun. wsimpl. rewrite Hl. mrun. wsimpl.
  rewrite Hload. mrun. reflexivity.
Qed.

(** C5.  While the pneumonia pipeline is not loaded, POST
    /api/pneumonia/analyze answers 503 and touches nothing.  While the vision
    pipeline is not loaded and cannot be loaded, POST /api/vision/analyze
    raises the 503 too, but inside its own [try] block, whose
    [except Exception] clause turns it into a 500. *)
Theorem model_not_ready_responses (image : UploadFile) (h : string)
    (u : auth_user) (msg : string) (w : World) :
  missing_or_invalid (Some h) = false ->
  file image <> [] ->
  auth_users w !! bearer_token h = Some u ->
  faults w OpGetUser = None -> faults w OpUpload = None ->
  faults w OpPublicUrl = None ->
  (model_loaded (pneumonia_model_service w) = false ->
   status_code (serve (POST_pneumonia_analyze image (Some h)) w).1 = 503 /\
   (serve (POST_pneumonia_analyze image (Some h)) w).2 = w) /\
  (model_loaded (vision_model_service w) = false ->
   pipeline_load w "image-to-text" vision_model.model_name = Some msg ->
   (serve (POST_vision_analyze image (Some h)) w).1
   = {| status_code := 500;
        content := VDict [("detail", VStr "Failed to analyze image: 503: Vision model not available. Please try again later.")] |}).
Proof.
  intros Hh Hfile Hu Hf Hup Hurl. split.
  - intros Hl. rewrite (pneumonia_not_loaded image h w Hh Hfile Hl).
    split; reflexivity.
  - intros Hl Hload. exact (vision_not_loaded image h u msg w Hh Hu Hf Hup Hurl Hl Hload).
Qed.

Lemma model_not_ready_responses_witness :
  status_code
    (serve (POST_vision_analyze Demo.xray (Some "Bearer token-a"))
       (Demo.world Demo.no_faults Demo.not_started)).1 = 500.
Proof.
  rewrite (proj2 (model_not_ready_responses Demo.xray "Bearer token-a"
                    Demo.alice "out of memory"
                    (Demo.world Demo.no_faults Demo.not_started)
                    eq_refl ltac:(discriminate) eq_refl eq_refl eq_refl eq_refl)
             eq_refl eq_refl).
  reflexivity.
Defined.

End ModelNotReady.

(** ** Failures of the providers during POST /api/pneumonia/analyze *)

Section DependencyFailures.

Import main.








End DependencyFailures.

(** ** The shape of the responses *)

Section ResponseShape.

Import main.

Section Post.
Context {A B : Type} (E : exn -> Prop).

Lemma post_ret (a : A) (Q : A -> Prop) : Q a -> post E (ret a) Q.
Proof. intros H w. exact H. Qed.

Lemma post_raise (e : exn) (Q : A -> Prop) : E e -> post E (raise e) Q.
Proof. intros H w. exact H. Qed.

Lemma post_bind (m : M A) (k : A -> M B) (Q1 : A -> Prop) (Q : B -> Prop) :
  post E m Q1 -> (forall a, Q1 a -> post E (k a) Q) -> post E (bind m k) Q.
Proof.
  intros Hm Hk w. unfold bind. specialize (Hm w).
  destruct (m w) as [[a|e] w']; cbn in *; [apply Hk, Hm | exact Hm].
Qed.

Lemma post_try_except (E' : exn -> Prop) (m : M A) (h : exn -> M A) (Q : A -> Prop) :
  post E' m Q -> (forall e, E' e -> post E (h e) Q) -> post E (try_except m h) Q.
Proof.
  intros Hm Hh w. unfold try_except. specialize (Hm w).
  destruct (m w) as [[a|e] w']; cbn in *; [exact Hm | apply Hh, Hm].
Qed.


End Post.

Lemma post_get_world E (Q : World -> Prop) : (forall w, Q w) -> post E get_world Q.
Proof. intros H w. apply H. Qed.

Lemma post_modify E (f : World -> World) (Q : unit -> Prop) :
  Q tt -> post E (modify f) Q.
Proof. intros H w. exact H. Qed.

Lemma post_record_call E (c : call) (Q : unit -> Prop) : Q tt -> post E (record_call c) Q.
Proof. intros H w. exact H. Qed.

Lemma post_of_result {A} (r : result A) : post error_status (of_result r) (fun _ => True).
Proof. intros w. destruct r; exact I. Qed.

(** Walks through a computation whose exceptions need only have a status
    other than 200; intermediate values are not looked at. *)
Ltac post_go :=
  cbv zeta;
  lazymatch goal with
  | |- post _ (bind _ _) _ =>
      apply (post_bind _ _ _ (fun _ => True)); [post_go | intros ? _; post_go]
  | |- post _ (try_except _ _) _ =>
      apply (post_try_except _ error_status); [post_go | intros ? ?; post_go]
  | |- post _ (ret _) _ =>
      apply post_ret; first [exact I | eexists; reflexivity | reflexivity]
  | |- post _ (raise _) _ =>
      apply post_raise; first [assumption | exact I | cbn; discriminate]
  | |- post _ get_world _ => apply post_get_world; intros ?; exact I
  | |- post _ (modify _) _ => apply post_modify; exact I
  | |- post _ (record_call _) _ => apply post_record_call; exact I
  | |- post _ (of_result _) _ => apply post_of_result
  | |- post _ (if ?b then _ else _) _ => destruct b; post_go
  | |- post _ (match ?x with _ => _ end) _ => destruct x; post_go
  | |- post _ ?m _ => let h := head m in unfold h; post_go
  end.

Lemma bearer_post (a : option string) :
  post http_error (bearer a) (fun _ => True).
Proof.
  intros w. unfold bearer. destruct a as [h|]; cbn [missing_or_invalid].
  - destruct (_ || _); cbn; [discriminate | exact I].
  - cbn. discriminate.
Qed.

(** An adapter method never raises, whatever its body does. *)
Lemma adapter_post (keys : list string) (body : M value) :
  post error_status body (fun v => adapter_result keys v = true) ->
  post http_error (try_except body supabase_service.failure)
    (fun v => adapter_result keys v = true).
Proof.
  intros H. apply (post_try_except _ error_status); [exact H|].
  intros e _ w. reflexivity.
Qed.

Lemma list_rows_post t col token :
  post http_error (supabase_service.list_rows t col token)
    (fun v => adapter_result ["data"; "count"] v = true).
Proof. apply adapter_post. post_go. Qed.

Lemma get_row_post t token id :
  post http_error (supabase_service.get_row t token id)
    (fun v => adapter_result ["data"] v = true).
Proof. apply adapter_post. post_go. Qed.

Lemma delete_row_post t msg token id :
  post http_error (supabase_service.delete_row t msg token id)
    (fun v => adapter_result ["message"] v = true).
Proof. apply adapter_post. post_go. Qed.

Lemma sign_up_post e p n :
  post http_error (supabase_service.sign_up e p n)
    (fun v => adapter_result [] v = true).
Proof. apply adapter_post. post_go. Qed.

Lemma sign_in_post e p :
  post http_error (supabase_service.sign_in e p)
    (fun v => adapter_result [] v = true).
Proof. apply adapter_post. post_go. Qed.

Lemma sign_out_post t :
  post http_error (supabase_service.sign_out t)
    (fun v => adapter_result [] v = true).
Proof. apply adapter_post. post_go. Qed.

Lemma get_user_post t :
  post http_error (supabase_service.get_user t) (fun _ => True).
Proof.
  unfold supabase_service.get_user.
  apply (post_try_except _ error_status); [post_go|].
  intros e _ w. exact I.
Qed.

(** The tail of a handler that reads [success], then either the [keys] or
    the [error] of the adapter's answer. *)
Ltac tail_go :=
  let w := fresh "w" in
  intros w; cbv beta in *;
  match goal with
  | H : adapter_result _ ?v = true |- _ =>
      unfold adapter_result in H;
      destruct v as [| | | | | |d]; try discriminate H;
      destruct (assoc "success" d) as [[|[]| | | | |]|] eqn:Hs; try discriminate H;
      cbn [forallb] in H
  end;
  repeat match goal with
  | H : context [match assoc ?k ?d with _ => _ end] |- _ =>
      destruct (assoc k d) eqn:?; try discriminate H; cbn [andb] in H
  end;
  munfold; cbn [getitem get truthy];
  repeat match goal with
  | H : assoc ?k ?d = _ |- context [assoc ?k ?d] => rewrite H
  end;
  cbn; first [eexists; reflexivity | discriminate | idtac].

Lemma history_response_post result fb :
  adapter_result ["data"; "count"] result = true ->
  post http_error (history_response result fb) has_success.
Proof. intros H. unfold history_response. tail_go. Qed.

Lemma get_response_post result fb :
  adapter_result ["data"] result = true ->
  post http_error (get_response result fb) has_success.
Proof. intros H. unfold get_response. tail_go. Qed.

Lemma delete_response_post result fb :
  adapter_result ["message"] result = true ->
  post http_error (delete_response result fb) has_success.
Proof. intros H. unfold delete_response. tail_go. Qed.

(** After the guard a handler is one [try] block, or one adapter call
    followed by a shared tail. *)
Ltac guarded :=
  apply (post_bind _ _ _ (fun _ => True)); [apply bearer_post | intros ? _];
  unfold try_except_reraise_http,
    supabase_service.get_health_records, supabase_service.get_vision_analyses,
    supabase_service.get_pneumonia_analyses, supabase_service.get_health_record,
    supabase_service.get_vision_analysis, supabase_service.get_pneumonia_analysis,
    supabase_service.delete_health_record, supabase_service.delete_vision_analysis,
    supabase_service.delete_pneumonia_analysis;
  lazymatch goal with
  | |- post _ (try_except _ _) _ =>
      apply (post_try_except _ error_status); [post_go | intros ? ?; post_go]
  | |- post _ (bind (supabase_service.list_rows _ _ _) _) _ =>
      eapply post_bind;
      [apply list_rows_post | intros ? ?; apply history_response_post; assumption]
  | |- post _ (bind (supabase_service.get_row _ _ _) _) _ =>
      eapply post_bind;
      [apply get_row_post | intros ? ?; apply get_response_post; assumption]
  | |- post _ (bind (supabase_service.delete_row _ _ _ _) _) _ =>
      eapply post_bind;
      [apply delete_row_post | intros ? ?; apply delete_response_post; assumption]
  | |- post _ (bind (supabase_service.sign_out _) _) _ =>
      eapply post_bind; [apply sign_out_post | intros ? ?; tail_go]
  | |- post _ (bind (supabase_service.get_user _) _) _ =>
      apply (post_bind _ _ _ (fun _ => True));
      [apply get_user_post | intros ? _; post_go]
  end.

Lemma handler_post (req : request) :
  reports_success req = true -> post http_error (handler req) has_success.
Proof.
  destruct req; cbn [reports_success handler]; try discriminate; intros _.
  - unfold auth.signup; eapply post_bind; [apply sign_up_post | cbv beta; intros ? ?; tail_go].
  - unfold auth.login; eapply post_bind; [apply sign_in_post | cbv beta; intros ? ?; tail_go].
  - unfold auth.logout; guarded.
  - unfold auth.get_user; guarded.
  - unfold records.create_record; guarded.
  - unfold records.get_records; guarded.
  - unfold records.get_record; guarded.
  - unfold records.update_record; guarded.
  - unfold records.delete_record; guarded.
  - unfold vision.analyze_image; guarded.
  - unfold vision.get_analysis_history; guarded.
  - unfold vision.get_analysis; guarded.
  - unfold vision.delete_analysis; guarded.
  - intros w. cbv -[pretty]. eexists. reflexivity.
  - intros w. cbv -[pretty]. eexists. reflexivity.
  - unfold pneumonia.analyze_xray; guarded.
  - unfold pneumonia.get_pneumonia_history; guarded.
  - unfold pneumonia.get_pneumonia_analysis; guarded.
  - unfold pneumonia.delete_pneumonia_analysis; guarded.
  - unfold mnist_api.mnist_infer; guarded.
  - unfold clip_api.clip_similarity, try_except_reraise_http.
    apply (post_try_except _ error_status); [post_go | intros ? ?; post_go].
  - unfold autoglm_api.autoglm_infer; guarded.
Qed.




End ResponseShape.

(* ================================================================== *)
(** * Further properties *)
(* ================================================================== *)

(** ** Health records written and read back *)

Section Records.

Lemma create_health_record_ok (w : World) (token : string) (u : auth_user)
    (record : records.HealthRecordCreate) :
  auth_users w !! token = Some u ->
  faults w OpGetUser = None -> faults w OpInsert = None ->
  exists q,
  supabase_service.create_health_record token (records.title record)
    (records.description record) (records.category record) (records.date record) w
  = (Return (VDict [("success", VBool true); ("data", VDict (new_record w u record));
                    ("message", VStr "Health record created successfully")]),
     with_table "health_records" (rows_of "health_records" w ++ [new_record w u record])
       (next_id w + 1) (clock w + 1)
       (logged (CallExecute q) (logged (CallGetUser token) w))).
Proof.
  intros Hu Hf Hi. eexists.
  unfold supabase_service.create_health_record. munfold.
  rewrite get_user_spec, (resolve_known _ _ _ Hf Hu). mrun.
  rewrite execute_spec. mcbn. wsimpl. rewrite Hi.
  unfold Provider.run_query. mrun. wsimpl. 
  reflexivity.
Qed.

(** Filtering by id and owner, in terms of the two tests. *)
Lemma filter_id_owner (id : Z) (uid : string) (rows : list dict) :
  List.filter (Provider.matches [("id", VInt id); ("user_id", VStr uid)]) rows
  = List.filter (fun r => has_id id r && owned_by uid r) rows.
Proof. apply List.filter_ext. intros r. apply matches_id_owner. Qed.

Lemma fresh_no_hit (id : Z) (uid : string) (rows : list dict) :
  (forall r, In r rows -> has_id id r = false) ->
  List.filter (fun r => has_id id r && owned_by uid r) rows = [].
Proof.
  intros H. induction rows as [|r rows IH]; [reflexivity|].
  cbn [List.filter]. rewrite (H r) by (left; reflexivity). cbn [andb].
  apply IH. intros r' Hr'. apply H. right. exact Hr'.
Qed.

(** The answer of [get_row] when exactly one row has the id and the owner. *)
Lemma get_row_found (t : string) (w : World) (token : string) (u : auth_user)
    (id : Z) (r : dict) :
  auth_users w !! token = Some u ->
  faults w OpGetUser = None -> faults w OpSelect = None ->
  List.filter (fun r => has_id id r && owned_by (au_id u) r) (rows_of t w) = [r] ->
  exists q,
    supabase_service.get_row t token id w
    = (Return (VDict [("success", VBool true); ("data", VDict r)]),
       logged (CallExecute q) (logged (CallGetUser token) w)).
Proof.
  intros Hu Hf Hs Hrows. eexists.
  unfold supabase_service.get_row. munfold.
  rewrite get_user_spec, (resolve_known _ _ _ Hf Hu). mrun.
  rewrite execute_spec. mcbn. wsimpl. rewrite Hs.
  unfold Provider.run_query. mrun. wsimpl.
  fold (rows_of t w). rewrite filter_id_owner, Hrows. reflexivity.
Qed.

Lemma rows_of_logged (t : string) (c : call) (w : World) :
  rows_of t (logged c w) = rows_of t w.
Proof. reflexivity. Qed.

(** X1.  With a resolved token and no failing provider, POST /api/records stores
    the record under the id the data API assigns, owned by the caller, and
    GET /api/records/{id} with that id then returns the same row. *)
Theorem created_record_is_read_back (w : World) (h : string) (u : auth_user)
    (record : records.HealthRecordCreate) :
  missing_or_invalid (Some h) = false ->
  auth_users w !! bearer_token h = Some u ->
  faults w OpGetUser = None -> faults w OpInsert = None ->
  faults w OpSelect = None ->
  next_id_is_fresh "health_records" w ->
  let (created, w1) := serve (POST_records record (Some h)) w in
  created = {| status_code := 200;
               content := VDict [("success", VBool true);
                                 ("message", VStr "Health record created successfully");
                                 ("data", VDict (new_record w u record))] |}
  /\ (serve (GET_records_id (next_id w) (Some h)) w1).1
     = {| status_code := 200;
          content := VDict [("success", VBool true);
                            ("data", VDict (new_record w u record))] |}.
Proof.
  intros Hh Hu Hf Hi Hs Hfresh.
  destruct (create_health_record_ok w _ u record Hu Hf Hi) as (q & E).
  unfold serve at 1. cbn [handler]. unfold records.create_record. munfold.
  rewrite (bearer_ok h w Hh), E. mrun. split; [reflexivity|].
  match goal with |- context [serve _ ?W] => set (w1 := W) end.
  assert (List.filter (fun r => has_id (next_id w) r && owned_by (au_id u) r)
            (rows_of "health_records" w1) = [new_record w u record]) as Hrows.
  { unfold w1. rewrite rows_of_with_table, List.filter_app.
    rewrite (fresh_no_hit _ _ _ Hfresh). cbn [List.filter app].
    unfold has_id, owned_by, new_record. cbn [assoc String.eqb Ascii.eqb Bool.eqb].
    rewrite Z.eqb_refl, String.eqb_refl. reflexivity. }
  destruct (get_row_found "health_records" w1 _ u (next_id w) _ Hu Hf Hs Hrows)
    as (q' & E').
  unfold serve. cbn [handler].
  unfold records.get_record, supabase_service.get_health_record. munfold.
  rewrite (bearer_ok h w1 Hh), E'. unfold get_response. mrun. reflexivity.
Qed.

(** *** Updating and deleting a record of one's own *)

Lemma assoc_dict_set_ne (k k' : string) (v : value) (d : dict) :
  String.eqb k k' = false -> assoc k (dict_set k' v d) = assoc k d.
Proof.
  intros Hk. induction d as [|[k0 v0] d IH]; cbn [dict_set assoc].
  - rewrite Hk. reflexivity.
  - destruct (String.eqb_spec k' k0) as [->|Hne]; cbn [assoc].
    + rewrite Hk. reflexivity.
    + rewrite IH. reflexivity.
Qed.

Lemma assoc_dict_set_eq (k : string) (v : value) (d : dict) :
  assoc k (dict_set k v d) = Some v.
Proof.
  induction d as [|[k0 v0] d IH]; cbn [dict_set assoc].
  - rewrite String.eqb_refl. reflexivity.
  - destruct (String.eqb_spec k k0) as [->|Hne]; cbn [assoc].
    + rewrite String.eqb_refl. reflexivity.
    + apply String.eqb_neq in Hne. rewrite Hne. exact IH.
Qed.

Lemma assoc_update_data (k : string) (fields : records.HealthRecordUpdate) (r : dict) :
  String.eqb k "title" = false -> String.eqb k "description" = false ->
  String.eqb k "category" = false -> String.eqb k "date" = false ->
  assoc k (dict_update r (update_data fields)) = assoc k r.
Proof.
  intros H1 H2 H3 H4. unfold dict_update, update_data. cbn [fold_left fst snd].
  rewrite !assoc_dict_set_ne by assumption. reflexivity.
Qed.

Lemma hit_update_data (id : Z) (uid : string) (fields : records.HealthRecordUpdate)
    (r : dict) :
  has_id id (dict_update r (update_data fields)) = has_id id r
  /\ owned_by uid (dict_update r (update_data fields)) = owned_by uid r.
Proof.
  unfold has_id, owned_by. rewrite !assoc_update_data by reflexivity. auto.
Qed.

(** The table after an update of the rows that pass [hit]. *)
Lemma filter_updated (hit : dict -> bool) (f : dict -> dict) (rows : list dict) :
  (forall r, hit (f r) = hit r) ->
  List.filter hit ((fun r => if hit r then f r else r) <$> rows)
  = f <$> List.filter hit rows.
Proof.
  intros Hf. induction rows as [|r rows IH]; [reflexivity|].
  rewrite fmap_cons. cbn [List.filter].
  destruct (hit r) eqn:Hr.
  - rewrite Hf, Hr, fmap_cons. f_equal. exact IH.
  - rewrite Hr. exact IH.
Qed.

Lemma update_health_record_ok (w : World) (token : string) (u : auth_user)
    (id : Z) (fields : records.HealthRecordUpdate) (r : dict) :
  auth_users w !! token = Some u ->
  faults w OpGetUser = None -> faults w OpUpdate = None ->
  own_record id u r w ->
  exists q,
    supabase_service.update_health_record token id (records.title fields)
      (records.description fields) (records.category fields) (records.date fields) w
    = (Return (VDict [("success", VBool true);
                      ("data", VDict (dict_update r (update_data fields)));
                      ("message", VStr "Health record updated successfully")]),
       with_table "health_records"
         ((fun r => if has_id id r && owned_by (au_id u) r
                    then dict_update r (update_data fields) else r)
            <$> rows_of "health_records" w)
         (next_id w) (clock w)
         (logged (CallExecute q) (logged (CallGetUser token) w))).
Proof.
  intros Hu Hf Hs Hrows. eexists.
  unfold supabase_service.update_health_record. munfold.
  rewrite get_user_spec, (resolve_known _ _ _ Hf Hu). mrun.
  rewrite execute_spec. mcbn. wsimpl. rewrite Hs.
  unfold Provider.run_query. mrun. wsimpl.
  fold (rows_of "health_records" w). fold (update_data fields).
  rewrite filter_id_owner, Hrows. cbn [fmap list_fmap]. mrun.
  match goal with
  | |- context [?f <$> rows_of "health_records" w] =>
      assert (f <$> rows_of "health_records" w
              = (fun r => if has_id id r && owned_by (au_id u) r
                          then dict_update r (update_data fields) else r)
                  <$> rows_of "health_records" w) as ->
        by (apply list_fmap_ext; intros _ r' _; rewrite matches_id_owner;
            reflexivity)
  end.
  reflexivity.
Qed.

(** X2.  With a resolved token and no failing provider, PUT /api/records/{id} on
    the caller's own record answers the updated row, GET /api/records/{id}
    then returns that row, and the update changes neither the id nor the
    owner while the title and the date are the new ones. *)
Theorem updated_record_is_read_back (w : World) (h : string) (u : auth_user)
    (id : Z) (fields : records.HealthRecordUpdate) (r : dict) :
  missing_or_invalid (Some h) = false ->
  auth_users w !! bearer_token h = Some u ->
  faults w OpGetUser = None -> faults w OpUpdate = None ->
  faults w OpSelect = None ->
  own_record id u r w ->
  let (updated, w1) := serve (PUT_records_id id fields (Some h)) w in
  let r' := dict_update r (update_data fields) in
  updated = {| status_code := 200;
               content := VDict [("success", VBool true);
                                 ("message", VStr "Health record updated successfully");
                                 ("data", VDict r')] |}
  /\ (serve (GET_records_id id (Some h)) w1).1
     = {| status_code := 200;
          content := VDict [("success", VBool true); ("data", VDict r')] |}
  /\ assoc "id" r' = assoc "id" r /\ assoc "user_id" r' = assoc "user_id" r
  /\ assoc "title" r' = Some (VStr (records.title fields))
  /\ assoc "date" r' = Some (VStr (records.date fields)).
Proof.
  intros Hh Hu Hf Hup Hs Hown.
  destruct (update_health_record_ok w _ u id fields r Hu Hf Hup Hown) as (q & E).
  unfold serve at 1. cbn [handler]. unfold records.update_record. munfold.
  rewrite (bearer_ok h w Hh), E. mrun. split; [reflexivity|].
  match goal with |- context [serve _ ?W] => set (w1 := W) end.
  assert (own_record id u (dict_update r (update_data fields)) w1) as Hown1.
  { unfold own_record, w1. rewrite rows_of_with_table.
    rewrite (filter_updated (fun r => has_id id r && owned_by (au_id u) r)).
    - unfold own_record in Hown. rewrite Hown. reflexivity.
    - intros r0. destruct (hit_update_data id (au_id u) fields r0) as [-> ->].
      reflexivity. }
  destruct (get_row_found "health_records" w1 _ u id _ Hu Hf Hs Hown1) as (q' & E').
  split.
  - unfold serve. cbn [handler].
    unfold records.get_record, supabase_service.get_health_record. munfold.
    rewrite (bearer_ok h w1 Hh), E'. unfold get_response. mrun. reflexivity.
  - rewrite !assoc_update_data by reflexivity.
    unfold dict_update, update_data. cbn [fold_left fst snd].
    rewrite !(assoc_dict_set_ne "title") by reflexivity.
    rewrite !assoc_dict_set_eq. repeat split.
Qed.

(** *** Deleting a record of one's own *)

Lemma delete_row_ok (t message : string) (w : World) (token : string)
    (u : auth_user) (id : Z) :
  auth_users w !! token = Some u ->
  faults w OpGetUser = None -> faults w OpDelete = None ->
  exists q,
    supabase_service.delete_row t message token id w
    = (Return (VDict [("success", VBool true); ("message", VStr message)]),
       with_table t
         (List.filter (fun r => negb (has_id id r && owned_by (au_id u) r))
            (rows_of t w))
         (next_id w) (clock w)
         (logged (CallExecute q) (logged (CallGetUser token) w))).
Proof.
  intros Hu Hf Hs. eexists.
  unfold supabase_service.delete_row. munfold.
  rewrite get_user_spec, (resolve_known _ _ _ Hf Hu). mrun.
  rewrite execute_spec. mcbn. wsimpl. rewrite Hs.
  unfold Provider.run_query. mrun. wsimpl. fold (rows_of t w).
  match goal with
  | |- context [List.filter ?f (rows_of t w)] =>
      rewrite (List.filter_ext f
                 (fun r => negb (has_id id r && owned_by (au_id u) r)))
        by (intros r; rewrite matches_id_owner; reflexivity)
  end.
  reflexivity.
Qed.

Lemma filter_filter_negb (hit : dict -> bool) (rows : list dict) :
  List.filter hit (List.filter (fun r => negb (hit r)) rows) = [].
Proof.
  induction rows as [|r rows IH]; [reflexivity|]. cbn [List.filter].
  destruct (hit r) eqn:Hr; cbn [negb List.filter]; [exact IH|].
  rewrite Hr. exact IH.
Qed.

(** X3.  With a resolved token and no failing provider, DELETE
    /api/records/{id} answers 200, GET /api/records/{id} then answers 404,
    and the table keeps exactly the rows that do not have the id or are not
    the caller's. *)
Theorem deleted_record_is_gone (w : World) (h : string) (u : auth_user) (id : Z) :
  missing_or_invalid (Some h) = false ->
  auth_users w !! bearer_token h = Some u ->
  faults w OpGetUser = None -> faults w OpDelete = None ->
  faults w OpSelect = None ->
  let (deleted, w1) := serve (DELETE_records_id id (Some h)) w in
  deleted = {| status_code := 200;
               content := VDict [("success", VBool true);
                                 ("message", VStr "Health record deleted successfully")] |}
  /\ (serve (GET_records_id id (Some h)) w1).1
     = {| status_code := 404;
          content := VDict [("detail", VStr Provider.single_row_error)] |}
  /\ (forall r, In r (rows_of "health_records" w1) <->
                In r (rows_of "health_records" w)
                /\ (has_id id r = false \/ owned_by (au_id u) r = false)).
Proof.
  intros Hh Hu Hf Hd Hs.
  destruct (delete_row_ok "health_records" "Health record deleted successfully"
              w _ u id Hu Hf Hd) as (q & E).
  unfold serve at 1. cbn [handler].
  unfold records.delete_record, supabase_service.delete_health_record. munfold.
  rewrite (bearer_ok h w Hh), E. unfold delete_response. mrun.
  split; [reflexivity|].
  match goal with |- context [serve _ ?W] => set (w1 := W) end.
  assert (rows_of "health_records" w1
          = List.filter (fun r => negb (has_id id r && owned_by (au_id u) r))
              (rows_of "health_records" w)) as Hrows
    by (unfold w1; apply rows_of_with_table).
  split.
  - assert (foreign id (au_id u) (rows_of "health_records" w1)) as Hforeign.
    { intros r Hr Hid. rewrite Hrows in Hr. apply List.filter_In in Hr as [_ Hr].
      rewrite Hid in Hr. cbn in Hr. destruct (owned_by _ r); [discriminate|reflexivity]. }
    destruct (get_row_absent "health_records" w1 _ u id Hu Hf Hs Hforeign)
      as (w2 & E' & _).
    unfold serve. cbn [handler].
    unfold records.get_record, supabase_service.get_health_record. munfold.
    rewrite (bearer_ok h w1 Hh), E'. unfold get_response. mrun. reflexivity.
  - intros r. rewrite Hrows, List.filter_In, negb_true_iff, andb_false_iff.
    reflexivity.
Qed.
End Records.

Lemma serve_world (req : request) (w : World) : (serve req w).2 = (handler req w).2.
Proof. unfold serve. destruct (handler req w). reflexivity. Qed.

Section RecordsWitnesses.

Lemma created_record_is_read_back_witness :
  (serve (GET_records_id 2 (Some "Bearer token-a"))
     (serve (POST_records Demo.new_fields (Some "Bearer token-a")) Demo.w0).2).1
  = {| status_code := 200;
       content := VDict [("success", VBool true);
                         ("data", VDict (new_record Demo.w0 Demo.alice Demo.new_fields))] |}.
Proof.
  assert (next_id_is_fresh "health_records" Demo.w0) as Hfresh
    by (intros r [<-|[]]; reflexivity).
  pose proof (created_record_is_read_back Demo.w0 "Bearer token-a" Demo.alice
                Demo.new_fields eq_refl eq_refl eq_refl eq_refl eq_refl Hfresh) as H.
  destruct (serve (POST_records Demo.new_fields (Some "Bearer token-a")) Demo.w0).
  exact (proj2 H).
Defined.

Lemma updated_record_is_read_back_witness :
  (serve (GET_records_id 1 (Some "Bearer token-b"))
     (serve (PUT_records_id 1 Demo.new_fields (Some "Bearer token-b")) Demo.w0).2).1
  = {| status_code := 200;
       content := VDict [("success", VBool true);
                         ("data", VDict (dict_update Demo.bobs_record
                                           (update_data Demo.new_fields)))] |}.
Proof.
  pose proof (updated_record_is_read_back Demo.w0 "Bearer token-b" Demo.bob 1
                Demo.new_fields Demo.bobs_record eq_refl eq_refl eq_refl eq_refl
                eq_refl eq_refl) as H.
  destruct (serve (PUT_records_id 1 Demo.new_fields (Some "Bearer token-b")) Demo.w0).
  exact (proj1 (proj2 H)).
Defined.

Lemma deleted_record_is_gone_witness :
  (serve (GET_records_id 1 (Some "Bearer token-b"))
     (serve (DELETE_records_id 1 (Some "Bearer token-b")) Demo.w0).2).1
  = {| status_code := 404;
       content := VDict [("detail", VStr Provider.single_row_error)] |}.
Proof.
  pose proof (deleted_record_is_gone Demo.w0 "Bearer token-b" Demo.bob 1
                eq_refl eq_refl eq_refl eq_refl eq_refl) as H.
  destruct (serve (DELETE_records_id 1 (Some "Bearer token-b")) Demo.w0).
  exact (proj1 (proj2 H)).
Defined.

End RecordsWitnesses.

(** ** The status codes of a route *)

Section StatusCodes.







End StatusCodes.

(** ** What a route writes *)

Section Frame.

Section Keeps.
Context (R : World -> World -> Prop) (R_refl : Reflexive R) (R_trans : Transitive R).

Lemma keeps_ret {A} (a : A) : keeps R (ret a).
Proof using R_refl. intros w. reflexivity. Qed.

Lemma keeps_raise {A} (e : exn) : keeps R (raise (A:=A) e).
Proof using R_refl. intros w. reflexivity. Qed.

Lemma keeps_get_world : keeps R get_world.
Proof using R_refl. intros w. reflexivity. Qed.

Lemma keeps_of_result {A} (r : result A) : keeps R (of_result r).
Proof using R_refl. intros w. reflexivity. Qed.

Lemma keeps_modify (f : World -> World) : (forall w, R w (f w)) -> keeps R (modify f).
Proof. intros H w. apply H. Qed.

Lemma keeps_bind {A B} (m : M A) (k : A -> M B) :
  keeps R m -> (forall a, keeps R (k a)) -> keeps R (bind m k).
Proof using R_trans.
  intros Hm Hk w. unfold bind. specialize (Hm w).
  destruct (m w) as [[a|e] w']; cbn [snd] in *; [|exact Hm].
  transitivity w'; [exact Hm | apply Hk].
Qed.

Lemma keeps_try_except {A} (m : M A) (h : exn -> M A) :
  keeps R m -> (forall e, keeps R (h e)) -> keeps R (try_except m h).
Proof using R_trans.
  intros Hm Hh w. unfold try_except. specialize (Hm w).
  destruct (m w) as [[a|e] w']; cbn [snd] in *; [exact Hm|].
  transitivity w'; [exact Hm | apply Hh].
Qed.

End Keeps.

#[local] Instance writes_within_refl t b : Reflexive (writes_within t b).
Proof.
  intros w. split; [reflexivity|]. exists []. rewrite app_nil_r. split; constructor.
Qed.

#[local] Instance writes_within_trans t b : Transitive (writes_within t b).
Proof.
  intros w1 w2 w3 [Ht1 (l1 & Hs1 & Hl1)] [Ht2 (l2 & Hs2 & Hl2)]. split.
  - intros t' Hne. rewrite Ht2, Ht1 by exact Hne. reflexivity.
  - exists (l1 ++ l2)%list. rewrite Hs2, Hs1, app_assoc. split; [reflexivity|].
    apply Forall_app. split; assumption.
Qed.

(** A change of the world that touches neither the tables nor the
    storage. *)
Lemma writes_within_same t b (w w' : World) :
  tables w' = tables w -> storage w' = storage w -> writes_within t b w w'.
Proof.
  intros Ht Hs. split; [intros; rewrite Ht; reflexivity|].
  exists []. rewrite app_nil_r. split; [exact Hs | constructor].
Qed.

Lemma keeps_record_call t b (c : call) : keeps (writes_within t b) (record_call c).
Proof. intros w. apply writes_within_same; reflexivity. Qed.

Lemma keeps_run_query t b (q : query) :
  q_verb q = Select \/ t = Some (q_table q) ->
  keeps (writes_within t b) (Provider.run_query q).
Proof.
  intros Hq w. unfold Provider.run_query. munfold.
  assert (forall rows i c, t = Some (q_table q) ->
            writes_within t b w (with_table (q_table q) rows i c w)) as Hw.
  { intros rows i c ->. split.
    - intros t' Hne. cbn [tables with_table]. apply lookup_insert_ne. congruence.
    - exists []. rewrite app_nil_r. split; [reflexivity | constructor]. }
  destruct (q_verb q) eqn:Hv.
  - destruct (q_order q) as [[col desc]|], (q_single q);
      repeat match goal with |- context [match ?l with _ => _ end] => destruct l end;
      reflexivity.
  - apply Hw. destruct Hq; congruence.
  - apply Hw. destruct Hq; congruence.
  - apply Hw. destruct Hq; congruence.
Qed.

Lemma keeps_upload t b (bucket path : string) (file : list Byte.byte) :
  b = Some bucket -> keeps (writes_within t b) (Provider.upload bucket path file).
Proof.
  intros -> w. unfold Provider.upload. munfold. rewrite provider_spec.
  destruct (faults w OpUpload); cbn [snd].
  - apply writes_within_same; reflexivity.
  - split; [reflexivity|]. eexists. split; [reflexivity|]. repeat constructor.
Qed.

Ltac keeps_go :=
  cbv zeta;
  lazymatch goal with
  | |- keeps _ (bind _ _) => apply keeps_bind; [apply _ | keeps_go | intros ?; keeps_go]
  | |- keeps _ (try_except _ _) =>
      apply keeps_try_except; [apply _ | keeps_go | intros ?; keeps_go]
  | |- keeps _ (ret _) => apply keeps_ret; apply _
  | |- keeps _ (raise _) => apply keeps_raise; apply _
  | |- keeps _ get_world => apply keeps_get_world; apply _
  | |- keeps _ (of_result _) => apply keeps_of_result; apply _
  | |- keeps _ (record_call _) => apply keeps_record_call
  | |- keeps _ (Provider.run_query _) =>
      apply keeps_run_query; first [left; reflexivity | right; reflexivity]
  | |- keeps _ (Provider.upload _ _ _) => apply keeps_upload; reflexivity
  | |- keeps _ (modify _) =>
      apply keeps_modify; intros ?; apply writes_within_same; reflexivity
  | |- keeps _ (if ?b then _ else _) => destruct b; keeps_go
  | |- keeps _ (match ?x with _ => _ end) => destruct x; keeps_go
  | |- keeps _ ?m => let h := head m in unfold h; keeps_go
  end.

Lemma handler_keeps (req : request) :
  keeps (writes_within (table_of req) (bucket_of req)) (handler req).
Proof. destruct req; cbn [handler table_of bucket_of]; keeps_go. Qed.

(** X5.  A route changes no table but its own and uploads to no bucket but its
    own.  A route with no table of its own (every GET route, and those of
    /api/auth) leaves all tables as they are, and a route with no bucket
    uploads nothing. *)
Theorem route_writes_its_table_and_bucket_only (req : request) (w : World) :
  let w' := (serve req w).2 in
  (forall t : string, table_of req <> Some t -> rows_of t w' = rows_of t w) /\
  (exists l, storage w' = (storage w ++ l)%list /\
             Forall (fun o => bucket_of req = Some o.1.1) l) /\
  (table_of req = None -> tables w' = tables w) /\
  (bucket_of req = None -> storage w' = storage w).
Proof.
  cbv zeta. rewrite serve_world.
  destruct (handler_keeps req w) as [Ht (l & Hs & Hl)].
  split; [|split; [|split]].
  - intros t Hne. unfold rows_of. rewrite (Ht t Hne). reflexivity.
  - exists l. split; assumption.
  - intros Hnone. apply map_eq. intros t. apply Ht. rewrite Hnone. discriminate.
  - intros Hnone. rewrite Hs. rewrite Hnone in Hl.
    destruct l as [|o l]; [apply app_nil_r|].
    apply Forall_cons in Hl as [Ho _]. discriminate Ho.
Qed.

End Frame.

(** ** A token that resolves to no user *)

Section UnresolvedToken.

Context (token : string).

Lemma untouched_refl (w : World) : untouched w w.
Proof. repeat split. Qed.

Lemma untouched_trans (w1 w2 w3 : World) :
  untouched w1 w2 -> untouched w2 w3 -> untouched w1 w3.
Proof.
  intros (H1 & H2 & H3 & H4) (H1' & H2' & H3' & H4').
  repeat split; congruence.
Qed.

Lemma untouched_resolve (w w' : World) :
  untouched w w' -> resolve w' token = resolve w token.
Proof. intros (_ & _ & Hu & Hf). unfold resolve. rewrite Hu, Hf. reflexivity. Qed.

Lemma denied_ret {A} (a : A) (Q : A -> Prop) : Q a -> denied token (ret a) Q.
Proof. intros H w _. split; [apply untouched_refl | exact H]. Qed.

Lemma denied_raise {A} (e : exn) (Q : A -> Prop) : denied token (raise e) Q.
Proof. intros w _. split; [apply untouched_refl | exact I]. Qed.

Lemma denied_get_world : denied token get_world (fun _ => True).
Proof. intros w _. split; [apply untouched_refl | exact I]. Qed.

Lemma denied_of_result {A} (r : result A) : denied token (of_result r) (fun _ => True).
Proof. intros w _. split; [apply untouched_refl | destruct r; exact I]. Qed.

Lemma denied_modify (f : World -> World) :
  (forall w, untouched w (f w)) -> denied token (modify f) (fun _ => True).
Proof. intros H w _. split; [apply H | exact I]. Qed.

Lemma denied_record_call (c : call) : denied token (record_call c) (fun _ => True).
Proof. intros w _. split; [repeat split | exact I]. Qed.

Lemma denied_bind {A B} (m : M A) (k : A -> M B) (Q1 : A -> Prop) (Q : B -> Prop) :
  denied token m Q1 -> (forall a, Q1 a -> denied token (k a) Q) ->
  denied token (bind m k) Q.
Proof.
  intros Hm Hk w Hw. unfold bind. destruct (Hm w Hw) as [Hu Hq].
  destruct (m w) as [[a|e] w']; cbn [fst snd] in *.
  - assert (resolve w' token = VNone) as Hw'
      by (rewrite (untouched_resolve _ _ Hu); exact Hw).
    destruct (Hk a Hq w' Hw') as [Hu' Hq']. split; [|exact Hq'].
    eapply untouched_trans; eassumption.
  - split; [exact Hu | exact I].
Qed.

Lemma denied_bind_ret {A B} (a : A) (k : A -> M B) (Q : B -> Prop) :
  denied token (k a) Q -> denied token (bind (ret a) k) Q.
Proof. intros H. exact H. Qed.

Lemma denied_bind_raise {A B} (e : exn) (k : A -> M B) (Q : B -> Prop) :
  denied token (bind (raise e) k) Q.
Proof. intros w _. split; [apply untouched_refl | exact I]. Qed.

Lemma denied_try_except {A} (m : M A) (h : exn -> M A) (Q : A -> Prop) :
  denied token m Q -> (forall e, denied token (h e) Q) ->
  denied token (try_except m h) Q.
Proof.
  intros Hm Hh w Hw. unfold try_except. destruct (Hm w Hw) as [Hu Hq].
  destruct (m w) as [[a|e] w']; cbn [fst snd] in *.
  - split; assumption.
  - assert (resolve w' token = VNone) as Hw'
      by (rewrite (untouched_resolve _ _ Hu); exact Hw).
    destruct (Hh e w' Hw') as [Hu' Hq']. split; [|exact Hq'].
    eapply untouched_trans; eassumption.
Qed.

Lemma denied_get_user : denied token (supabase_service.get_user token) (fun v => v = VNone).
Proof.
  intros w Hw. rewrite get_user_spec. split; [repeat split | exact Hw].
Qed.

End UnresolvedToken.

Lemma denied_bearer (h : string) :
  denied (bearer_token h) (bearer (Some h)) (fun t => t = bearer_token h).
Proof.
  intros w _. unfold bearer. destruct (missing_or_invalid (Some h)); cbn.
  - split; [apply untouched_refl | exact I].
  - split; [apply untouched_refl | reflexivity].
Qed.

(** The adapter methods that resolve the token before anything else. *)
Ltac resolves_token_first m :=
  let hd := head m in
  lazymatch hd with
  | supabase_service.upload_image => idtac
  | supabase_service.upload_mnist_image => idtac
  | supabase_service.upload_pneumonia_image => idtac
  | supabase_service.create_health_record => idtac
  | supabase_service.create_autoglm_analysis => idtac
  | supabase_service.create_mnist_analysis => idtac
  | supabase_service.get_health_records => idtac
  | supabase_service.get_health_record => idtac
  | supabase_service.update_health_record => idtac
  | supabase_service.delete_health_record => idtac
  | supabase_service.create_vision_analysis => idtac
  | supabase_service.get_vision_analyses => idtac
  | supabase_service.get_vision_analysis => idtac
  | supabase_service.delete_vision_analysis => idtac
  | supabase_service.create_pneumonia_analysis => idtac
  | supabase_service.get_pneumonia_analyses => idtac
  | supabase_service.get_pneumonia_analysis => idtac
  | supabase_service.delete_pneumonia_analysis => idtac
  | supabase_service.create_clip_analysis => idtac
  end.

Ltac denied_go :=
  cbv zeta;
  lazymatch goal with
  | |- denied _ (bind (bearer (Some ?h)) _) _ =>
      apply (denied_bind _ _ _ (fun t => t = bearer_token h));
      [apply denied_bearer | intros ? ->; denied_go]
  | |- denied _ (bind (supabase_service.get_user _) _) _ =>
      apply (denied_bind _ _ _ (fun v => v = VNone));
      [apply denied_get_user | intros ? ->; cbv beta; cbn [truthy negb]; denied_go]
  | |- denied _ (bind (ret _) _) _ => apply denied_bind_ret; cbv beta; denied_go
  | |- denied _ (bind (raise _) _) _ => apply denied_bind_raise
  | |- denied _ (bind (getitem (VDict (_ :: _)) _) _) _ => mcbn; denied_go
  | |- denied _ (bind (get (VDict (_ :: _)) _ _) _) _ => mcbn; denied_go
  | |- denied _ (bind ?m _) _ =>
      tryif resolves_token_first m
      then (apply (denied_bind _ _ _ not_success);
            [denied_go | intros ? [? ->]; cbv beta; denied_go])
      else (apply (denied_bind _ _ _ (fun _ => True));
            [denied_go | intros ? _; denied_go])
  | |- denied _ (try_except _ _) _ =>
      apply denied_try_except; [denied_go | intros ?; denied_go]
  | |- denied _ (ret _) _ =>
      apply denied_ret; first [exact I | reflexivity | eexists; reflexivity]
  | |- denied _ (raise _) _ => apply denied_raise
  | |- denied _ get_world _ => apply denied_get_world
  | |- denied _ (modify _) _ =>
      apply denied_modify; intros ?; repeat split
  | |- denied _ (record_call _) _ => apply denied_record_call
  | |- denied _ (of_result _) _ => apply denied_of_result
  | |- denied _ (if ?b then _ else _) _ => destruct b; denied_go
  | |- denied _ (match ?x with _ => _ end) _ => destruct x; denied_go
  | |- denied _ ?m _ => let h := head m in unfold h; denied_go
  end.

Lemma handler_denied (req : request) (h : string) :
  authorization_of req = Some (Some h) ->
  denied (bearer_token h) (handler req) (fun _ => answers_without_user req = true).
Proof.
  destruct req; cbn [authorization_of handler answers_without_user]; try discriminate;
    intros [= ->].
  all: denied_go.
Qed.

(** X6.  A request whose token the identity provider resolves to no user (an
    unknown token, or a provider that fails) changes no table and no object,
    and it is answered with a status other than 200 on every route but the
    logout and the captioning route. *)
Theorem unresolved_token_is_refused (req : request) (h : string) (w : World) :
  authorization_of req = Some (Some h) ->
  resolve w (bearer_token h) = VNone ->
  tables (serve req w).2 = tables w /\
  storage (serve req w).2 = storage w /\
  (answers_without_user req = false -> status_code (serve req w).1 <> 200).
Proof.
  intros Hreq Hw.
  destruct (handler_denied req h Hreq w Hw) as [(Ht & Hs & _) Hq].
  assert (reports_success req = true) as Hrs
    by (destruct req; try discriminate Hreq; reflexivity).
  pose proof (handler_post req Hrs w) as Hp.
  unfold serve. destruct (handler req w) as [[v|[c d|msg]] w'];
    cbn [fst snd respond status_code] in *.
  - repeat split; try assumption. intros Hn. congruence.
  - repeat split; try assumption. intros _. exact Hp.
  - contradiction.
Qed.

Lemma unresolved_token_is_refused_witness :
  tables (serve (DELETE_records_id 1 (Some "Bearer nobody")) Demo.w0).2 = tables Demo.w0 /\
  storage (serve (DELETE_records_id 1 (Some "Bearer nobody")) Demo.w0).2 = storage Demo.w0 /\
  (answers_without_user (DELETE_records_id 1 (Some "Bearer nobody")) = false ->
   status_code (serve (DELETE_records_id 1 (Some "Bearer nobody")) Demo.w0).1 <> 200).
Proof.
  apply (unresolved_token_is_refused (DELETE_records_id 1 (Some "Bearer nobody"))
           "Bearer nobody" Demo.w0); reflexivity.
Defined.

(** ** The routes that answer without a user *)

Section WithoutUser.

(** X7.  The logout never sends the token anywhere: with any header that
    passes the guard it makes the one call [sign_out()] and answers 200, or
    400 with the message of the provider when that call fails. *)
Theorem logout_ignores_the_token (h : string) (w : World) :
  missing_or_invalid (Some h) = false ->
  serve (POST_auth_logout (Some h)) w
  = (match faults w OpSignOut with
     | None => {| status_code := 200;
                  content := VDict [("success", VBool true);
                                    ("message", VStr "Logged out successfully")] |}
     | Some msg => {| status_code := 400;
                      content := VDict [("detail", VStr msg)] |}
     end, logged CallSignOut w).
Proof.
  intros Hh. unfold serve. cbn [handler]. unfold auth.logout. munfold.
  rewrite (bearer_ok h w Hh). unfold supabase_service.sign_out. munfold.
  unfold Provider.auth_sign_out. rewrite provider_spec.
  destruct (faults w OpSignOut); mrun; reflexivity.
Qed.

Lemma logout_ignores_the_token_witness :
  serve (POST_auth_logout (Some "Bearer nobody")) Demo.w0
  = ({| status_code := 200;
        content := VDict [("success", VBool true);
                          ("message", VStr "Logged out successfully")] |},
     logged CallSignOut Demo.w0).
Proof. apply (logout_ignores_the_token "Bearer nobody" Demo.w0). reflexivity. Defined.




Lemma upload_to_unresolved (bucket ext token : string) (data : list Byte.byte)
    (fname : string) (w : World) :
  resolve w token = VNone ->
  supabase_service.upload_to bucket ext token data fname w
  = (Return supabase_service.invalid_token, logged (CallGetUser token) w).
Proof.
  intros Hw. unfold supabase_service.upload_to. munfold.
  rewrite get_user_spec, Hw. mrun. reflexivity.
Qed.

(** X9.  With a token that resolves to no user, the digit and the CLIP routes
    run their model first and are refused only by the upload that follows
    (400); the X-ray and the captioning-by-upload routes are refused by the
    upload before any model runs, the latter answering 500 because its own
    [except Exception] clause catches the 400. *)
Theorem unresolved_token_on_the_inference_routes (image : UploadFile)
    (text h mode : string) (probs : list float) (score : float) (w : World) :
  missing_or_invalid (Some h) = false ->
  resolve w (bearer_token h) = VNone ->
  file image <> [] ->
  image_open w (file image) = Ok mode ->
  mnist_probs w (file image) = Ok probs -> probs <> [] ->
  clip_similarity_score w (file image) text = Ok score ->
  model_loaded (pneumonia_model_service w) = true ->
  let token := bearer_token h in
  let refused detail := {| status_code := 400; content := VDict [("detail", VStr detail)] |} in
  serve (POST_mnist_infer image (Some h)) w
  = (refused "Image upload failed: Invalid token",
     logged (CallGetUser token) (logged (CallInference mnist_api.model_name) w)) /\
  serve (POST_clip_similarity image text (Some h)) w
  = (refused "Image upload failed: Invalid token",
     logged (CallGetUser token) (logged (CallInference clip_model.model_name) w)) /\
  serve (POST_pneumonia_analyze image (Some h)) w
  = (refused "Failed to upload image: Invalid token", logged (CallGetUser token) w) /\
  serve (POST_vision_analyze image (Some h)) w
  = ({| status_code := 500;
        content := VDict [("detail", VStr "Failed to analyze image: 400: Failed to upload image: Invalid token")] |},
     logged (CallGetUser token) w).
Proof.
  intros Hh Hw Hfile Himg Hprobs Hne Hscore Hl. cbv zeta.
  split; [|split; [|split]]; unfold serve; cbn [handler].
  - unfold mnist_api.mnist_infer. munfold. rewrite (bearer_ok h w Hh).
    unfold Image_open. mrun. rewrite Himg. mrun. wsimpl. cbn [convert img_bytes].
    rewrite Hprobs. mrun.
    destruct probs as [|p ps]; [congruence|]. unfold mnist_api.argmax. mrun.
    unfold supabase_service.upload_mnist_image.
    rewrite upload_to_unresolved by exact Hw. mrun. reflexivity.
  - unfold clip_api.clip_similarity. munfold. rewrite (bearer_ok h w Hh).
    unfold Image_open. mrun. rewrite Himg. mrun.
    unfold clip_model.image_text_similarity. mrun. wsimpl. cbn [convert img_bytes].
    rewrite Hscore. mrun.
    unfold supabase_service.upload_image.
    rewrite upload_to_unresolved by exact Hw. mrun. reflexivity.
  - unfold pneumonia.analyze_xray. munfold. rewrite (bearer_ok h w Hh).
    destruct (file image) as [|b0 bs] eqn:E; [congruence|]. cbn [length Nat.eqb].
    rewrite <- E in *.
    unfold pneumonia_model.get_loading_status. mrun.
    unfold loading_status_dict. rewrite Hl. mrun.
    unfold Image_open. mrun. rewrite Himg. mrun.
    unfold supabase_service.upload_pneumonia_image.
    rewrite upload_to_unresolved by exact Hw. mrun. reflexivity.
  - unfold vision.analyze_image. munfold. rewrite (bearer_ok h w Hh).
    unfold supabase_service.upload_image.
    rewrite upload_to_unresolved by exact Hw. mrun. reflexivity.
Qed.

Lemma unresolved_token_on_the_inference_routes_witness :
  serve (POST_mnist_infer Demo.xray (Some "Bearer nobody")) Demo.w0
  = ({| status_code := 400;
        content := VDict [("detail", VStr "Image upload failed: Invalid token")] |},
     logged (CallGetUser "nobody") (logged (CallInference mnist_api.model_name) Demo.w0)).
Proof.
  apply (unresolved_token_on_the_inference_routes Demo.xray "a chest" "Bearer nobody"
           "RGB" [0.5%float; 0.5%float] 0.25%float Demo.w0);
    first [reflexivity | discriminate].
Defined.

End WithoutUser.

(** ** The order of the predictions *)

Section FloatTotalOrder.

Ltac sf_cases :=
  repeat match goal with
  | s : bool |- _ => destruct s
  | |- context [Z.compare ?a ?b] => destruct (Z.compare_spec a b)
  | |- context [Pos.compare ?a ?b] => destruct (Pos.compare_spec a b)
  end; subst; cbn; try discriminate; try lia; try reflexivity; try congruence.

Lemma SFleb_trans (x y z : spec_float) :
  SFleb x y = true -> SFleb y z = true -> SFleb x z = true.
Proof.
  unfold SFleb, SFcompare.
  change (PosDef.Pos.compare_cont Eq) with Pos.compare.
  destruct x as [sx|sx| |sx mx ex], y as [sy|sy| |sy my ey], z as [sz|sz| |sz mz ez];
    cbn; try discriminate; try reflexivity; sf_cases.
Qed.

Lemma SFltb_leb (x y : spec_float) : SFltb x y = true -> SFleb x y = true.
Proof. unfold SFltb, SFleb. destruct (SFcompare x y) as [[]|]; congruence. Qed.

Lemma SFleb_not_ltb (x y : spec_float) : SFleb x y = true -> SFltb y x = false.
Proof.
  unfold SFleb, SFltb, SFcompare.
  change (PosDef.Pos.compare_cont Eq) with Pos.compare.
  destruct x as [sx|sx| |sx mx ex], y as [sy|sy| |sy my ey];
    cbn; try discriminate; try reflexivity; sf_cases.
Qed.

Lemma SFnot_ltb_leb (x y : spec_float) :
  SFeqb x x = true -> SFeqb y y = true -> SFltb y x = false -> SFleb x y = true.
Proof.
  unfold SFeqb, SFleb, SFltb, SFcompare.
  change (PosDef.Pos.compare_cont Eq) with Pos.compare.
  destruct x as [sx|sx| |sx mx ex], y as [sy|sy| |sy my ey];
    cbn; try discriminate; try reflexivity; sf_cases.
Qed.

Lemma float_leb_trans (x y z : float) :
  PrimFloat.leb x y = true -> PrimFloat.leb y z = true -> PrimFloat.leb x z = true.
Proof. rewrite !leb_spec. apply SFleb_trans. Qed.

Lemma float_ltb_leb (x y : float) :
  PrimFloat.ltb x y = true -> PrimFloat.leb x y = true.
Proof. rewrite ltb_spec, leb_spec. apply SFltb_leb. Qed.

Lemma float_leb_not_ltb (x y : float) :
  PrimFloat.leb x y = true -> PrimFloat.ltb y x = false.
Proof. rewrite ltb_spec, leb_spec. apply SFleb_not_ltb. Qed.

Lemma float_not_ltb_leb (x y : float) :
  is_number x -> is_number y ->
  PrimFloat.ltb y x = false -> PrimFloat.leb x y = true.
Proof.
  unfold is_number, PrimFloat.is_nan. rewrite ltb_spec, leb_spec, !FloatAxioms.eqb_spec.
  intros Hx Hy. apply SFnot_ltb_leb; [destruct (SFeqb _ _) | destruct (SFeqb (Prim2SF y) _)];
    first [reflexivity | discriminate].
Qed.

End FloatTotalOrder.

Section SortedByScore.

Import pneumonia_model.

Lemma insert_by_score_perm (x : string * float) (l : list (string * float)) :
  insert_by_score x l ≡ₚ x :: l.
Proof.
  induction l as [|y l IH]; [reflexivity|]. cbn [insert_by_score].
  destruct (PrimFloat.ltb y.2 x.2); [reflexivity|].
  rewrite IH. apply Permutation_swap.
Qed.

Lemma insert_by_score_sorted (x : string * float) (l : list (string * float)) :
  is_number x.2 -> Forall (fun y => is_number y.2) l ->
  StronglySorted score_ge l -> StronglySorted score_ge (insert_by_score x l).
Proof.
  intros Hx Hl Hs. induction Hs as [|y l Hs IH Hy]; cbn [insert_by_score].
  - repeat constructor.
  - apply Forall_cons in Hl as [Hny Hnl].
    destruct (PrimFloat.ltb y.2 x.2) eqn:Hlt.
    + constructor; [constructor; assumption|].
      apply float_ltb_leb in Hlt. constructor; [exact Hlt|].
      eapply Forall_impl; [exact Hy|]. intros z Hz. unfold score_ge in *.
      eapply float_leb_trans; eassumption.
    + constructor; [apply IH, Hnl|].
      rewrite insert_by_score_perm. constructor; [|exact Hy].
      apply float_not_ltb_leb; assumption.
Qed.

(** Inserting behind a list whose scores are all at least the new one. *)
Lemma insert_by_score_last (x : string * float) (l : list (string * float)) :
  Forall (fun y => score_ge y x) l -> insert_by_score x l = (l ++ [x])%list.
Proof.
  induction 1 as [|y l Hy _ IH]; [reflexivity|]. cbn [insert_by_score].
  rewrite (float_leb_not_ltb _ _ Hy), IH. reflexivity.
Qed.

Lemma fold_insert_perm (l acc : list (string * float)) :
  fold_left (fun acc x => insert_by_score x acc) l acc ≡ₚ (acc ++ l)%list.
Proof.
  revert acc. induction l as [|x l IH]; intros acc; cbn [fold_left].
  - rewrite app_nil_r. reflexivity.
  - rewrite IH, insert_by_score_perm. cbn [app]. apply Permutation_middle.
Qed.

Lemma fold_insert_sorted (l acc : list (string * float)) :
  Forall (fun y => is_number y.2) l -> Forall (fun y => is_number y.2) acc ->
  StronglySorted score_ge acc ->
  StronglySorted score_ge (fold_left (fun acc x => insert_by_score x acc) l acc).
Proof.
  revert acc. induction l as [|x l IH]; intros acc Hl Ha Hs; cbn [fold_left]; [exact Hs|].
  apply Forall_cons in Hl as [Hx Hl]. apply IH; [exact Hl | |].
  - rewrite insert_by_score_perm. constructor; assumption.
  - apply insert_by_score_sorted; assumption.
Qed.

Lemma fold_insert_already_sorted (l acc : list (string * float)) :
  StronglySorted score_ge (acc ++ l) ->
  fold_left (fun acc x => insert_by_score x acc) l acc = (acc ++ l)%list.
Proof.
  revert acc. induction l as [|x l IH]; intros acc Hs; cbn [fold_left].
  - rewrite app_nil_r. reflexivity.
  - rewrite insert_by_score_last.
    + rewrite IH; rewrite <- app_assoc; [reflexivity | exact Hs].
    + clear IH. induction acc as [|a acc IHa]; [constructor|].
      cbn in Hs. apply StronglySorted_inv in Hs as [Hs Ha].
      constructor; [|apply IHa, Hs].
      rewrite Forall_app in Ha. destruct Ha as [_ Ha].
      apply Forall_cons in Ha as [Ha _]. exact Ha.
Qed.

(** X10.  [all_predictions] holds the results of the pipeline, each once; when
    every score is a number they are in descending order of score; and
    results that come in descending order are kept as they are. *)
Theorem all_predictions_are_the_results_by_score (results : list (string * float)) :
  sorted_by_score results ≡ₚ results /\
  (Forall (fun r => is_number r.2) results ->
   StronglySorted score_ge (sorted_by_score results)) /\
  (StronglySorted score_ge results -> sorted_by_score results = results).
Proof.
  unfold sorted_by_score. split; [|split].
  - apply (fold_insert_perm results []).
  - intros H. apply fold_insert_sorted; [exact H | constructor | constructor].
  - intros H. apply (fold_insert_already_sorted results []). exact H.
Qed.

End SortedByScore.

(** ** A chest X-ray analyzed and read back *)

Section XrayStored.





End XrayStored.

(** ** POST /api/vision/analyze *)

Section VisionAnalyze.

Ltac wsimpl' :=
  cbn [faults auth_users tables next_id clock pneumonia_model_service
       vision_model_service pipeline_load image_open pneumonia_pipe vision_pipe round
       elapsed uuids public_url_prefix storage uuid_count log
       logged with_log with_storage with_uuid_count with_vision_model_service
       with_table uploaded].

Lemma load_model_spec (w : World) :
  vision_model.load_model w
  = if model_loaded (vision_model_service w) then (Return true, w)
    else match pipeline_load w "image-to-text" vision_model.model_name with
         | None => (Return true, vision_loaded_on_demand w)
         | Some msg =>
             (Return false,
              with_vision_model_service
                {| model_loaded := false; loading_status := "Error: " ++ msg;
                   loading_progress := 0 |}
                (logged (CallLoadPipeline "image-to-text" vision_model.model_name) w))
         end.
Proof.
  unfold vision_model.load_model, vision_loaded_on_demand. munfold.
  destruct (model_loaded (vision_model_service w)) eqn:Hl; [reflexivity|].
  wsimpl'. destruct (pipeline_load w _ _); reflexivity.
Qed.

Lemma generate_description_ok (image : Image) (w : World) (r : dict)
    (rest : list value) (text : string) :
  model_loaded (vision_model_service w) = true ->
  vision_pipe w (img_bytes image) None = Ok (VList (VDict r :: rest)) ->
  assoc "generated_text" r = Some (VStr text) ->
  vision_model.generate_description image None w
  = (Return (VDict [("generated_text", VStr text); ("prompt", VNone);
                    ("processing_time", VFloat (round w (elapsed w) 2));
                    ("model", VStr vision_model.model_name)]),
     logged (CallInference vision_model.model_name) w).
Proof.
  intros Hl Hp Ht. unfold vision_model.generate_description. munfold.
  rewrite Hl. cbn [negb].
  assert (img_bytes (if negb (String.eqb (img_mode image) "RGB")
                     then convert "RGB" image else image) = img_bytes image) as ->
    by (destruct (negb _); reflexivity).
  rewrite Hp. mrun. rewrite Ht. unfold vision_model.printable, py_round. mrun.
  wsimpl'. reflexivity.
Qed.

Lemma create_vision_analysis_spec (token : string) (u : auth_user) (w : World)
    (a b c d : value) :
  auth_users w !! token = Some u -> faults w OpGetUser = None ->
  let row := [("user_id", VStr (au_id u)); ("image_url", a); ("ai_description", b);
              ("processing_time", c); ("model_name", d);
              ("id", VInt (next_id w)); ("created_at", VInt (clock w))] in
  exists q,
    supabase_service.create_vision_analysis token a b c d w
    = match faults w OpInsert with
      | Some msg =>
          (Return (VDict [("success", VBool false); ("error", VStr msg)]),
           logged (CallExecute q) (logged (CallGetUser token) w))
      | None =>
          (Return (VDict [("success", VBool true); ("data", VDict row);
                          ("message", VStr "Vision analysis created successfully")]),
           with_table "vision_analysis" (rows_of "vision_analysis" w ++ [row])
             (next_id w + 1) (clock w + 1)
             (logged (CallExecute q) (logged (CallGetUser token) w)))
      end.
Proof.
  intros Hu Hf row. eexists.
  unfold supabase_service.create_vision_analysis. munfold.
  rewrite get_user_spec, (resolve_known _ _ _ Hf Hu). mrun.
  rewrite execute_spec. mcbn. wsimpl.
  destruct (faults w OpInsert); mrun; [reflexivity|].
  unfold Provider.run_query. mrun. wsimpl. reflexivity.
Qed.

Lemma loaded_on_demand_facts (w : World) :
  model_loaded (vision_model_service w) = true
  \/ pipeline_load w "image-to-text" vision_model.model_name = None ->
  model_loaded (vision_model_service (vision_loaded_on_demand w)) = true /\
  storage (vision_loaded_on_demand w) = storage w /\
  same_services w (vision_loaded_on_demand w).
Proof.
  intros Hload. unfold vision_loaded_on_demand.
  destruct (model_loaded (vision_model_service w)) eqn:Hl.
  - repeat split. exact Hl.
  - repeat split.
Qed.

(** The run of the handler up to the decoding of the image: the upload,
    then the model loaded on demand.  The world is then [w2], of which only
    the facts [Hsame], [Hst] and [Hl] are kept. *)
Ltac run_to_decoding h u w Hh Hu Hf Hup Hurl Hload :=
  unfold serve; cbn [handler];
  unfold vision.analyze_image; munfold; rewrite (bearer_ok h w Hh);
  unfold supabase_service.upload_image;
  rewrite (upload_to_ok _ _ _ _ _ u w Hu Hf Hup Hurl);
  match goal with
  | |- context [uploaded ?b ?p ?t ?d w] =>
      let w0 := fresh "w0" in
      set (w0 := uploaded b p t d w);
      destruct (loaded_on_demand_facts w0 Hload) as (Hl & Hst & Hsame);
      change (storage w0) with (storage w ++ [(b, p, d)])%list in Hst;
      assert (same_services w w0) as Hsame0 by (repeat split);
      assert (pipeline_load w0 = pipeline_load w) as Hpl by reflexivity;
      assert (model_loaded (vision_model_service w0)
              = model_loaded (vision_model_service w)) as Hl0 by reflexivity;
      unfold vision_loaded_on_demand in Hl, Hst, Hsame;
      clearbody w0; mrun;
      destruct (model_loaded (vision_model_service w0)) eqn:Hl0';
      [ cbn [negb]
      | cbn [negb]; rewrite load_model_spec, Hl0', Hpl;
        destruct Hload as [Hload|Hload]; [congruence|]; rewrite Hload;
        unfold vision_loaded_on_demand; rewrite Hl0'; cbn [negb] ];
      match goal with
      | H : same_services w0 ?W |- _ =>
          let w2 := fresh "w2" in
          set (w2 := W) in *;
          assert (same_services w w2) as Hsame2
            by (destruct Hsame0 as (?&?&?&?&?&?&?&?&?&?), H as (?&?&?&?&?&?&?&?&?&?);
                repeat split; congruence);
          clear H Hsame0 Hpl Hl0 Hl0'; clearbody w2
      end
  end.

(** X12.  With a resolved token, a readable image and no failing provider, POST
    /api/vision/analyze answers 200 whether the pipeline was loaded at
    start-up or is loaded by this request; it stores the image under the
    caller's id and one row owned by the caller with the caption, and it
    leaves the model service loaded. *)
Theorem image_is_analyzed_with_the_model_loaded_on_demand (image : UploadFile)
    (h mode text : string) (u : auth_user) (r : dict) (rest : list value) (w : World) :
  missing_or_invalid (Some h) = false ->
  auth_users w !! bearer_token h = Some u ->
  faults w OpGetUser = None -> faults w OpUpload = None ->
  faults w OpPublicUrl = None -> faults w OpInsert = None ->
  model_loaded (vision_model_service w) = true
  \/ pipeline_load w "image-to-text" vision_model.model_name = None ->
  image_open w (file image) = Ok mode ->
  vision_pipe w (file image) None = Ok (VList (VDict r :: rest)) ->
  assoc "generated_text" r = Some (VStr text) ->
  let path := upload_path w u (filename image) "jpg" in
  let url := public_url_prefix w ++ supabase_service.STORAGE_BUCKET ++ "/" ++ path in
  let row := vision_row w u url text in
  let (resp, w') := serve (POST_vision_analyze image (Some h)) w in
  resp = {| status_code := 200;
            content := VDict [("success", VBool true);
                              ("message", VStr "Image analyzed successfully");
                              ("data", VDict row)] |} /\
  rows_of "vision_analysis" w' = (rows_of "vision_analysis" w ++ [row])%list /\
  storage w' = (storage w ++ [(supabase_service.STORAGE_BUCKET, path, file image)])%list /\
  model_loaded (vision_model_service w') = true.
Proof.
  intros Hh Hu Hf Hup Hurl Hins Hload Himg Hpipe Htext path url row.
  run_to_decoding h u w Hh Hu Hf Hup Hurl Hload.
  all: destruct Hsame2 as (Hau & Hfa & Hn & Hc & Hio & Hvp & _ & Hr & He & Ht).
  all: unfold Image_open; mrun; rewrite Hio, Himg; mrun.
  all: rewrite (generate_description_ok _ w2 r rest text Hl);
    [| cbn [img_bytes]; rewrite Hvp; exact Hpipe | exact Htext ].
  all: mrun; unfold vision_model.printable; mrun.
  all: match goal with
       | |- context [supabase_service.create_vision_analysis ?t ?a ?b ?c ?d ?W] =>
           destruct (create_vision_analysis_spec t u W a b c d) as (q & ->);
             [ cbn [auth_users logged with_log]; rewrite Hau; exact Hu
             | cbn [faults logged with_log]; rewrite Hfa; exact Hf |]
       end.
  all: cbn [faults next_id clock logged with_log]; rewrite Hfa, Hins, Hn, Hc, Hr, He.
  all: mrun.
  all: split; [reflexivity|]; split; [|split].
  all: first [ rewrite rows_of_with_table; unfold rows_of;
               cbn [tables logged with_log]; rewrite Ht; reflexivity
             | exact Hst | exact Hl ].
Qed.

Lemma image_is_analyzed_with_the_model_loaded_on_demand_witness :
  let w := Demo.world Demo.no_faults Demo.ready in
  let w' := (serve (POST_vision_analyze Demo.xray (Some "Bearer token-a")) w).2 in
  model_loaded (vision_model_service w') = true.
Proof.
  pose proof (image_is_analyzed_with_the_model_loaded_on_demand Demo.xray
                "Bearer token-a" "RGB" "a chest x-ray" Demo.alice
                [("generated_text", VStr "a chest x-ray")] []
                (Demo.world Demo.no_faults Demo.ready)
                eq_refl eq_refl eq_refl eq_refl eq_refl eq_refl
                (or_introl eq_refl) eq_refl eq_refl eq_refl) as H.
  cbv zeta in *.
  destruct (serve (POST_vision_analyze Demo.xray (Some "Bearer token-a")) _).
  exact (proj2 (proj2 (proj2 H))).
Defined.

(** X13.  POST /api/vision/analyze uploads before it decodes: when the image
    cannot be decoded, or when the insert of the row fails, the answer is
    500 and the uploaded object stays in the bucket, with no row for it. *)
Theorem uploaded_image_stays_when_the_analysis_fails (image : UploadFile)
    (h msg : string) (u : auth_user) (w : World) :
  missing_or_invalid (Some h) = false ->
  auth_users w !! bearer_token h = Some u ->
  faults w OpGetUser = None -> faults w OpUpload = None ->
  faults w OpPublicUrl = None ->
  model_loaded (vision_model_service w) = true
  \/ pipeline_load w "image-to-text" vision_model.model_name = None ->
  let path := upload_path w u (filename image) "jpg" in
  let failed detail (rw : response * World) :=
    rw.1 = {| status_code := 500;
              content := VDict [("detail", VStr ("Failed to analyze image: " ++ detail))] |} /\
    storage rw.2 = (storage w ++ [(supabase_service.STORAGE_BUCKET, path, file image)])%list /\
    tables rw.2 = tables w in
  (image_open w (file image) = Error msg ->
   failed msg (serve (POST_vision_analyze image (Some h)) w)) /\
  (forall mode r rest text,
     image_open w (file image) = Ok mode ->
     vision_pipe w (file image) None = Ok (VList (VDict r :: rest)) ->
     assoc "generated_text" r = Some (VStr text) ->
     faults w OpInsert = Some msg ->
     failed ("400: " ++ msg) (serve (POST_vision_analyze image (Some h)) w)).
Proof.
  intros Hh Hu Hf Hup Hurl Hload path failed. split.
  - intros Himg. unfold failed.
    run_to_decoding h u w Hh Hu Hf Hup Hurl Hload.
    all: destruct Hsame2 as (Hau & Hfa & Hn & Hc & Hio & Hvp & _ & Hr & He & Ht).
    all: unfold Image_open; mrun; rewrite Hio, Himg; mrun.
    all: split; [reflexivity|]; split; [exact Hst | exact Ht].
  - intros mode r rest text Himg Hpipe Htext Hins. unfold failed.
    run_to_decoding h u w Hh Hu Hf Hup Hurl Hload.
    all: destruct Hsame2 as (Hau & Hfa & Hn & Hc & Hio & Hvp & _ & Hr & He & Ht).
    all: unfold Image_open; mrun; rewrite Hio, Himg; mrun.
    all: rewrite (generate_description_ok _ w2 r rest text Hl);
      [| cbn [img_bytes]; rewrite Hvp; exact Hpipe | exact Htext ].
    all: mrun; unfold vision_model.printable; mrun.
    all: match goal with
         | |- context [supabase_service.create_vision_analysis ?t ?a ?b ?c ?d ?W] =>
             destruct (create_vision_analysis_spec t u W a b c d) as (q & ->);
               [ cbn [auth_users logged with_log]; rewrite Hau; exact Hu
               | cbn [faults logged with_log]; rewrite Hfa; exact Hf |]
         end.
    all: cbn [faults next_id clock logged with_log]; rewrite Hfa, Hins.
    all: mrun.
    all: split; [reflexivity|]; split; [exact Hst | exact Ht].
Qed.

Lemma uploaded_image_stays_when_the_analysis_fails_witness :
  let w := Demo.world Demo.insert_fails Demo.ready in
  let rw := serve (POST_vision_analyze Demo.xray (Some "Bearer token-a")) w in
  status_code rw.1 = 500 /\
  storage rw.2 = [(supabase_service.STORAGE_BUCKET, "user-a/uuid-0.png", file Demo.xray)].
Proof.
  pose proof (proj2 (uploaded_image_stays_when_the_analysis_fails Demo.xray
                "Bearer token-a" "connection refused" Demo.alice
                (Demo.world Demo.insert_fails Demo.ready)
                eq_refl eq_refl eq_refl eq_refl eq_refl (or_introl eq_refl))
                "RGB" [("generated_text", VStr "a chest x-ray")] [] "a chest x-ray"
                eq_refl eq_refl eq_refl eq_refl) as (H1 & H2 & _).
  cbv zeta. split; [exact (f_equal status_code H1) | exact H2].
Defined.

End VisionAnalyze.

(** ** The checks of POST /api/pneumonia/analyze, the routes of /api/auth and the upload *)

Section XrayChecks.

(** X14.  POST /api/pneumonia/analyze rejects an empty file with 400 before it
    looks at the model or the token, and a file that cannot be decoded with
    500 before it uploads anything: in both cases the world is left as it
    was.  When the pipeline fails, the image is already uploaded: the answer
    is 500 and the object stays in the bucket, with no row for it. *)
Theorem xray_is_checked_before_it_is_stored (image : UploadFile) (h msg : string)
    (w : World) :
  missing_or_invalid (Some h) = false ->
  let answer code detail w' :=
    ({| status_code := code; content := VDict [("detail", VStr detail)] |}, w') in
  (file image = [] ->
   serve (POST_pneumonia_analyze image (Some h)) w = answer 400 "Empty image file" w) /\
  (file image <> [] ->
   model_loaded (pneumonia_model_service w) = true ->
   image_open w (file image) = Error msg ->
   serve (POST_pneumonia_analyze image (Some h)) w
   = answer 500 ("Failed to analyze X-ray: " ++ msg) w) /\
  (forall mode u,
     file image <> [] ->
     model_loaded (pneumonia_model_service w) = true ->
     image_open w (file image) = Ok mode ->
     auth_users w !! bearer_token h = Some u ->
     faults w OpGetUser = None -> faults w OpUpload = None ->
     faults w OpPublicUrl = None ->
     pneumonia_pipe w (file image) = Error msg ->
     let path := upload_path w u (filename image) "jpg" in
     exists w',
       serve (POST_pneumonia_analyze image (Some h)) w
       = answer 500 ("Failed to analyze X-ray: Failed to classify X-ray: " ++ msg) w' /\
       storage w' = (storage w ++ [("pneumonia_images", path, file image)])%list /\
       tables w' = tables w).
Proof.
  intros Hh answer. unfold answer. split; [|split].
  - intros Hfile. unfold serve. cbn [handler].
    unfold pneumonia.analyze_xray. munfold. rewrite (bearer_ok h w Hh).
    rewrite Hfile. reflexivity.
  - intros Hfile Hl Himg. unfold serve. cbn [handler].
    unfold pneumonia.analyze_xray. munfold. rewrite (bearer_ok h w Hh).
    destruct (file image) as [|b0 bs] eqn:E; [congruence|]. cbn [length Nat.eqb].
    rewrite <- E in *.
    unfold pneumonia_model.get_loading_status. mrun.
    unfold loading_status_dict. rewrite Hl. mrun.
    unfold Image_open. mrun. rewrite Himg. mrun. reflexivity.
  - intros mode u Hfile Hl Himg Hu Hf Hup Hurl Hpipe. cbv zeta. unfold serve.
    cbn [handler].
    unfold pneumonia.analyze_xray. munfold. rewrite (bearer_ok h w Hh).
    destruct (file image) as [|b0 bs] eqn:E; [congruence|]. cbn [length Nat.eqb].
    rewrite <- E in *.
    unfold pneumonia_model.get_loading_status. mrun.
    unfold loading_status_dict. rewrite Hl. mrun.
    unfold Image_open. mrun. rewrite Himg. mrun.
    unfold supabase_service.upload_pneumonia_image.
    rewrite (upload_to_ok _ _ _ _ _ u w Hu Hf Hup Hurl). mrun.
    unfold pneumonia_model.classify_xray. munfold.
    unfold uploaded at 1. wsimpl. rewrite Hl. cbn [negb].
    assert (forall i : Image, img_bytes (if negb (String.eqb (img_mode i) "RGB")
                     then convert "RGB" i else i) = img_bytes i) as ->
      by (intros i; destruct (negb _); reflexivity).
    cbn [img_bytes].
    unfold uploaded at 1. wsimpl. rewrite Hpipe. mrun.
    eexists. split; [reflexivity|]. split; reflexivity.
Qed.

Lemma xray_is_checked_before_it_is_stored_witness :
  serve (POST_pneumonia_analyze {| filename := "empty.png"; file := [] |}
           (Some "Bearer nobody")) Demo.w0
  = ({| status_code := 400; content := VDict [("detail", VStr "Empty image file")] |},
     Demo.w0).
Proof.
  apply (xray_is_checked_before_it_is_stored
           {| filename := "empty.png"; file := [] |} "Bearer nobody" "" Demo.w0 eq_refl).
  reflexivity.
Defined.

End XrayChecks.

Section AuthRoutes.

(** X15.  GET /api/auth/user makes the one call [get_user] and answers with what
    the identity provider resolves the token to: 200 with the user, or 401
    when the token is unknown or the provider fails. *)
Theorem auth_user_answers_what_the_token_resolves_to (h : string) (w : World) :
  missing_or_invalid (Some h) = false ->
  serve (GET_auth_user (Some h)) w
  = (match resolve w (bearer_token h) with
     | VNone => {| status_code := 401;
                   content := VDict [("detail", VStr "Invalid or expired token")] |}
     | user => {| status_code := 200;
                  content := VDict [("success", VBool true); ("data", user)] |}
     end, logged (CallGetUser (bearer_token h)) w).
Proof.
  intros Hh. unfold serve. cbn [handler]. unfold auth.get_user. munfold.
  rewrite (bearer_ok h w Hh), get_user_spec. unfold resolve.
  destruct (faults w OpGetUser); [reflexivity|].
  destruct (auth_users w !! bearer_token h); reflexivity.
Qed.

Lemma auth_user_answers_what_the_token_resolves_to_witness :
  serve (GET_auth_user (Some "Bearer token-a")) Demo.w0
  = ({| status_code := 200;
        content := VDict [("success", VBool true); ("data", user_dict Demo.alice)] |},
     logged (CallGetUser "token-a") Demo.w0).
Proof.
  apply (auth_user_answers_what_the_token_resolves_to "Bearer token-a" Demo.w0).
  reflexivity.
Defined.

(** X16.  The login answers 200 exactly when the provider call succeeds with a
    user and a session, and 401 otherwise (a failing provider included); the
    signup answers 200 exactly when the provider call succeeds with a user,
    and 400 otherwise. *)
Theorem login_and_signup_succeed_with_the_provider (w : World) :
  (forall r : auth.SignInRequest,
     let code := status_code (serve (POST_auth_login r) w).1 in
     (code = 200 <->
      faults w OpSignIn = None /\
      exists u s, sign_in_result w (auth.si_email r) (auth.si_password r)
                  = Ok (Some (u, Some s))) /\
     (code = 200 \/ code = 401)) /\
  (forall r : auth.SignUpRequest,
     let code := status_code (serve (POST_auth_signup r) w).1 in
     (code = 200 <->
      faults w OpSignUp = None /\
      exists u s, sign_up_result w (auth.su_email r) (auth.su_password r)
                    (auth.su_full_name r) = Ok (Some (u, s))) /\
     (code = 200 \/ code = 400)).
Proof.
  split; intros r; cbv zeta; unfold serve; cbn [handler].
  - unfold auth.login, supabase_service.sign_in, Provider.auth_sign_in. munfold.
    rewrite provider_spec.
    destruct (faults w OpSignIn) as [msg|]; mrun.
    { split; [split; [discriminate | intros [? _]; discriminate] | right; reflexivity]. }
    wsimpl. cbn [sign_in_result logged with_log].
    destruct (sign_in_result w _ _) as [[[u [s|]]|]|msg]; mrun;
      unfold Provider.open_session; mrun;
      (split; [split; [first [discriminate | intros _; split; [reflexivity | eauto]]
                      | first [intros [_ (? & ? & ?)]; discriminate | intros _; reflexivity]]
              | first [left; reflexivity | right; reflexivity]]).
  - unfold auth.signup, supabase_service.sign_up, Provider.auth_sign_up. munfold.
    rewrite provider_spec.
    destruct (faults w OpSignUp) as [msg|]; mrun.
    { split; [split; [discriminate | intros [? _]; discriminate] | right; reflexivity]. }
    wsimpl. cbn [sign_up_result logged with_log].
    destruct (sign_up_result w _ _ _) as [[[u [s|]]|]|msg]; mrun;
      unfold Provider.open_session; mrun;
      (split; [split; [first [discriminate | intros _; split; [reflexivity | eauto]]
                      | first [intros [_ (? & ? & ?)]; discriminate | intros _; reflexivity]]
              | first [left; reflexivity | right; reflexivity]]).
Qed.

End AuthRoutes.

Section UploadNamespace.

(** X17.  Whatever the world, [upload_to] stores nothing, or one object with
    the bytes given, in the bucket given, at a path that starts with the id
    of the user the token resolves to followed by a slash; it touches no
    table. *)
Theorem upload_goes_under_the_id_of_the_user (bucket ext token : string)
    (data : list Byte.byte) (fname : string) (w : World) :
  let w' := (supabase_service.upload_to bucket ext token data fname w).2 in
  tables w' = tables w /\
  (storage w' = storage w \/
   exists u rest,
     auth_users w !! token = Some u /\
     storage w' = (storage w ++ [(bucket, (au_id u ++ "/" ++ rest)%string, data)])%list).
Proof.
  cbv zeta. unfold supabase_service.upload_to. munfold.
  rewrite get_user_spec. unfold resolve.
  destruct (faults w OpGetUser) eqn:Hf; mrun; [split; [reflexivity | left; reflexivity]|].
  destruct (auth_users w !! token) as [u|] eqn:Hu; mrun;
    [|split; [reflexivity | left; reflexivity]].
  unfold Provider.uuid4. mrun.
  unfold Provider.upload. munfold. rewrite provider_spec. wsimpl.
  destruct (faults w OpUpload) eqn:Hup; mrun; [split; [reflexivity | left; reflexivity]|].
  unfold Provider.get_public_url. munfold. rewrite provider_spec. wsimpl.
  destruct (faults w OpPublicUrl) eqn:Hurl; mrun;
    (split; [reflexivity | right; exists u; eexists; split; reflexivity]).
Qed.

End UploadNamespace.

(** ** POST /api/mnist/infer *)

Section FloatOrderMore.

Ltac sf_cases :=
  repeat match goal with
  | s : bool |- _ => destruct s
  | |- context [Z.compare ?a ?b] => destruct (Z.compare_spec a b)
  | |- context [Pos.compare ?a ?b] => destruct (Pos.compare_spec a b)
  end; subst; cbn; try discriminate; try lia; try reflexivity; try congruence.

Lemma SFleb_ltb_trans (x y z : spec_float) :
  SFleb x y = true -> SFltb y z = true -> SFltb x z = true.
Proof.
  unfold SFleb, SFltb, SFcompare.
  change (PosDef.Pos.compare_cont Eq) with Pos.compare.
  destruct x as [sx|sx| |sx mx ex], y as [sy|sy| |sy my ey], z as [sz|sz| |sz mz ez];
    cbn; try discriminate; try reflexivity; sf_cases.
Qed.

Lemma SFleb_refl (x : spec_float) : SFeqb x x = true -> SFleb x x = true.
Proof. unfold SFeqb, SFleb. destruct (SFcompare x x) as [[]|]; congruence. Qed.

Lemma float_leb_ltb_trans (x y z : float) :
  PrimFloat.leb x y = true -> PrimFloat.ltb y z = true -> PrimFloat.ltb x z = true.
Proof. rewrite leb_spec, !ltb_spec. apply SFleb_ltb_trans. Qed.

Lemma float_leb_refl (x : float) : is_number x -> PrimFloat.leb x x = true.
Proof.
  unfold is_number, PrimFloat.is_nan. rewrite leb_spec, FloatAxioms.eqb_spec.
  intros H. apply SFleb_refl. destruct (SFeqb _ _); [reflexivity | discriminate].
Qed.

End FloatOrderMore.

Section Argmax.

Import mnist_api.

Lemma argmax_from_spec (l pre : list float) (best_i : nat) (best : float) :
  Forall is_number (pre ++ l) ->
  first_largest pre best_i best ->
  exists p, first_largest (pre ++ l) (argmax_from best_i best (length pre) l) p.
Proof.
  revert pre best_i best. induction l as [|x l IH]; intros pre best_i best Hn Hb.
  - cbn [argmax_from]. rewrite app_nil_r. exists best. exact Hb.
  - cbn [argmax_from].
    assert (is_number best /\ is_number x) as [Hnb Hnx].
    { rewrite Forall_app, Forall_cons in Hn. destruct Hn as (Hpre & Hx & _).
      split; [|exact Hx]. destruct Hb as [Hb _].
      rewrite Forall_lookup in Hpre. exact (Hpre _ _ Hb). }
    assert (best_i < length pre) as Hlt by (destruct Hb as [Hb _]; eapply lookup_lt_Some, Hb).
    unfold is_number in Hnb, Hnx. rewrite Hnb, Hnx, orb_false_r. cbn [negb andb].
    replace (pre ++ x :: l)%list with ((pre ++ [x]) ++ l)%list in *
      by (rewrite <- app_assoc; reflexivity).
    replace (S (length pre)) with (length (pre ++ [x]))
      by (rewrite length_app; cbn; lia).
    destruct Hb as [Hb Hall].
    destruct (PrimFloat.ltb best x) eqn:Hcmp; apply IH; try exact Hn.
    + split; [apply list_lookup_middle; reflexivity|].
      intros j y Hj. destruct (decide (j < length pre)) as [Hj'|Hj'].
      * rewrite lookup_app_l in Hj by exact Hj'. destruct (Hall j y Hj) as [Hle _].
        split; [|intros _; eapply float_leb_ltb_trans; eassumption].
        eapply float_leb_trans; [exact Hle | apply float_ltb_leb, Hcmp].
      * assert (j = length pre) as ->.
        { apply lookup_lt_Some in Hj. rewrite length_app in Hj. cbn in Hj. lia. }
        rewrite list_lookup_middle in Hj by reflexivity. injection Hj as <-.
        split; [apply float_leb_refl, Hnx | lia].
    + split; [rewrite lookup_app_l by exact Hlt; exact Hb|].
      intros j y Hj. destruct (decide (j < length pre)) as [Hj'|Hj'].
      * rewrite lookup_app_l in Hj by exact Hj'. exact (Hall j y Hj).
      * assert (j = length pre) as ->.
        { apply lookup_lt_Some in Hj. rewrite length_app in Hj. cbn in Hj. lia. }
        rewrite list_lookup_middle in Hj by reflexivity. injection Hj as <-.
        split; [apply float_not_ltb_leb; assumption | lia].
Qed.

Lemma argmax_spec (p : float) (ps : list float) (w : World) :
  Forall is_number (p :: ps) ->
  exists i q, argmax (p :: ps) w = (Return (Z.of_nat i), w)
              /\ first_largest (p :: ps) i q.
Proof.
  intros Hn. unfold argmax.
  destruct (argmax_from_spec ps [p] 0 p Hn) as (q & Hq).
  - split; [reflexivity|]. intros [|j] y Hj; [|destruct j; discriminate].
    injection Hj as <-. split; [|lia].
    apply float_leb_refl. apply Forall_cons in Hn as [Hn _]. exact Hn.
  - eexists _, q. split; [reflexivity | exact Hq].
Qed.

End Argmax.

Section DigitStored.

Lemma create_mnist_analysis_ok (token : string) (u : auth_user) (w : World)
    (image_url : value) (pred : Z) (probs : list float) (fname : string) :
  auth_users w !! token = Some u ->
  faults w OpGetUser = None -> faults w OpInsert = None ->
  let row := [("user_id", VStr (au_id u)); ("image_url", image_url);
              ("prediction", VInt pred);
              ("probabilities", VList (VFloat <$> probs));
              ("filename", VStr fname);
              ("id", VInt (next_id w)); ("created_at", VInt (clock w))] in
  exists q,
    supabase_service.create_mnist_analysis token image_url pred probs fname w
    = (Return (VDict [("success", VBool true); ("data", VDict row)]),
       with_table "mnist_analyses" (rows_of "mnist_analyses" w ++ [row])
         (next_id w + 1) (clock w + 1)
         (logged (CallExecute q) (logged (CallGetUser token) w))).
Proof.
  intros Hu Hf Hi row. eexists.
  unfold supabase_service.create_mnist_analysis. munfold.
  rewrite get_user_spec, (resolve_known _ _ _ Hf Hu). mrun.
  rewrite execute_spec. mcbn. wsimpl. rewrite Hi.
  unfold Provider.run_query. mrun. wsimpl.
  reflexivity.
Qed.

(** X18.  With a resolved token, a readable image, probabilities that are
    numbers and no failing provider, POST /api/mnist/infer answers with the
    index of the first largest probability, and stores the image and one
    row owned by the caller with that prediction; the id of the row is the
    [analysis_id] of the answer. *)
Theorem digit_is_the_first_largest_probability (image : UploadFile) (h mode : string)
    (u : auth_user) (p : float) (ps : list float) (w : World) :
  missing_or_invalid (Some h) = false ->
  auth_users w !! bearer_token h = Some u ->
  faults w OpGetUser = None -> faults w OpUpload = None ->
  faults w OpPublicUrl = None -> faults w OpInsert = None ->
  image_open w (file image) = Ok mode ->
  mnist_probs w (file image) = Ok (p :: ps) ->
  Forall is_number (p :: ps) ->
  let path := upload_path w u (filename image) "png" in
  let url := public_url_prefix w ++ "mnist_images" ++ "/" ++ path in
  exists (pred : nat) (q : float) (row : dict) (w' : World),
    serve (POST_mnist_infer image (Some h)) w
    = ({| status_code := 200;
          content := VDict [("success", VBool true);
                            ("prediction", VInt (Z.of_nat pred));
                            ("probabilities", VList (VFloat <$> p :: ps));
                            ("image_url", VStr url);
                            ("analysis_id", VInt (next_id w))] |}, w') /\
    first_largest (p :: ps) pred q /\
    rows_of "mnist_analyses" w' = (rows_of "mnist_analyses" w ++ [row])%list /\
    owned_by (au_id u) row = true /\ has_id (next_id w) row = true /\
    assoc "prediction" row = Some (VInt (Z.of_nat pred)) /\
    storage w' = (storage w ++ [("mnist_images", path, file image)])%list.
Proof.
  intros Hh Hu Hf Hup Hurl Hins Himg Hprobs Hn path url.
  unfold serve. cbn [handler].
  unfold mnist_api.mnist_infer. munfold. rewrite (bearer_ok h w Hh).
  unfold Image_open. mrun. rewrite Himg. mrun. wsimpl. cbn [convert img_bytes].
  cbn [mnist_probs logged with_log]. rewrite Hprobs. mrun.
  match goal with
  | |- context [mnist_api.argmax (p :: ps) ?W] =>
      destruct (argmax_spec p ps W Hn) as (pred & q & -> & Hq)
  end.
  unfold supabase_service.upload_mnist_image.
  match goal with
  | |- context [supabase_service.upload_to ?b ?e ?t ?d ?f ?W] =>
      rewrite (upload_to_ok b e t d f u W Hu Hf Hup Hurl)
  end.
  mrun.
  match goal with
  | |- context [supabase_service.create_mnist_analysis ?t ?a ?b ?c ?d ?W] =>
      destruct (create_mnist_analysis_ok t u W a b c d) as (qq & ->);
        [exact Hu | exact Hf | exact Hins |]
  end.
  mrun. unfold uploaded. wsimpl.
  exists pred, q. eexists. eexists. split; [reflexivity|].
  split; [exact Hq|]. split; [apply rows_of_with_table|].
  unfold owned_by, has_id. cbn [assoc String.eqb Ascii.eqb Bool.eqb].
  rewrite String.eqb_refl, Z.eqb_refl. repeat split.
Qed.

Lemma digit_is_the_first_largest_probability_witness :
  status_code (serve (POST_mnist_infer Demo.xray (Some "Bearer token-a")) Demo.w0).1 = 200
  /\ field "prediction"
       (serve (POST_mnist_infer Demo.xray (Some "Bearer token-a")) Demo.w0).1
     = Some (VInt 0).
Proof.
  assert (Forall is_number [0.5%float; 0.5%float]) as Hn by (repeat constructor).
  destruct (digit_is_the_first_largest_probability Demo.xray "Bearer token-a" "RGB"
              Demo.alice 0.5%float [0.5%float] Demo.w0
              eq_refl eq_refl eq_refl eq_refl eq_refl eq_refl eq_refl eq_refl Hn)
    as (pred & q & row & w' & E & _).
  split; [rewrite E; reflexivity | reflexivity].
Defined.

End DigitStored.

(** ** The rows of the other users *)

Section Isolation.

Context (token : string) (u : auth_user).

Lemma apart_refl (w : World) : apart u w w.
Proof. split; reflexivity. Qed.

Lemma apart_trans (w1 w2 w3 : World) : apart u w1 w2 -> apart u w2 w3 -> apart u w1 w3.
Proof.
  intros [H1 H2] [H1' H2']. split; [|congruence].
  intros t. rewrite H1', H1. reflexivity.
Qed.

Lemma apart_same_tables (w w' : World) :
  tables w' = tables w -> auth_users w' = auth_users w -> apart u w w'.
Proof.
  intros Ht Hu. split; [|exact Hu]. intros t. unfold rows_of_others, rows_of.
  rewrite Ht. reflexivity.
Qed.

Lemma as_user_ret {A} (a : A) (Q : A -> Prop) : Q a -> as_user token u (ret a) Q.
Proof. intros H w _. split; [apply apart_refl | exact H]. Qed.

Lemma as_user_raise {A} (e : exn) (Q : A -> Prop) : as_user token u (raise e) Q.
Proof. intros w _. split; [apply apart_refl | exact I]. Qed.

Lemma as_user_get_world : as_user token u get_world (fun _ => True).
Proof. intros w _. split; [apply apart_refl | exact I]. Qed.

Lemma as_user_of_result {A} (r : result A) : as_user token u (of_result r) (fun _ => True).
Proof. intros w _. split; [apply apart_refl | destruct r; exact I]. Qed.

Lemma as_user_modify (f : World -> World) :
  (forall w, tables (f w) = tables w /\ auth_users (f w) = auth_users w) ->
  as_user token u (modify f) (fun _ => True).
Proof.
  intros H w _. split; [|exact I]. destruct (H w). apply apart_same_tables; assumption.
Qed.

Lemma as_user_record_call (c : call) : as_user token u (record_call c) (fun _ => True).
Proof. intros w _. split; [apply apart_same_tables; reflexivity | exact I]. Qed.

Lemma as_user_bind {A B} (m : M A) (k : A -> M B) (Q1 : A -> Prop) (Q : B -> Prop) :
  as_user token u m Q1 -> (forall a, Q1 a -> as_user token u (k a) Q) ->
  as_user token u (bind m k) Q.
Proof.
  intros Hm Hk w Hw. unfold bind. destruct (Hm w Hw) as [Hu Hq].
  destruct (m w) as [[a|e] w']; cbn [fst snd] in *.
  - assert (auth_users w' !! token = Some u) as Hw'
      by (destruct Hu as [_ ->]; exact Hw).
    destruct (Hk a Hq w' Hw') as [Hu' Hq']. split; [|exact Hq'].
    eapply apart_trans; eassumption.
  - split; [exact Hu | exact I].
Qed.

Lemma as_user_bind_ret {A B} (a : A) (k : A -> M B) (Q : B -> Prop) :
  as_user token u (k a) Q -> as_user token u (bind (ret a) k) Q.
Proof. intros H. exact H. Qed.

Lemma as_user_bind_raise {A B} (e : exn) (k : A -> M B) (Q : B -> Prop) :
  as_user token u (bind (raise e) k) Q.
Proof. intros w _. split; [apply apart_refl | exact I]. Qed.

Lemma as_user_try_except {A} (m : M A) (h : exn -> M A) (Q : A -> Prop) :
  as_user token u m Q -> (forall e, as_user token u (h e) Q) ->
  as_user token u (try_except m h) Q.
Proof.
  intros Hm Hh w Hw. unfold try_except. destruct (Hm w Hw) as [Hu Hq].
  destruct (m w) as [[a|e] w']; cbn [fst snd] in *.
  - split; assumption.
  - assert (auth_users w' !! token = Some u) as Hw'
      by (destruct Hu as [_ ->]; exact Hw).
    destruct (Hh e w' Hw') as [Hu' Hq']. split; [|exact Hq'].
    eapply apart_trans; eassumption.
Qed.

Lemma as_user_get_user :
  as_user token u (supabase_service.get_user token)
    (fun v => v = VNone \/ v = user_dict u).
Proof.
  intros w Hw. rewrite get_user_spec. split; [apply apart_same_tables; reflexivity|].
  cbn [fst]. unfold resolve. rewrite Hw. destruct (faults w OpGetUser); auto.
Qed.

(** A row that passes a filter on the owner is owned by that user. *)
Lemma matches_owned (filters : list (string * value)) (r : dict) :
  In ("user_id", VStr (au_id u)) filters ->
  Provider.matches filters r = true -> owned_by (au_id u) r = true.
Proof.
  intros Hin Hm. unfold Provider.matches in Hm. rewrite forallb_forall in Hm.
  specialize (Hm _ Hin). cbn [fst snd] in Hm. unfold owned_by.
  destruct (assoc "user_id" r) as [[]|]; try discriminate Hm. exact Hm.
Qed.

Lemma assoc_dict_update_none (k : string) (r data : dict) :
  assoc k data = None -> assoc k (dict_update r data) = assoc k r.
Proof.
  unfold dict_update. revert r. induction data as [|[k0 v0] data IH]; intros r Hk;
    [reflexivity|].
  cbn [fold_left fst snd]. cbn [assoc] in Hk.
  destruct (String.eqb k k0) eqn:E; [discriminate|].
  rewrite IH by exact Hk. apply assoc_dict_set_ne, E.
Qed.

Lemma others_after_update (hit : dict -> bool) (f : dict -> dict) (rows : list dict) :
  (forall r, hit r = true -> owned_by (au_id u) r = true) ->
  (forall r, owned_by (au_id u) (f r) = owned_by (au_id u) r) ->
  List.filter (fun r => negb (owned_by (au_id u) r))
    ((fun r => if hit r then f r else r) <$> rows)
  = List.filter (fun r => negb (owned_by (au_id u) r)) rows.
Proof.
  intros Hhit Hf. induction rows as [|r rows IH]; [reflexivity|].
  rewrite fmap_cons. cbn [List.filter]. rewrite IH.
  destruct (hit r) eqn:Hr; [|reflexivity].
  rewrite Hf, (Hhit r Hr). reflexivity.
Qed.

Lemma others_after_delete (hit : dict -> bool) (rows : list dict) :
  (forall r, hit r = true -> owned_by (au_id u) r = true) ->
  List.filter (fun r => negb (owned_by (au_id u) r))
    (List.filter (fun r => negb (hit r)) rows)
  = List.filter (fun r => negb (owned_by (au_id u) r)) rows.
Proof.
  intros Hhit. induction rows as [|r rows IH]; [reflexivity|].
  cbn [List.filter]. destruct (hit r) eqn:Hr; cbn [negb List.filter].
  - rewrite (Hhit r Hr). exact IH.
  - rewrite IH. reflexivity.
Qed.

Lemma apart_with_table (t : string) (rows : list dict) (i c : Z) (w : World) :
  List.filter (fun r => negb (owned_by (au_id u) r)) rows = rows_of_others u t w ->
  apart u w (with_table t rows i c w).
Proof.
  intros H. split; [|reflexivity]. intros t'. unfold rows_of_others at 1.
  destruct (decide (t' = t)) as [->|Hne].
  - rewrite rows_of_with_table. exact H.
  - unfold rows_of_others, rows_of. cbn [tables with_table].
    rewrite lookup_insert_ne by congruence. reflexivity.
Qed.

Lemma as_user_run_query (q : query) :
  scoped (au_id u) q -> as_user token u (Provider.run_query q) (fun _ => True).
Proof.
  intros Hq w _. unfold Provider.run_query. munfold. unfold scoped in Hq.
  fold (rows_of (q_table q) w).
  destruct (q_verb q) as [|data|data|].
  - destruct (q_single q).
    + match goal with
      | |- context [match ?l with [] => _ | _ :: _ => _ end] => destruct l as [|? [|? ?]]
      end; (split; [apply apart_refl | exact I]).
    + split; [apply apart_refl | exact I].
  - split; [|exact I]. apply apart_with_table. rewrite List.filter_app.
    cbn [List.filter]. unfold owned_by at 2.
    rewrite !assoc_dict_set_ne by reflexivity. rewrite Hq, String.eqb_refl.
    apply app_nil_r.
  - split; [|exact I]. apply apart_with_table. destruct Hq as [Hin Hnone].
    apply others_after_update.
    + intros r. apply matches_owned, Hin.
    + intros r. unfold owned_by. rewrite assoc_dict_update_none by exact Hnone.
      reflexivity.
  - split; [|exact I]. apply apart_with_table.
    apply others_after_delete. intros r. apply matches_owned, Hq.
Qed.

End Isolation.

Lemma as_user_bearer (u : auth_user) (h : string) :
  as_user (bearer_token h) u (bearer (Some h)) (fun t => t = bearer_token h).
Proof.
  intros w _. unfold bearer. destruct (missing_or_invalid (Some h)); cbn.
  - split; [apply apart_refl | exact I].
  - split; [apply apart_refl | reflexivity].
Qed.

Ltac as_user_go :=
  cbv zeta;
  lazymatch goal with
  | |- as_user _ _ (bind (bearer (Some ?h)) _) _ =>
      apply (as_user_bind _ _ _ _ (fun t => t = bearer_token h));
      [apply as_user_bearer | intros ? ->; as_user_go]
  | |- as_user _ ?u (bind (supabase_service.get_user _) _) _ =>
      apply (as_user_bind _ _ _ _ (fun v => v = VNone \/ v = user_dict u));
      [apply as_user_get_user
      | intros ? [-> | ->]; cbv beta; mcbn; as_user_go]
  | |- as_user _ _ (bind (ret _) _) _ => apply as_user_bind_ret; cbv beta; as_user_go
  | |- as_user _ _ (bind (raise _) _) _ => apply as_user_bind_raise
  | |- as_user _ _ (bind (getitem (VDict (_ :: _)) _) _) _ => mcbn; as_user_go
  | |- as_user _ _ (bind _ _) _ =>
      apply (as_user_bind _ _ _ _ (fun _ => True)); [as_user_go | intros ? _; as_user_go]
  | |- as_user _ _ (try_except _ _) _ =>
      apply as_user_try_except; [as_user_go | intros ?; as_user_go]
  | |- as_user _ _ (ret _) _ => apply as_user_ret; exact I
  | |- as_user _ _ (raise _) _ => apply as_user_raise
  | |- as_user _ _ get_world _ => apply as_user_get_world
  | |- as_user _ _ (Provider.run_query _) _ =>
      apply as_user_run_query; unfold scoped; cbn; auto 10
  | |- as_user _ _ (modify _) _ =>
      apply as_user_modify; intros ?; split; reflexivity
  | |- as_user _ _ (record_call _) _ => apply as_user_record_call
  | |- as_user _ _ (of_result _) _ => apply as_user_of_result
  | |- as_user _ _ (if ?b then _ else _) _ => destruct b; as_user_go
  | |- as_user _ _ (match ?x with _ => _ end) _ => destruct x; as_user_go
  | |- as_user _ _ ?m _ => let h := head m in unfold h; as_user_go
  end.

Lemma handler_as_user (req : request) (h : string) (u : auth_user) :
  authorization_of req = Some (Some h) ->
  as_user (bearer_token h) u (handler req) (fun _ => True).
Proof.
  destruct req; cbn [authorization_of handler]; try discriminate;
    intros [= ->].
  all: as_user_go.
Qed.

(** X19.  Whatever a bearer-authenticated request does, and whatever the
    providers do, the rows that do not belong to the user of the token are
    afterwards what they were, in every table. *)
Theorem requests_leave_the_rows_of_others (req : request) (h : string)
    (u : auth_user) (t : string) (w : World) :
  authorization_of req = Some (Some h) ->
  auth_users w !! bearer_token h = Some u ->
  rows_of_others u t (serve req w).2 = rows_of_others u t w.
Proof.
  intros Hreq Hu. rewrite serve_world.
  destruct (handler_as_user req h u Hreq w Hu) as [[H _] _]. apply H.
Qed.

Lemma requests_leave_the_rows_of_others_witness :
  rows_of_others Demo.alice "health_records"
    (serve (PUT_records_id 1 Demo.new_fields (Some "Bearer token-a")) Demo.w0).2
  = [Demo.bobs_record].
Proof.
  apply (requests_leave_the_rows_of_others
           (PUT_records_id 1 Demo.new_fields (Some "Bearer token-a"))
           "Bearer token-a" Demo.alice "health_records" Demo.w0); reflexivity.
Defined.

(** ** Reading a row by its id *)

Section ReadById.

(** What [get_row] answers, in any world: the one row of the table with the
    id that the user of the token owns, or a failure. *)
Lemma get_row_answer (t token : string) (id : Z) (w : World) :
  exists v w',
    supabase_service.get_row t token id w = (Return v, w') /\
    ((exists e, v = VDict [("success", VBool false); ("error", e)]) \/
     exists u r,
       v = VDict [("success", VBool true); ("data", VDict r)] /\
       auth_users w !! token = Some u /\
       In r (rows_of t w) /\ has_id id r = true /\ owned_by (au_id u) r = true).
Proof.
  unfold supabase_service.get_row. munfold.
  rewrite get_user_spec. unfold resolve.
  destruct (faults w OpGetUser) eqn:Hf; mrun.
  { do 2 eexists. split; [reflexivity|]. left. eexists. reflexivity. }
  destruct (auth_users w !! token) as [u|] eqn:Hu; mrun.
  2:{ do 2 eexists. split; [reflexivity|]. left. eexists. reflexivity. }
  rewrite execute_spec. mcbn. wsimpl.
  destruct (faults w OpSelect) eqn:Hs; mrun.
  { do 2 eexists. split; [reflexivity|]. left. eexists. reflexivity. }
  unfold Provider.run_query. mrun. wsimpl. fold (rows_of t w).
  rewrite filter_id_owner.
  destruct (List.filter _ (rows_of t w)) as [|r [|r' rest]] eqn:E; mrun.
  - do 2 eexists. split; [reflexivity|]. left. eexists. reflexivity.
  - do 2 eexists. split; [reflexivity|]. right. exists u, r.
    assert (In r (List.filter (fun r => has_id id r && owned_by (au_id u) r)
                    (rows_of t w))) as Hin by (rewrite E; left; reflexivity).
    apply List.filter_In in Hin as [Hin Hhit]. apply andb_true_iff in Hhit as [? ?].
    repeat split; assumption.
  - do 2 eexists. split; [reflexivity|]. left. eexists. reflexivity.
Qed.

(** X20.  A get-by-id route answers 200 only with a row of its table that has the
    id asked for and belongs to the user the token resolves to. *)
Theorem row_answered_by_id_is_the_callers (req : request) (t h : string) (id : Z)
    (w : World) :
  reads_by_id req = Some (t, id, Some h) ->
  status_code (serve req w).1 = 200 ->
  exists u r,
    auth_users w !! bearer_token h = Some u /\
    content (serve req w).1 = VDict [("success", VBool true); ("data", VDict r)] /\
    In r (rows_of t w) /\ has_id id r = true /\ owned_by (au_id u) r = true.
Proof.
  intros Hreq. unfold serve.
  assert (handler req
          = let* token := bearer (Some h) in
            let* result := supabase_service.get_row t token id in
            get_response result (match t with
                                 | "health_records" => "Record not found"
                                 | _ => "Analysis not found"
                                 end)) as ->.
  { destruct req; try discriminate Hreq; injection Hreq as <- <- <-; reflexivity. }
  munfold. destruct (missing_or_invalid (Some h)) eqn:Hh;
    [rewrite (bearer_bad _ w Hh); cbn; discriminate | rewrite (bearer_ok h w Hh)].
  destruct (get_row_answer t (bearer_token h) id w) as (v & w' & -> & [[e ->]|Hrow]).
  - unfold get_response. mrun. cbn. discriminate.
  - destruct Hrow as (u & r & -> & Hu & Hin & Hid & Hown).
    unfold get_response. mrun. intros _. exists u, r. repeat split; assumption.
Qed.

Lemma row_answered_by_id_is_the_callers_witness :
  exists u r,
    auth_users Demo.w0 !! bearer_token "Bearer token-b" = Some u /\
    content (serve (GET_records_id 1 (Some "Bearer token-b")) Demo.w0).1
    = VDict [("success", VBool true); ("data", VDict r)] /\
    In r (rows_of "health_records" Demo.w0) /\ has_id 1 r = true /\
    owned_by (au_id u) r = true.
Proof.
  apply (row_answered_by_id_is_the_callers (GET_records_id 1 (Some "Bearer token-b"))
           "health_records" "Bearer token-b" 1 Demo.w0); reflexivity.
Defined.

End ReadById.

(** ** The history routes *)

Section History.




End History.

(** ** Severity and recommendation together *)

Section SeverityAndRecommendation.

Import pneumonia_model.
Open Scope float_scope.

Lemma above (k k' c : float) :
  (k <=? k') = true -> (k' <=? c) = true -> (k <=? c) = true.
Proof. apply float_leb_trans. Qed.

(** X22.  The two texts of a classification agree where their thresholds allow:
    the high severity always comes with the high-priority recommendation,
    the low-priority recommendation always comes with the low severity, the
    unclear severity comes exactly with the inconclusive recommendation, and
    the severity "Normal" exactly with a label other than the positive
    class. *)
Theorem severity_and_recommendation_agree (label : string) (c : float) :
  (severity_of label c = "High Confidence - Pneumonia Detected" ->
   recommendation_of label c
   = "⚠️ HIGH PRIORITY: Pneumonia detected with high confidence. Immediate medical consultation strongly recommended.") /\
  (recommendation_of label c
   = "⚠️ LOW PRIORITY: Possible pneumonia indication. Monitor symptoms and consider medical consultation if condition worsens." ->
   severity_of label c = "Low Confidence - Pneumonia Possible") /\
  (severity_of label c = "Very Low Confidence - Unclear" <->
   recommendation_of label c
   = "Results inconclusive. If experiencing respiratory symptoms, please consult a healthcare provider.") /\
  (severity_of label c = "Normal" <-> is_pneumonia_label label = false).
Proof.
  unfold severity_of, recommendation_of, _determine_severity, _get_recommendation.
  pose proof (above 0.90 0.95 c eq_refl) as H1.
  pose proof (above 0.80 0.90 c eq_refl) as H2.
  pose proof (above 0.75 0.80 c eq_refl) as H3.
  pose proof (above 0.60 0.75 c eq_refl) as H4.
  destruct (is_pneumonia_label label); cbn [negb].
  - destruct (0.95 <=? c), (0.90 <=? c), (0.80 <=? c), (0.75 <=? c), (0.60 <=? c);
      try discriminate (H1 eq_refl); try discriminate (H2 eq_refl);
      try discriminate (H3 eq_refl); try discriminate (H4 eq_refl);
      repeat split; intros; first [reflexivity | discriminate].
  - destruct (0.90 <=? c); repeat split; intros; first [reflexivity | discriminate].
Qed.

End SeverityAndRecommendation.

(** ** The status routes and POST /api/clip/similarity *)

Section StatusRoutes.

(** X23.  The root, the health check and the four status routes answer 200 in
    every world and leave it as it is, and their answer depends on nothing
    but the state of the three model services. *)
Theorem status_routes_read_the_model_services_only (req : request) (w w' : World) :
  reports_status req = true ->
  (serve req w).2 = w /\
  status_code (serve req w).1 = 200 /\
  (vision_model_service w' = vision_model_service w ->
   pneumonia_model_service w' = pneumonia_model_service w ->
   clip_model_service w' = clip_model_service w ->
   (serve req w').1 = (serve req w).1).
Proof.
  intros Hreq. destruct req; try discriminate Hreq; clear Hreq.
  all: split; [reflexivity|]; split; [reflexivity|].
  all: intros Hv Hp Hc; unfold serve; cbn [handler];
    cbv -[pretty vision_model_service pneumonia_model_service clip_model_service];
    rewrite ?Hv, ?Hp, ?Hc; reflexivity.
Qed.

Lemma status_routes_read_the_model_services_only_witness :
  (serve GET_vision_status (Demo.world Demo.insert_fails Demo.not_started)).2
  = Demo.world Demo.insert_fails Demo.not_started /\
  field "model_name" (serve GET_vision_status (Demo.world Demo.insert_fails Demo.not_started)).1
  = Some VNone.
Proof.
  split.
  - apply (status_routes_read_the_model_services_only GET_vision_status
             (Demo.world Demo.insert_fails Demo.not_started) Demo.w0 eq_refl).
  - reflexivity.
Defined.

End StatusRoutes.

Section ClipStored.




End ClipStored.
